(** * django-cropduster: thumbnail geometry, resizing and regeneration

    A shallow embedding of three source files of the repository:

    - [cropduster/models.py]: [ImageSize] and its geometry helpers, the
      attributes of an instance of [Image], and [Image.thumbnail_path]
      (next to its caller [get_sizes]);
    - [cropduster/utils/image.py]: [is_animated_gif], [process_image],
      [smart_resize];
    - [cropduster/management/commands/regenerate_thumbs.py]:
      [Command.get_sizes], [Command.resize_image].

    Conventions.  Python integers are [Z].  Python floats are IEEE 754
    binary64 numbers, the kernel's primitive floats: a float operation of
    the modelled code is the rounded operation, the conversion of an
    integer rounds to the nearest float (ties to even) and overflows
    beyond the float range, and [int] of a float truncates its exact
    value.  Two places are written on rationals: [smart_resize], whose
    ratios in eighths and factor 1.5 are dyadic, so that its products
    are exact for image sizes; and the frame duration that
    [process_image] hands to [write_gif], recorded as the quotient
    [duration_ms / 1000] of which the code passes the nearest float.
    [None] is [None] of an option type.  An exception is the [Raise] constructor of [result].
    Dictionaries and sets are stdpp's [gmap] and [gset]. *)

From Stdlib Require Import ZArith QArith Qround Lqa Ascii String List Lia.
From Stdlib Require Floats.
From stdpp Require Import base option list gmap strings.

Local Open Scope string_scope.
Local Open Scope Z_scope.

(** ** Python values shared by the three files *)

Module Py.

(** The exceptions the modelled code can raise. *)
Inductive exn : Type :=
| TypeError (msg : string)
| ZeroDivisionError
| UnboundLocalError (var : string)
| OSError (path : string)
| EOFError
| SystemExit (msg : string)
| Exception (msg : string)
| ValueError (msg : string)
| OverflowError (msg : string)
| AttributeError (msg : string)
| IndexError (msg : string)
| IOError (msg : string)
| KeyboardInterrupt.

(** [except Exception] catches every exception whose class derives from
    [Exception]: all of the above but [SystemExit] and
    [KeyboardInterrupt]. *)
Definition is_Exception (e : exn) : bool :=
  match e with
  | SystemExit _ | KeyboardInterrupt => false
  | _ => true
  end.

Inductive result (A : Type) : Type :=
| Ok (a : A)
| Raise (e : exn).
Arguments Ok {A} a.
Arguments Raise {A} e.

Definition bind {A B} (r : result A) (k : A -> result B) : result B :=
  match r with
  | Ok a => k a
  | Raise e => Raise e
  end.

(** A number is an [int] or a [float]. *)
Inductive num : Type :=
| PyInt (z : Z)
| PyFloat (x : PrimFloat.float).

(** The conversion of an integer to a float: the nearest float, ties to
    even; an integer that rounds beyond the largest float raises. *)
Definition float_of_int (z : Z) : result PrimFloat.float :=
  match SpecFloat.binary_normalize FloatOps.prec FloatOps.emax z 0 false with
  | SpecFloat.S754_infinity _ =>
      Raise (OverflowError "long int too large to convert to float")
  | sf => Ok (FloatOps.SF2Prim sf)
  end.

(** [int(x)] on a float: its exact value truncated toward zero. *)
Definition int_of_float (x : PrimFloat.float) : result Z :=
  match FloatOps.Prim2SF x with
  | SpecFloat.S754_nan =>
      Raise (ValueError "cannot convert float NaN to integer")
  | SpecFloat.S754_infinity _ =>
      Raise (OverflowError "cannot convert float infinity to integer")
  | SpecFloat.S754_zero _ => Ok 0
  | SpecFloat.S754_finite s m e =>
      let v := if 0 <=? e then Z.pos m * 2 ^ e else Z.pos m / 2 ^ (- e) in
      Ok (if s then - v else v)
  end.

(** The exact value of a finite float. *)
Definition exact (x : PrimFloat.float) : option Q :=
  match FloatOps.Prim2SF x with
  | SpecFloat.S754_zero _ => Some 0%Q
  | SpecFloat.S754_finite s m e =>
      let v := if 0 <=? e then inject_Z (Z.pos m * 2 ^ e)
               else (Z.pos m # Z.to_pos (2 ^ (- e)))%Q in
      Some (if s then (- v)%Q else v)
  | _ => None
  end.

(** [float(x)]. *)
Definition float (n : num) : result PrimFloat.float :=
  match n with
  | PyInt z => float_of_int z
  | PyFloat x => Ok x
  end.

(** [int(x)] on a rational, as [smart_resize] uses it on its dyadic
    products: truncation toward zero. *)
Definition Qtrunc (q : Q) : Z := Z.quot (Qnum q) (Zpos (Qden q)).

(** [int(x)]. *)
Definition int (n : num) : result Z :=
  match n with
  | PyInt z => Ok z
  | PyFloat x => int_of_float x
  end.

(** Truthiness of a number and of an optional integer field ([None],
    [0], [0.0] and [-0.0] are false; a nan is true). *)
Definition truthy_num (n : num) : bool :=
  match n with
  | PyInt z => negb (z =? 0)
  | PyFloat x => negb (PrimFloat.eqb x PrimFloat.zero)
  end.

Definition truthy_int (o : option Z) : bool :=
  match o with
  | Some z => negb (z =? 0)
  | None => false
  end.

(** Truthiness of an optional string ([None] and the empty string are
    false). *)
Definition truthy_str (o : option string) : bool :=
  match o with
  | Some s => negb (String.eqb s "")
  | None => false
  end.

(** Python 2 [a / b] without [from __future__ import division]: floor
    division on two ints; as soon as one side is a float the other is
    converted and the floats are divided; a zero divisor raises. *)
Definition div (a b : num) : result num :=
  match a, b with
  | PyInt x, PyInt y =>
      if y =? 0 then Raise ZeroDivisionError else Ok (PyInt (x / y))
  | _, _ =>
      bind (float a) (fun x =>
      bind (float b) (fun y =>
      if PrimFloat.eqb y PrimFloat.zero then Raise ZeroDivisionError
      else Ok (PyFloat (PrimFloat.div x y))))
  end.

(** [a * b]: exact on two ints, the float product otherwise. *)
Definition mul (a b : num) : result num :=
  match a, b with
  | PyInt x, PyInt y => Ok (PyInt (x * y))
  | _, _ =>
      bind (float a) (fun x =>
      bind (float b) (fun y => Ok (PyFloat (PrimFloat.mul x y))))
  end.

(** Python 2 [round(x, 2)] on a float: the exact value of [x] rounded to
    two decimals, an exact half away from zero, and the float nearest to
    that decimal; zeros, infinities and nans are returned as they
    are. *)
Definition round2 (x : PrimFloat.float) : PrimFloat.float :=
  match FloatOps.Prim2SF x with
  | SpecFloat.S754_finite s m e =>
      (* |x| * 100 = n / d *)
      let n := if 0 <=? e then Z.pos m * 2 ^ e * 100 else Z.pos m * 100 in
      let d := if 0 <=? e then 1 else 2 ^ (- e) in
      let k := (2 * n + d) / (2 * d) in
      FloatOps.SF2Prim
        (SpecFloat.SFdiv FloatOps.prec FloatOps.emax
           (match k with
            | Z.pos p => SpecFloat.S754_finite s p 0
            | _ => SpecFloat.S754_zero s
            end)
           (SpecFloat.S754_finite false 100 0))
  | _ => x
  end.

(** [round(x, 2)] on a number: an int is converted first. *)
Definition round (n : num) : result num :=
  bind (float n) (fun x => Ok (PyFloat (round2 x))).

(** Calling an attribute that holds [None] or a number: such a value is
    not callable. *)
Definition call_field {A} (field : option num) : result A :=
  Raise (TypeError "object is not callable").

(** Python 2 orders [None] below every integer. *)
Definition ge (a b : option Z) : bool :=
  match a, b with
  | _, None => true
  | None, Some _ => false
  | Some x, Some y => y <=? x
  end.

End Py.

Notation "x <- r ;; k" := (Py.bind r (fun x => k))
  (at level 100, r at next level, right associativity).

(** ** cropduster/models.py *)

Module models.
Import Py.

(** The columns of [ImageSize] that the geometry helpers read. *)
Record ImageSize : Type := {
  slug : string;
  height : option Z;
  width : option Z;
  aspect_ratio : option num;
  auto_crop : bool;
  retina : bool
}.

Definition get_height (self : ImageSize) : result (option Z) :=
  match height self, width self, aspect_ratio self with
  | None, Some w, Some r =>
      if negb (w =? 0) && truthy_num r
      then q <- div (PyInt w) r ;; z <- int q ;; Ok (Some z)
      else Ok (height self)
  | _, _, _ => Ok (height self)
  end.

Definition get_width (self : ImageSize) : result (option Z) :=
  match width self, height self, aspect_ratio self with
  | None, Some h, Some r =>
      if negb (h =? 0) && truthy_num r
      then p <- mul (PyInt h) r ;; z <- int p ;; Ok (Some z)
      else Ok (width self)
  | _, _, _ => Ok (width self)
  end.

Definition get_aspect_ratio (self : ImageSize) : result (option num) :=
  match aspect_ratio self, height self, width self with
  | None, Some h, Some w =>
      if negb (h =? 0) && negb (w =? 0)
      then fh <- float (PyInt h) ;;
           q <- div (PyInt w) (PyFloat fh) ;;
           a <- round q ;;
           Ok (Some a)
      else Ok (aspect_ratio self)
  | _, _, _ => Ok (aspect_ratio self)
  end.

(** [(self.get_width(), self.get_height(), self.aspect_ratio())]: the
    third component calls the field itself. *)
Definition get_dimensions (self : ImageSize)
  : result (option Z * option Z * option num) :=
  w <- get_width self ;;
  h <- get_height self ;;
  a <- call_field (aspect_ratio self) ;;
  Ok (w, h, a).

Definition double (o : option Z) : option Z :=
  match o with
  | None => None
  | Some z => Some (z * 2)
  end.

Definition get_retina (self : ImageSize)
  : result (option Z * option Z * option num) :=
  d <- get_dimensions self ;;
  let '(w, h, a) := d in
  Ok (double w, double h, a).

Definition set_aspect_ratio (self : ImageSize) (a : option num) : ImageSize :=
  {| slug := slug self; height := height self; width := width self;
     aspect_ratio := a; auto_crop := auto_crop self; retina := retina self |}.

(** [ImageSize.save]: the object as it is handed to the model layer's
    own [save]. *)
Definition save (self : ImageSize) : result ImageSize :=
  if negb (truthy_int (height self) && truthy_int (width self))
  then Ok (set_aspect_ratio self (Some (PyInt 1)))
  else
    match width self, height self with
    | Some w, Some h =>
        fh <- float (PyInt h) ;;
        q <- div (PyInt w) (PyFloat fh) ;;
        a <- round q ;;
        Ok (set_aspect_ratio self (Some a))
    | _, _ => Raise (TypeError "unsupported operand type(s) for /")
    end.

End models.

(** ** cropduster/utils/image.py *)

Module image.
Import Py.

Inductive filter : Type := NEAREST | BICUBIC | ANTIALIAS.

(** The pixel buffer of a PIL image, kept as the history of the
    operations that produced it: a decoded source of a given size, the
    result of [resize], the result of [crop]. *)
Inductive pixels : Type :=
| Decoded (w h : Z)
| Resized (src : pixels) (size : Z * Z) (f : filter)
| Cropped (src : pixels) (box : Z * Z * Z * Z).

Definition pixels_size (p : pixels) : Z * Z :=
  match p with
  | Decoded w h => (w, h)
  | Resized _ sz _ => sz
  | Cropped _ (x0, y0, x1, y1) => (x1 - x0, y1 - y0)
  end.

(** A value stored under a key of [im.info]. *)
Inductive pyval : Type :=
| VNone
| VInt (z : Z)
| VStr (s : string)
| VTuple (len : nat).

Definition truthy (v : pyval) : bool :=
  match v with
  | VNone => false
  | VInt z => negb (z =? 0)
  | VStr s => negb (String.eqb s "")
  | VTuple n => negb (Nat.eqb n 0)
  end.

(** The keys of [im.info] that this file reads. *)
Record Info : Type := {
  extension : option pyval;
  duration : option Z;
  loop : option Z;
  icc_profile : option string
}.

Record Image : Type := {
  format : option string;
  info : Info;
  filename : option string;
  px : pixels
}.

Definition size (im : Image) : Z * Z := pixels_size (px im).

(** [im.resize(size, filter)] and [im.crop(box)] return a new image; the
    receiver is left as it was.  The new image has no [format] and no
    [filename].  Both are total here: where PIL refuses a size (a side
    that is not positive) the model has an image of that size. *)
Definition resize (im : Image) (sz : Z * Z) (f : filter) : Image :=
  {| format := None; info := info im; filename := None;
     px := Resized (px im) sz f |}.

Definition crop (im : Image) (box : Z * Z * Z * Z) : Image :=
  {| format := None; info := info im; filename := None;
     px := Cropped (px im) box |}.

(** [info.get(key)] with the default [None]. *)
Definition get (o : option pyval) : pyval :=
  match o with
  | Some v => v
  | None => VNone
  end.

Definition is_animated_gif (im : Image) : bool :=
  (match format im with
   | Some f => String.eqb f "GIF" || String.eqb f ""
   | None => true
   end)
  && truthy (get (extension (info im))).

(** What [cropduster.settings] and the optional imports provide. *)
Record settings : Type := {
  CROPDUSTER_GIFSICLE_PATH : option string;
  JPEG_SAVE_ICC_SUPPORTED : bool;
  get_jpeg_quality : Z -> Z -> Z;
  numpy : bool;
  scipy : bool
}.

Definition has_animated_gif_support (cfg : settings) : bool :=
  truthy_str (CROPDUSTER_GIFSICLE_PATH cfg) || (numpy cfg && scipy cfg).

(** The [save_params] dictionary: its two keys, each absent or bound. *)
Record params : Type := {
  quality : option Z;
  icc : option (option string)
}.

Definition no_params : params := {| quality := None; icc := None |}.

Definition setdefault_quality (p : params) (q : Z) : params :=
  match quality p with
  | Some _ => p
  | None => {| quality := Some q; icc := icc p |}
  end.

Definition setdefault_icc (p : params) (v : option string) : params :=
  match icc p with
  | Some _ => p
  | None => {| quality := quality p; icc := Some v |}
  end.

(** [repeat] as handed to [write_gif]: [True] or the loop count. *)
Inductive repeat : Type := Forever | Times (n : Z).

Inductive event : Type :=
| Warn (msg : string)
| SaveTemp (path : string) (im : Image)
| ReadFile (path : string)
| WriteGif (path : string) (frames : list Image) (seconds : Q)
           (rep : repeat) (nq : Z)
| SaveImage (path : string) (frame : Image) (p : params)
| OpenImage (path : string).

(** What the call returns: a frame kept in memory, or the image opened
    again from [save_filename]. *)
Inductive returned : Type :=
| Frame (im : Image)
| Opened (path : string).

Definition format_is (im : Image) (name : string) : bool :=
  match format im with
  | Some f => String.eqb f name
  | None => false
  end.

Section process_image.
Variable cfg : settings.
(** [GifsicleImage] of [.gifsicle] and [read_gif] of [.images2gif] are
    not part of the modelled files: the wrapper is any function on
    images, the decoder returns the first frame and the remaining
    ones.  In this section every call that leaves the file returns; the
    module [raising] below lets each of them raise. *)
Variable GifsicleImage : Image -> Image.
Variable read_gif : string -> Image * list Image.
(** [os.path.exists] and the name [tempfile.NamedTemporaryFile]
    hands out. *)
Variable path_exists : string -> bool.
Variable temp_name : string.

Definition load_frames (im : Image) : list event * (Image * list Image) :=
  if negb (has_animated_gif_support cfg) then
    ([Warn "This server does not have animated gif support; your uploaded image has been made static."],
     (im, []))
  else if truthy_str (CROPDUSTER_GIFSICLE_PATH cfg) then
    ([], (GifsicleImage im, []))
  else
    let warned :=
      [Warn "Using numpy algorithm to resize animated gif; better results would be achieved with gifsicle"] in
    let on_disk :=
      match filename im with
      | Some f => negb (String.eqb f "") && path_exists f
      | None => false
      end in
    let '(saved, f) :=
      match filename im, on_disk with
      | Some f, true => ([], f)
      | _, _ => ([SaveTemp temp_name im], temp_name)
      end in
    ((warned ++ saved ++ [ReadFile f])%list, read_gif f).

Definition process_image (im : Image) (save_filename : option string)
    (callback : Image -> Image) (nq : Z) (save_params : option params)
  : list event * result returned :=
  let is_animated := is_animated_gif im in
  let '(ev, (first, rest)) :=
    if is_animated then load_frames im else ([], (im, [])) in
  let images := first :: rest in
  let new_first := callback first in
  let new_images := new_first :: map callback rest in
  if is_animated && negb (truthy_str save_filename) then
    (ev, Raise (Exception "Animated gifs must be saved on each processing."))
  else
    match save_filename with
    | Some path =>
        if negb (String.eqb path "") then
          if is_animated && (1 <? Z.of_nat (length images)) then
            let duration_ms :=
              match duration (info im) with
              | Some d => if d =? 0 then 100 else d
              | None => 100
              end in
            let seconds := (inject_Z duration_ms / 1000)%Q in
            let rep :=
              match loop (info im) with
              | Some l => if l =? 0 then Forever else Times l
              | None => Forever
              end in
            ((ev ++ [WriteGif path new_images seconds rep nq; OpenImage path])%list,
             Ok (Opened path))
          else
            let p0 :=
              match save_params with
              | Some p => p
              | None => no_params
              end in
            let p1 :=
              if format_is im "JPEG"
              then setdefault_quality p0
                     (get_jpeg_quality cfg (fst (size new_first))
                                       (snd (size new_first)))
              else p0 in
            let p2 :=
              if (format_is im "JPEG" || format_is im "PNG")
                 && JPEG_SAVE_ICC_SUPPORTED cfg
              then setdefault_icc p1 (icc_profile (info im))
              else p1 in
            ((ev ++ [SaveImage path new_first p2; OpenImage path])%list,
             Ok (Opened path))
        else (ev, Ok (Frame new_first))
    | None => (ev, Ok (Frame new_first))
    end.

End process_image.

(** *** [process_image] with calls that can raise

    Above, every call that leaves this file returns.  Here each of them
    returns or raises: the callback, [GifsicleImage], the temporary
    file, [im.save], reading the file, [read_gif] (which returns a list
    of frames, possibly empty), [write_gif] and [PIL.Image.open]. *)
Module raising.

Record library : Type := {
  GifsicleImage : Image -> result Image;
  NamedTemporaryFile : result string;
  save : Image -> string -> params -> result unit;
  read_file : string -> result unit;
  read_gif : string -> result (list Image);
  write_gif : string -> list Image -> Q -> repeat -> Z -> result unit;
  open : string -> result unit;
  path_exists : string -> bool
}.

(** A computation that logs events and returns or raises. *)
Definition M (A : Type) : Type := list event -> list event * result A.

Definition ret {A} (a : A) : M A := fun tr => (tr, Ok a).

Definition throw {A} (e : exn) : M A := fun tr => (tr, Raise e).

Definition bindM {A B} (m : M A) (k : A -> M B) : M B :=
  fun tr =>
    let '(tr', r) := m tr in
    match r with
    | Ok a => k a tr'
    | Raise e => (tr', Raise e)
    end.

(** A call that is logged, and a call that is not. *)
Definition call {A} (e : event) (r : result A) : M A :=
  fun tr => ((tr ++ [e])%list, r).

Definition quiet {A} (r : result A) : M A := fun tr => (tr, r).

Definition warn (msg : string) : M unit := call (Warn msg) (Ok tt).

Notation "x <~ m ;; k" := (bindM m (fun x => k))
  (at level 100, m at next level, right associativity).

(** [[callback(i) for i in images]]: the first call that raises ends
    the comprehension. *)
Fixpoint comprehension (callback : Image -> result Image)
    (images : list Image) : result (list Image) :=
  match images with
  | [] => Ok []
  | i :: later =>
      Py.bind (callback i) (fun i' =>
      Py.bind (comprehension callback later) (fun later' =>
      Ok (i' :: later')))
  end.

(** [new_images[0]]. *)
Definition item0 (l : list Image) : result Image :=
  match l with
  | first :: _ => Ok first
  | [] => Raise (IndexError "list index out of range")
  end.

Section process_image.
Variable lib : library.
Variable cfg : settings.

Definition load_frames (im : Image) : M (list Image) :=
  if negb (has_animated_gif_support cfg) then
    _ <~ warn "This server does not have animated gif support; your uploaded image has been made static." ;;
    ret [im]
  else if truthy_str (CROPDUSTER_GIFSICLE_PATH cfg) then
    g <~ quiet (GifsicleImage lib im) ;;
    ret [g]
  else
    _ <~ warn "Using numpy algorithm to resize animated gif; better results would be achieved with gifsicle" ;;
    let on_disk :=
      match filename im with
      | Some f => negb (String.eqb f "") && path_exists lib f
      | None => false
      end in
    f <~ match filename im, on_disk with
         | Some f, true => ret f
         | _, _ =>
             name <~ quiet (NamedTemporaryFile lib) ;;
             _ <~ call (SaveTemp name im) (save lib im name no_params) ;;
             ret name
         end ;;
    _ <~ call (ReadFile f) (read_file lib f) ;;
    quiet (read_gif lib f).

Definition process_image (im : Image) (save_filename : option string)
    (callback : Image -> result Image) (nq : Z) (save_params : option params)
  : M returned :=
  let is_animated := is_animated_gif im in
  images <~ (if is_animated then load_frames im else ret [im]) ;;
  new_images <~ quiet (comprehension callback images) ;;
  if is_animated && negb (truthy_str save_filename) then
    throw (Exception "Animated gifs must be saved on each processing.")
  else
    match save_filename with
    | Some path =>
        if negb (String.eqb path "") then
          _ <~ (if is_animated && (1 <? Z.of_nat (length images)) then
                  let duration_ms :=
                    match duration (info im) with
                    | Some d => if d =? 0 then 100 else d
                    | None => 100
                    end in
                  let seconds := (inject_Z duration_ms / 1000)%Q in
                  let rep :=
                    match loop (info im) with
                    | Some l => if l =? 0 then Forever else Times l
                    | None => Forever
                    end in
                  call (WriteGif path new_images seconds rep nq)
                       (write_gif lib path new_images seconds rep nq)
                else
                  let p0 :=
                    match save_params with
                    | Some p => p
                    | None => no_params
                    end in
                  new_first <~ quiet (item0 new_images) ;;
                  let p1 :=
                    if format_is im "JPEG"
                    then setdefault_quality p0
                           (get_jpeg_quality cfg (fst (size new_first))
                                             (snd (size new_first)))
                    else p0 in
                  let p2 :=
                    if (format_is im "JPEG" || format_is im "PNG")
                       && JPEG_SAVE_ICC_SUPPORTED cfg
                    then setdefault_icc p1 (icc_profile (info im))
                    else p1 in
                  call (SaveImage path new_first p2)
                       (save lib new_first path p2)) ;;
          _ <~ call (OpenImage path) (open lib path) ;;
          ret (Opened path)
        else
          new_first <~ quiet (item0 new_images) ;;
          ret (Frame new_first)
    | None =>
        new_first <~ quiet (item0 new_images) ;;
        ret (Frame new_first)
    end.

End process_image.

(** Every call returns, the decoder yields a frame at least. *)
Definition returning (lib : library) (callback : Image -> result Image)
  : Prop :=
  (forall im, exists g, GifsicleImage lib im = Ok g)
  /\ (exists name, NamedTemporaryFile lib = Ok name)
  /\ (forall im f p, save lib im f p = Ok tt)
  /\ (forall f, read_file lib f = Ok tt)
  /\ (forall f, exists first rest, read_gif lib f = Ok (first :: rest))
  /\ (forall f l s r n, write_gif lib f l s r n = Ok tt)
  /\ (forall f, open lib f = Ok tt)
  /\ (forall im, exists im', callback im = Ok im').

(** The library whose calls are the total functions of the section
    above. *)
Definition total (GifsicleImage' : Image -> Image)
    (read_gif' : string -> Image * list Image)
    (path_exists' : string -> bool) (temp_name : string) : library :=
  {| GifsicleImage := fun im => Ok (GifsicleImage' im);
     NamedTemporaryFile := Ok temp_name;
     save := fun _ _ _ => Ok tt;
     read_file := fun _ => Ok tt;
     read_gif := fun f => let '(first, rest) := read_gif' f in Ok (first :: rest);
     write_gif := fun _ _ _ _ _ => Ok tt;
     open := fun _ => Ok tt;
     path_exists := path_exists' |}.

End raising.

(** [LooseVersion(a) >= LooseVersion(b)] on the numeric components of
    the two version strings: the order of Python lists. *)
Fixpoint version_ge (a b : list Z) : bool :=
  match a, b with
  | _, [] => true
  | [], _ :: _ => false
  | x :: a', y :: b' =>
      if y <? x then true
      else if x <? y then false
      else version_ge a' b'
  end.

(** [pillow_version and LooseVersion(pillow_version) >= '2.7.0']; the
    attribute [PIL.PILLOW_VERSION] is absent, empty, or a version. *)
Definition has_good_bicubic (pillow_version : option (list Z)) : bool :=
  match pillow_version with
  | Some (c :: cs) => version_ge (c :: cs) [2; 7; 0]
  | _ => false
  end.

(** The [for i in xrange(1, 8)] loop, entered with the image and its
    size; it returns the image bound to [im] when the loop is left. *)
Fixpoint eighths (steps : list positive) (im : Image)
    (orig_w orig_h : Z) (goal_w goal_h : Q) : Image :=
  match steps with
  | [] => im
  | i :: later =>
      let ratio := (Zpos i # 8)%Q in
      let scaled_w := (inject_Z orig_w * ratio)%Q in
      let scaled_h := (inject_Z orig_h * ratio)%Q in
      if Qle_bool goal_w scaled_w && Qle_bool goal_h scaled_h then
        let crop_w := orig_w mod 8 in
        let crop_h := orig_h mod 8 in
        let '(orig_w, orig_h) :=
          if (crop_w =? 0) || (crop_h =? 0) then
            (* the cropped copy is not bound to anything *)
            let _cropped :=
              crop im (Qfloor (inject_Z crop_w / 2),
                       Qfloor (inject_Z crop_h / 2),
                       orig_w - Qceiling (inject_Z crop_w / 2),
                       orig_h - Qceiling (inject_Z crop_h / 2)) in
            size im
          else (orig_w, orig_h) in
        resize im (Qtrunc (inject_Z orig_w * ratio),
                   Qtrunc (inject_Z orig_w * ratio)) NEAREST
      else eighths later im orig_w orig_h goal_w goal_h
  end.

Definition xrange_1_8 : list positive := [1; 2; 3; 4; 5; 6; 7]%positive.

Definition smart_resize (pillow_version : option (list Z))
    (im : Image) (final_w final_h : Z) : Image :=
  let '(orig_w, orig_h) := size im in
  if (orig_w <=? final_w) && (orig_h <=? final_h) then im
  else if has_good_bicubic pillow_version then
    resize im (final_w, final_h) BICUBIC
  else
    let goal_w := (inject_Z final_w * (3 # 2))%Q in
    let goal_h := (inject_Z final_h * (3 # 2))%Q in
    let im := eighths xrange_1_8 im orig_w orig_h goal_w goal_h in
    resize im (final_w, final_h) ANTIALIAS.

(** The image handed to the coarse nearest-neighbour pass, and the size
    that pass produces, read off a result of [smart_resize]. *)
Definition coarse_pass (out : Image) : option (pixels * (Z * Z)) :=
  match px out with
  | Resized (Resized src sz NEAREST) _ ANTIALIAS => Some (src, sz)
  | _ => None
  end.

Fixpoint has_crop (p : pixels) : bool :=
  match p with
  | Decoded _ _ => false
  | Resized src _ _ => has_crop src
  | Cropped _ _ => true
  end.

End image.

(** ** The parts of [os.path] and [os] the modelled code calls (POSIX) *)

Module os_path.

Definition slash : ascii := "/"%char.
Definition dot : ascii := "."%char.

(** The longest prefix free of [c], and what follows it. *)
Fixpoint before (c : ascii) (l : list ascii) : list ascii :=
  match l with
  | [] => []
  | x :: l' => if Ascii.eqb x c then [] else x :: before c l'
  end.

Fixpoint from (c : ascii) (l : list ascii) : list ascii :=
  match l with
  | [] => []
  | x :: l' => if Ascii.eqb x c then l else from c l'
  end.

Fixpoint lstrip (c : ascii) (l : list ascii) : list ascii :=
  match l with
  | [] => []
  | x :: l' => if Ascii.eqb x c then lstrip c l' else l
  end.

Definition only (c : ascii) (l : list ascii) : bool :=
  forallb (fun x => Ascii.eqb x c) l.

Definition is_nil (l : list ascii) : bool :=
  match l with
  | [] => true
  | _ => false
  end.

(** [posixpath.split]: everything up to the last slash, and the rest;
    trailing slashes of the head are dropped unless it is all slashes. *)
Definition split (p : string) : string * string :=
  let r := List.rev (list_ascii_of_string p) in
  let tail := List.rev (before slash r) in
  let head_rev := from slash r in
  let head_rev :=
    if negb (is_nil head_rev) && negb (only slash head_rev)
    then lstrip slash head_rev
    else head_rev in
  (string_of_list_ascii (List.rev head_rev), string_of_list_ascii tail).

(** [posixpath.splitext]: the extension starts at the last dot of the
    last component, leading dots of that component apart. *)
Definition splitext (p : string) : string * string :=
  let r := List.rev (list_ascii_of_string p) in
  let ext_rev := before dot r in
  match from dot r with
  | [] => (p, "")
  | d :: root_rev =>
      if existsb (fun x => Ascii.eqb x slash) ext_rev then (p, "")
      else if only dot (before slash root_rev) then (p, "")
      else (string_of_list_ascii (List.rev root_rev),
            string_of_list_ascii (d :: List.rev ext_rev))
  end.

Definition starts_with_slash (s : string) : bool :=
  match s with
  | String c _ => Ascii.eqb c slash
  | EmptyString => false
  end.

Definition ends_with_slash (s : string) : bool :=
  match List.rev (list_ascii_of_string s) with
  | c :: _ => Ascii.eqb c slash
  | [] => false
  end.

(** One step of [posixpath.join]. *)
Definition join (path b : string) : string :=
  if starts_with_slash b then b
  else if String.eqb path "" || ends_with_slash path then (path ++ b)%string
  else (path ++ "/" ++ b)%string.

End os_path.

Module os.
Import Py.

Inductive node : Type :=
| File (content : string)
| Dir.

(** The file system: what each path holds. *)
Abbreviation tree := (gmap string node).

Definition isfile (fs : tree) (p : string) : bool :=
  match fs !! p with
  | Some (File _) => true
  | _ => false
  end.

Definition isdir (fs : tree) (p : string) : bool :=
  match fs !! p with
  | Some Dir => true
  | _ => false
  end.

(** The content of the regular file at a path, if there is one. *)
Definition file_at (fs : tree) (p : string) : option string :=
  match fs !! p with
  | Some (File c) => Some c
  | _ => None
  end.

(** [os.stat(p).st_size]. *)
Definition st_size (fs : tree) (p : string) : result Z :=
  match fs !! p with
  | Some (File c) => Ok (Z.of_nat (String.length c))
  | Some Dir => Ok 4096
  | None => Raise (OSError p)
  end.

(** The proper prefixes of a path that end before a slash: the
    directories above it, outermost first. *)
Fixpoint parents (seen : list ascii) (l : list ascii) : list string :=
  match l with
  | [] => []
  | c :: l' =>
      let here :=
        if Ascii.eqb c os_path.slash
           && negb (os_path.is_nil (os_path.lstrip os_path.slash (List.rev seen)))
        then [string_of_list_ascii
                (List.rev (os_path.lstrip os_path.slash (List.rev seen)))]
        else [] in
      (here ++ parents (seen ++ [c]) l')%list
  end.

Definition is_file_node (o : option node) : bool :=
  match o with
  | Some (File _) => true
  | _ => false
  end.

(** [os.makedirs(name)]: the directory and the missing ones above it
    are created; it raises on the empty name, when [name] is there
    already or when a regular file is in the way. *)
Definition makedirs (fs : tree) (name : string) : result tree :=
  let above := parents [] (list_ascii_of_string name) in
  if String.eqb name "" then Raise (OSError name)
  else if existsb (fun d => is_file_node (fs !! d)) above
  then Raise (OSError name)
  else
    match fs !! name with
    | Some _ => Raise (OSError name)
    | None => Ok (foldr (fun d m => <[d := Dir]> m) fs (above ++ [name])%list)
    end.

(** Writing a file: the path holds the data afterwards; a directory
    cannot be opened for writing. *)
Definition write (fs : tree) (p : string) (data : string) : result tree :=
  match fs !! p with
  | Some Dir => Raise (OSError p)
  | _ => Ok (<[p := File data]> fs)
  end.

(** [os.rename(src, dst)] of a regular file: [dst] is replaced. *)
Definition rename (fs : tree) (src dst : string) : result tree :=
  match fs !! src with
  | Some (File c) =>
      match fs !! dst with
      | Some Dir => Raise (OSError dst)
      | _ => Ok (<[dst := File c]> (delete src fs))
      end
  | _ => Raise (OSError src)
  end.

End os.

(** ** cropduster/management/commands/regenerate_thumbs.py *)

Module regenerate_thumbs.
Import Py.

(** [Size = namedtuple('Size', ('name', 'path', 'crop', 'width',
    'height'))]: a tuple with named positions. *)
Abbreviation Size := (string * string * bool * option Z * option Z)%type.

Definition name (s : Size) : string := let '(n, _, _, _, _) := s in n.
Definition path (s : Size) : string := let '(_, p, _, _, _) := s in p.
Definition crop (s : Size) : bool := let '(_, _, c, _, _) := s in c.
Definition width (s : Size) : option Z := let '(_, _, _, w, _) := s in w.
Definition height (s : Size) : option Z := let '(_, _, _, _, h) := s in h.

(** What [Image.thumbnail_path] reads of the image ([self.image.path])
    and of the size ([size.slug]). *)
Record SizeRow : Type := {
  slug : string
}.

Record CropDusterImage : Type := {
  image_path : string
}.

(** [Image.thumbnail_path] of models.py. *)
Definition thumbnail_path (self : CropDusterImage) (size : SizeRow) : string :=
  let '(file_path, file) := os_path.split (image_path self) in
  let '(file_root, extension) := os_path.splitext file in
  (os_path.join (os_path.join file_path file_root) (slug size) ++ extension)%string.

(** [get_sizes] reaches its argument through attribute lookups only.
    An object is its class name and its attributes; an attribute bound
    to [Failing e] is a property whose getter raises [e]; the attribute
    [all] of a manager is bound to the sequence that calling it
    returns. *)
#[local] Unset Elimination Schemes.
Inductive value : Type :=
| None_
| Int (z : Z)
| Bool (b : bool)
| Str (s : string)
| Object (class : string) (attrs : list (string * value))
| Sequence (items : list value)
| Failing (e : exn).
#[local] Set Elimination Schemes.

Definition type_name (v : value) : string :=
  match v with
  | None_ => "NoneType"
  | Int _ => "int"
  | Bool _ => "bool"
  | Str _ => "str"
  | Object class _ => class
  | Sequence _ => "list"
  | Failing _ => "property"
  end.

Definition no_attribute (v : value) (name : string) : exn :=
  AttributeError
    ("'" ++ type_name v ++ "' object has no attribute '" ++ name ++ "'").

Fixpoint lookup (name : string) (attrs : list (string * value))
    : option value :=
  match attrs with
  | [] => None
  | (k, v) :: later => if String.eqb k name then Some v else lookup name later
  end.

(** [obj.name]. *)
Definition getattr (obj : value) (name : string) : result value :=
  match obj with
  | Object _ attrs =>
      match lookup name attrs with
      | Some (Failing e) => Raise e
      | Some v => Ok v
      | None => Raise (no_attribute obj name)
      end
  | _ => Raise (no_attribute obj name)
  end.

(** An instance of [models.Image]: the attributes that the fields of
    the class give it ([original] is a foreign key, with its id;
    [derived] is the reverse accessor of that key; [size_sets] is the
    manager of the many-to-many field).  There is no attribute
    [size_set]: that is a field of [ImageSize]. *)
Record ImageFields : Type := {
  the_id : value;
  the_original : value;
  the_original_id : value;
  the_image : value;
  the_size : value;
  the_size_id : value;
  the_crop : value;
  the_crop_id : value;
  the_size_sets : value;
  the_date_modified : value;
  the_attribution : value;
  the_caption : value;
  the_width : value;
  the_height : value;
  the_derived : value
}.

Definition Image (f : ImageFields) : value :=
  Object "Image"
    [("id", the_id f); ("original", the_original f);
     ("original_id", the_original_id f); ("image", the_image f);
     ("size", the_size f); ("size_id", the_size_id f);
     ("crop", the_crop f); ("crop_id", the_crop_id f);
     ("size_sets", the_size_sets f);
     ("date_modified", the_date_modified f);
     ("attribution", the_attribution f); ("caption", the_caption f);
     ("width", the_width f); ("height", the_height f);
     ("derived", the_derived f)].

(** The components of a [Size] as [resize_image] takes them: strings, a
    flag and optional integers; a value of another kind is reported as a
    [TypeError] here. *)
Definition as_str (v : value) : result string :=
  match v with
  | Str s => Ok s
  | _ => Raise (TypeError (type_name v))
  end.

Definition as_flag (v : value) : result bool :=
  match v with
  | Bool b => Ok b
  | _ => Raise (TypeError (type_name v))
  end.

Definition as_dimension (v : value) : result (option Z) :=
  match v with
  | None_ => Ok None
  | Int z => Ok (Some z)
  | _ => Raise (TypeError (type_name v))
  end.

(** [cd_image.thumbnail_path(size)] on an instance of [models.Image]. *)
Definition call_thumbnail_path (cd_image size : value) : result string :=
  image <- getattr cd_image "image" ;;
  p <- getattr image "path" ;;
  p <- as_str p ;;
  s <- getattr size "slug" ;;
  s <- as_str s ;;
  Ok (thumbnail_path {| image_path := p |} {| slug := s |}).

(** [manager.all()]. *)
Definition call_all (manager : value) : result (list value) :=
  all <- getattr manager "all" ;;
  match all with
  | Sequence items => Ok items
  | _ => Raise (TypeError ("'" ++ type_name all ++ "' object is not callable"))
  end.

Section get_sizes.
(** Python 2 orders values of unrelated types consistently but
    arbitrarily; [None] is below every other value and numbers compare
    by value. *)
Variable arbitrary_ge : value -> value -> bool.

Definition value_ge (a b : value) : bool :=
  match a, b with
  | _, None_ => true
  | None_, _ => false
  | Int x, Int y => y <=? x
  | Int x, Bool y => (if y then 1 else 0) <=? x
  | Bool x, Int y => y <=? (if x then 1 else 0)
  | Bool x, Bool y => (if y then 1 else 0) <=? (if x then 1 else 0)
  | _, _ => arbitrary_ge a b
  end.

(** [Size(size.slug, cd_image.thumbnail_path(size), size.auto_size,
    size.width, size.height)]. *)
Definition to_Size (cd_image size : value) : result Size :=
  n <- getattr size "slug" ;;
  n <- as_str n ;;
  p <- call_thumbnail_path cd_image size ;;
  c <- getattr size "auto_size" ;;
  c <- as_flag c ;;
  w <- getattr size "width" ;;
  w <- as_dimension w ;;
  h <- getattr size "height" ;;
  h <- as_dimension h ;;
  Ok (n, p, c, w, h).

(** The loop of [get_sizes] over the sizes of the size set. *)
Fixpoint collect (cd_image : value) (stretch : bool)
    (orig_width orig_height : value) (rows : list value)
    : result (list Size) :=
  match rows with
  | [] => Ok []
  | size :: later =>
      keep <- (if stretch then Ok true
               else
                 w <- getattr size "width" ;;
                 if value_ge orig_width w
                 then h <- getattr size "height" ;;
                      Ok (value_ge orig_height h)
                 else Ok false) ;;
      if keep : bool then
        s <- to_Size cd_image size ;;
        sizes <- collect cd_image stretch orig_width orig_height later ;;
        Ok (s :: sizes)
      else collect cd_image stretch orig_width orig_height later
  end.

Definition get_sizes (cd_image : value) (stretch : bool)
    : result (gset Size) :=
  image <- getattr cd_image "image" ;;
  orig_width <- getattr image "width" ;;
  image <- getattr cd_image "image" ;;
  orig_height <- getattr image "height" ;;
  size_set <- getattr cd_image "size_set" ;;
  manager <- getattr size_set "size_set" ;;
  rows <- call_all manager ;;
  sizes <- collect cd_image stretch orig_width orig_height rows ;;
  Ok (list_to_set sizes).

End get_sizes.

(** [resp.lower().strip()]. *)
Definition lower_ascii (c : ascii) : ascii :=
  let n := nat_of_ascii c in
  if Nat.leb 65 n && Nat.leb n 90 then ascii_of_nat (n + 32) else c.

Definition is_space (c : ascii) : bool :=
  let n := nat_of_ascii c in
  Nat.eqb n 32 || (Nat.leb 9 n && Nat.leb n 13).

Fixpoint lstrip_space (l : list ascii) : list ascii :=
  match l with
  | [] => []
  | c :: l' => if is_space c then lstrip_space l' else l
  end.

Definition lower_strip (s : string) : string :=
  let l := List.map lower_ascii (list_ascii_of_string s) in
  string_of_list_ascii
    (List.rev (lstrip_space (List.rev (lstrip_space l)))).

(** What [thumbnail.save] makes of a thumbnail: the whole file, or an
    exception of the encoder (an [IOError], a [KeyError] for an unknown
    format: a subclass of [Exception]) raised after nothing or a part of
    the file was written. *)
Inductive encoded : Type :=
| Complete (data : string)
| Broken (partial : option string).

Inductive entry : Type :=
| Converting (size_name : string)
| Skipping (size_name : string)
| Creating (folder : string)
| Saved (tmp : string)
| ErrorSaving (tmp : string)
| Renamed (src dst : string).

(** The file system, the local variable [tmp_path] (unbound until its
    first assignment), what the operator will type, and the trace. *)
Record state : Type := {
  fs : os.tree;
  tmp_path : option string;
  stdin : list string;
  trace : list entry
}.

Definition note (e : entry) (st : state) : state :=
  {| fs := fs st; tmp_path := tmp_path st; stdin := stdin st;
     trace := (trace st ++ [e])%list |}.

Definition set_fs (t : os.tree) (st : state) : state :=
  {| fs := t; tmp_path := tmp_path st; stdin := stdin st; trace := trace st |}.

Definition set_tmp_path (p : string) (st : state) : state :=
  {| fs := fs st; tmp_path := Some p; stdin := stdin st; trace := trace st |}.

Definition set_stdin (l : list string) (st : state) : state :=
  {| fs := fs st; tmp_path := tmp_path st; stdin := l; trace := trace st |}.

(** How one turn of the loop ends: [continue] on an existing thumbnail,
    the rename, an exception caught and the operator going on, or an
    exception that leaves [resize_image]. *)
Inductive outcome : Type :=
| Skipped
| Regenerated
| Failed
| Aborted (e : exn).

Definition is_rename (e : entry) : bool :=
  match e with
  | Renamed _ _ => true
  | _ => false
  end.


(** An entry that touches the file system touches it where the atomic
    save may: a write goes to [tmp], a rename goes from [tmp] to
    [dst]. *)
Definition confined (tmp dst : string) (e : entry) : Prop :=
  match e with
  | Saved p => p = tmp
  | Renamed a b => a = tmp /\ b = dst
  | _ => True
  end.

Definition IMG_TYPE_PARAMS (fmt : option string) : list (string * Z) :=
  match fmt with
  | Some f => if String.eqb f "JPEG" then [("quality", 95)] else []
  | None => []
  end.

Section resize_image.
(** [rescale] of [cropduster.utils] is not part of the modelled
    files: any function that returns a thumbnail or raises.  [encode]
    is the encoder behind [thumbnail.save]. *)
Variable rescale :
  image.Image -> option Z -> option Z -> bool -> result image.Image.
Variable encode :
  image.Image -> option string -> list (string * Z) -> encoded.

Variable image : image.Image.
Variable force : bool.

(** The [except Exception] clause. *)
Definition handler (st : state) : state * outcome :=
  match tmp_path st with
  | None => (st, Aborted (UnboundLocalError "tmp_path"))
  | Some tmp =>
      let st := note (ErrorSaving tmp) st in
      match stdin st with
      | [] => (st, Aborted EOFError)
      | resp :: later =>
          let st := set_stdin later st in
          if String.eqb (lower_strip resp) "n"
          then (st, Aborted (SystemExit "Exiting..."))
          else (st, Failed)
      end
  end.

(** Do we need to recreate the file? *)
Definition exists_nonempty (st : state) (size : Size) : result bool :=
  if negb force && os.isfile (fs st) (path size)
  then n <- os.st_size (fs st) (path size) ;; Ok (0 <? n)
  else Ok false.

Definition regenerate (st : state) (size : Size) : state * outcome :=
  let img_params := IMG_TYPE_PARAMS (image.format image) in
  match rescale image (width size) (height size) (crop size) with
  | Raise e =>
      (* [except Exception] lets [SystemExit] and [KeyboardInterrupt]
         through *)
      if is_Exception e then handler st else (st, Aborted e)
  | Ok thumbnail =>
      let tmp := (path size ++ ".tmp")%string in
      let st := set_tmp_path tmp st in
      match encode thumbnail (image.format image) img_params with
      | Broken partial =>
          let st :=
            match partial with
            | Some data =>
                match os.write (fs st) tmp data with
                | Ok t => note (Saved tmp) (set_fs t st)
                | Raise _ => st
                end
            | None => st
            end in
          handler st
      | Complete data =>
          match os.write (fs st) tmp data with
          | Raise _ => handler st
          | Ok t =>
              let st := note (Saved tmp) (set_fs t st) in
              (* else: *)
              match os.rename (fs st) tmp (path size) with
              | Raise e => (st, Aborted e)
              | Ok t' => (note (Renamed tmp (path size)) (set_fs t' st),
                          Regenerated)
              end
          end
      end
  end.

(** The body of [for size in sizes]. *)
Definition resize_step (st : state) (size : Size) : state * outcome :=
  let st := note (Converting (name size)) st in
  match exists_nonempty st size with
  | Raise e => (st, Aborted e)
  | Ok true => (note (Skipping (name size)) st, Skipped)
  | Ok false =>
      let folder := fst (os_path.split (path size)) in
      if negb (os.isdir (fs st) folder) then
        let st := note (Creating folder) st in
        match os.makedirs (fs st) folder with
        | Raise e => (st, Aborted e)
        | Ok t => regenerate (set_fs t st) size
        end
      else regenerate st size
  end.

Fixpoint run (st : state) (sizes : list Size) : state * list outcome :=
  match sizes with
  | [] => (st, [])
  | size :: later =>
      let '(st, o) := resize_step st size in
      match o with
      | Aborted _ => (st, [o])
      | _ => let '(st, os) := run st later in (st, o :: os)
      end
  end.

(** [resize_image(image, sizes, force)] started on a file system and
    an operator; [sizes] in the order the loop visits them. *)
Definition resize_image (sizes : list Size) (t : os.tree)
    (operator : list string) : state * list outcome :=
  run {| fs := t; tmp_path := None; stdin := operator; trace := [] |} sizes.

End resize_image.

End regenerate_thumbs.

(** ** Concrete inputs used below *)

Module inputs.
Import Py.
Import PrimFloat.

(** The floats 2.0 and 4.0. *)
Definition two : PrimFloat.float := 2%float.
Definition four : PrimFloat.float := 4%float.

(** A size 200 wide with no height and the explicit ratio 4.0. *)
Definition wide : models.ImageSize :=
  {| models.slug := "thumb"; models.height := None;
     models.width := Some 200; models.aspect_ratio := Some (PyFloat four);
     models.auto_crop := false; models.retina := false |}.

(** A size 50 high with no width and the explicit ratio 4.0. *)
Definition tall : models.ImageSize :=
  {| models.slug := "strip"; models.height := Some 50;
     models.width := None; models.aspect_ratio := Some (PyFloat four);
     models.auto_crop := false; models.retina := false |}.

(** A size with both dimensions. *)
Definition boxed : models.ImageSize :=
  {| models.slug := "box"; models.height := Some 50;
     models.width := Some 100; models.aspect_ratio := Some (PyFloat two);
     models.auto_crop := false; models.retina := true |}.

(** A size whose only dimension is the width 0. *)
Definition zero_width : models.ImageSize :=
  {| models.slug := "none"; models.height := None;
     models.width := Some 0; models.aspect_ratio := Some (PyFloat two);
     models.auto_crop := false; models.retina := false |}.

(** A size 10 high with no width and the ratio 0.3, which as a float is
    0x1.3333333333333p-2, a little below three tenths. *)
Definition three_tenths : PrimFloat.float := 0x1.3333333333333p-2%float.

Definition narrow : models.ImageSize :=
  {| models.slug := "narrow"; models.height := Some 10;
     models.width := None; models.aspect_ratio := Some (PyFloat three_tenths);
     models.auto_crop := false; models.retina := false |}.

(** A size whose only dimension is a width and whose ratio is the
    int 3. *)
Definition thirds : models.ImageSize :=
  {| models.slug := "thirds"; models.height := None;
     models.width := Some 200; models.aspect_ratio := Some (PyInt 3);
     models.auto_crop := false; models.retina := false |}.

(** A size whose width is beyond the range of floats. *)
Definition huge : models.ImageSize :=
  {| models.slug := "huge"; models.height := Some 1;
     models.width := Some (2 ^ 1024); models.aspect_ratio := None;
     models.auto_crop := false; models.retina := false |}.

(** A size whose ratio is a nan. *)
Definition undefined : models.ImageSize :=
  {| models.slug := "undefined"; models.height := None;
     models.width := Some 200; models.aspect_ratio := Some (PyFloat nan);
     models.auto_crop := false; models.retina := false |}.

End inputs.

Module pictures.

Definition plain : image.Info :=
  {| image.extension := None; image.duration := None;
     image.loop := None; image.icc_profile := None |}.

(** A decoded JPEG of 1001 x 751 pixels: neither side is a multiple
    of 8. *)
Definition photo : image.Image :=
  {| image.format := Some "JPEG"; image.info := plain;
     image.filename := Some "/media/photo.jpg";
     image.px := image.Decoded 1001 751 |}.

(** A decoded JPEG of 80 x 60 pixels. *)
Definition small : image.Image :=
  {| image.format := Some "JPEG"; image.info := plain;
     image.filename := Some "/media/small.jpg";
     image.px := image.Decoded 80 60 |}.

(** An animated GIF: its metadata carries an extension block. *)
Definition spinner : image.Image :=
  {| image.format := Some "GIF";
     image.info :=
       {| image.extension := Some (image.VTuple 2);
          image.duration := Some 40; image.loop := Some 0;
          image.icc_profile := None |};
     image.filename := Some "/media/spinner.gif";
     image.px := image.Decoded 64 64 |}.

(** An installation without gifsicle and without numpy. *)
Definition bare : image.settings :=
  {| image.CROPDUSTER_GIFSICLE_PATH := None;
     image.JPEG_SAVE_ICC_SUPPORTED := true;
     image.get_jpeg_quality := fun _ _ => 95;
     image.numpy := false; image.scipy := false |}.

Definition one_frame (path : string) : image.Image * list image.Image :=
  (small, []).

Definition nowhere (path : string) : bool := false.

(** A library whose every call returns, but for [save]: nothing can be
    written. *)
Definition read_only : image.raising.library :=
  {| image.raising.GifsicleImage := fun im => Py.Ok im;
     image.raising.NamedTemporaryFile := Py.Ok "/tmp/tmpq1.gif";
     image.raising.save :=
       fun _ _ _ => Py.Raise (Py.IOError "No such file or directory");
     image.raising.read_file := fun _ => Py.Ok tt;
     image.raising.read_gif := fun _ => Py.Ok [];
     image.raising.write_gif := fun _ _ _ _ _ => Py.Ok tt;
     image.raising.open := fun _ => Py.Ok tt;
     image.raising.path_exists := fun _ => false |}.

End pictures.

Module disk.
Import Py.

(** The thumbnail of /media/photo.jpg for the slug "thumb", with a
    stale zero-byte file already in its place. *)
Definition thumb : regenerate_thumbs.Size :=
  ("thumb", "/media/photo/thumb.jpg", false, Some 100, Some 75).

Definition stale : os.tree :=
  <["/media/photo/thumb.jpg" := os.File ""]>
    (<["/media/photo" := os.Dir]> (<["/media" := os.Dir]> ∅)).

(** The same place holding a finished thumbnail. *)
Definition done : os.tree :=
  <["/media/photo/thumb.jpg" := os.File "JFIF-old"]>
    (<["/media/photo" := os.Dir]> (<["/media" := os.Dir]> ∅)).

Definition start (t : os.tree) (operator : list string)
  : regenerate_thumbs.state :=
  {| regenerate_thumbs.fs := t; regenerate_thumbs.tmp_path := None;
     regenerate_thumbs.stdin := operator; regenerate_thumbs.trace := [] |}.

(** In the middle of a run: an earlier turn of the loop has bound
    [tmp_path]. *)
Definition midway (t : os.tree) (operator : list string)
  : regenerate_thumbs.state :=
  {| regenerate_thumbs.fs := t;
     regenerate_thumbs.tmp_path := Some "/media/photo/large.jpg.tmp";
     regenerate_thumbs.stdin := operator; regenerate_thumbs.trace := [] |}.

Definition rescale_ok (im : image.Image) (w h : option Z) (c : bool)
  : result image.Image :=
  Ok (image.resize im (default 0 w, default 0 h) image.ANTIALIAS).

Definition rescale_fails (im : image.Image) (w h : option Z) (c : bool)
  : result image.Image :=
  Raise (Exception "cannot identify image file").


Definition encode_ok (im : image.Image) (fmt : option string)
    (p : list (string * Z)) : regenerate_thumbs.encoded :=
  regenerate_thumbs.Complete "JFIF-new".

Definition encode_breaks (im : image.Image) (fmt : option string)
    (p : list (string * Z)) : regenerate_thumbs.encoded :=
  regenerate_thumbs.Broken (Some "JF").

(** The image stored as /media/photo.jpg, as [thumbnail_path] reads
    it. *)
Definition original : regenerate_thumbs.CropDusterImage :=
  {| regenerate_thumbs.image_path := "/media/photo.jpg" |}.

(** The same image as an instance of [models.Image]: an original of
    800 x 600 with no size, no crop and no size set. *)
Definition stored_file : regenerate_thumbs.value :=
  regenerate_thumbs.Object "ImageFieldFile"
    [("name", regenerate_thumbs.Str "photo.jpg");
     ("path", regenerate_thumbs.Str "/media/photo.jpg");
     ("width", regenerate_thumbs.Int 800);
     ("height", regenerate_thumbs.Int 600)].

Definition no_manager : regenerate_thumbs.value :=
  regenerate_thumbs.Object "ManyRelatedManager"
    [("all", regenerate_thumbs.Sequence [])].

Definition record : regenerate_thumbs.ImageFields :=
  {| regenerate_thumbs.the_id := regenerate_thumbs.Int 1;
     regenerate_thumbs.the_original := regenerate_thumbs.None_;
     regenerate_thumbs.the_original_id := regenerate_thumbs.None_;
     regenerate_thumbs.the_image := stored_file;
     regenerate_thumbs.the_size := regenerate_thumbs.None_;
     regenerate_thumbs.the_size_id := regenerate_thumbs.None_;
     regenerate_thumbs.the_crop := regenerate_thumbs.None_;
     regenerate_thumbs.the_crop_id := regenerate_thumbs.None_;
     regenerate_thumbs.the_size_sets := no_manager;
     regenerate_thumbs.the_date_modified := regenerate_thumbs.Str "2014-03-01";
     regenerate_thumbs.the_attribution := regenerate_thumbs.None_;
     regenerate_thumbs.the_caption := regenerate_thumbs.None_;
     regenerate_thumbs.the_width := regenerate_thumbs.Int 800;
     regenerate_thumbs.the_height := regenerate_thumbs.Int 600;
     regenerate_thumbs.the_derived := no_manager |}.

(** An object that is not a [models.Image]: it has the attribute
    [size_set] that [get_sizes] asks for, with one size in it. *)
Definition small_size : regenerate_thumbs.value :=
  regenerate_thumbs.Object "Size"
    [("slug", regenerate_thumbs.Str "thumb");
     ("auto_size", regenerate_thumbs.Bool false);
     ("width", regenerate_thumbs.Int 100);
     ("height", regenerate_thumbs.Int 75)].

Definition legacy : regenerate_thumbs.value :=
  regenerate_thumbs.Object "LegacyImage"
    [("image", stored_file);
     ("size_set",
      regenerate_thumbs.Object "SizeSet"
        [("size_set",
          regenerate_thumbs.Object "RelatedManager"
            [("all", regenerate_thumbs.Sequence [small_size; small_size])])])].

End disk.

(** ** More concrete inputs *)

Module more_pictures.

(** An installation with gifsicle. *)
Definition with_gifsicle : image.settings :=
  {| image.CROPDUSTER_GIFSICLE_PATH := Some "/usr/bin/gifsicle";
     image.JPEG_SAVE_ICC_SUPPORTED := true;
     image.get_jpeg_quality := fun _ _ => 95;
     image.numpy := false; image.scipy := false |}.

(** An installation with numpy and scipy but no gifsicle. *)
Definition with_numpy : image.settings :=
  {| image.CROPDUSTER_GIFSICLE_PATH := None;
     image.JPEG_SAVE_ICC_SUPPORTED := true;
     image.get_jpeg_quality := fun _ _ => 95;
     image.numpy := true; image.scipy := true |}.

Definition two_frames (path : string) : image.Image * list image.Image :=
  (pictures.spinner, [pictures.small]).

(** Every path exists. *)
Definition everywhere (path : string) : bool := true.

End more_pictures.

(** ** Reading the trace of a whole run *)

Module audit.

(** An entry of the trace touches the file system only at the temporary
    path or at the destination of one of the sizes. *)
Definition within (sizes : list regenerate_thumbs.Size)
    (e : regenerate_thumbs.entry) : Prop :=
  match e with
  | regenerate_thumbs.Saved p =>
      exists s, In s sizes /\ p = (regenerate_thumbs.path s ++ ".tmp")%string
  | regenerate_thumbs.Renamed a b =>
      exists s, In s sizes
        /\ a = (regenerate_thumbs.path s ++ ".tmp")%string
        /\ b = regenerate_thumbs.path s
  | _ => True
  end.

(** The destination of a size holds a regular file that is not empty. *)
Definition generated (t : os.tree) (s : regenerate_thumbs.Size) : Prop :=
  exists c, t !! regenerate_thumbs.path s = Some (os.File c) /\ c <> "".

End audit.

Module more_disk.

(** Two finished thumbnails side by side. *)
Definition shelf : os.tree :=
  <["/media/photo/large.jpg" := os.File "JFIF-large"]> disk.done.

Definition large : regenerate_thumbs.Size :=
  ("large", "/media/photo/large.jpg", false, Some 400, Some 300).

(** An upload whose thumbnail folder does not exist yet, and the same
    tree once [os.makedirs] has created the folder. *)
Definition upload : os.tree :=
  <["/media/photo.jpg" := os.File "JFIF-original"]>
    (<["/media" := os.Dir]> ∅).

Definition prepared : os.tree :=
  <["/media" := os.Dir]> (<["/media/photo" := os.Dir]> upload).

End more_disk.

Module more_sizes.

Definition thumb : regenerate_thumbs.SizeRow :=
  {| regenerate_thumbs.slug := "thumb" |}.

End more_sizes.

(** ** Shapes of paths *)

Module shape.

Definition chars (s : string) : list ascii := list_ascii_of_string s.

(** The character does not occur in the string. *)
Definition free_of (c : ascii) (s : string) : Prop := ~ In c (chars s).

(** A directory name as [os.path.split] returns it: not empty and
    without a trailing slash. *)
Definition plain_dir (d : string) : Prop :=
  d <> "" /\ os_path.ends_with_slash d = false.

End shape.

(** ** Attribute and item lookups that fail *)

Module lookups.

Inductive failure : Type :=
| AttributeError (what : string)
| ValueError (what : string).

Inductive answer (A : Type) : Type :=
| Got (a : A)
| Fails (f : failure).
Arguments Got {A} a.
Arguments Fails {A} f.

End lookups.

(** ** cropduster/utils/image.py: extensions and colour spaces *)

Module formats.
Import lookups.

Definition IMAGE_EXTENSIONS : list (string * string) :=
  [("ARG", ".arg"); ("BMP", ".bmp"); ("BUFR", ".bufr"); ("CUR", ".cur");
   ("DCX", ".dcx"); ("EPS", ".ps"); ("FITS", ".fit"); ("FLI", ".fli");
   ("FPX", ".fpx"); ("GBR", ".gbr"); ("GIF", ".gif"); ("GRIB", ".grib");
   ("HDF5", ".hdf"); ("ICNS", ".icns"); ("ICO", ".ico"); ("IM", ".im");
   ("IPTC", ".iim"); ("JPEG", ".jpg"); ("MIC", ".mic"); ("MPEG", ".mpg");
   ("MSP", ".msp"); ("Palm", ".palm"); ("PCD", ".pcd"); ("PCX", ".pcx");
   ("PDF", ".pdf"); ("PNG", ".png"); ("PPM", ".ppm"); ("PSD", ".psd");
   ("SGI", ".rgb"); ("SUN", ".ras"); ("TGA", ".tga"); ("TIFF", ".tiff");
   ("WMF", ".wmf"); ("XBM", ".xbm"); ("XPM", ".xpm")].

(** [d[k]] for a dict written as its items. *)
Fixpoint item (k : string) (d : list (string * string)) : option string :=
  match d with
  | [] => None
  | (k', v) :: d' => if String.eqb k' k then Some v else item k d'
  end.

(** The loop over [PIL.Image.EXTENSION], given as its items in the order
    of iteration: the first extension registered for the format. *)
Fixpoint registered (format : string) (EXTENSION : list (string * string))
    : option string :=
  match EXTENSION with
  | [] => None
  | (ext, format') :: rest =>
      if String.eqb format' format then Some ext else registered format rest
  end.

Definition lower (s : string) : string :=
  string_of_list_ascii
    (List.map regenerate_thumbs.lower_ascii (list_ascii_of_string s)).

Definition get_image_extension (EXTENSION : list (string * string))
    (img : image.Image) : answer string :=
  match image.format img with
  | Some format =>
      match item format IMAGE_EXTENSIONS with
      | Some ext => Got ext
      | None =>
          match registered format EXTENSION with
          | Some ext => Got ext
          | None => Got ("." ++ lower format)%string
          end
      end
  | None =>
      (* not a key, equal to no registered format, and no [lower] *)
      Fails (AttributeError "'NoneType' object has no attribute 'lower'")
  end.

(** A string that starts with a dot. *)
Definition dotted (s : string) : Prop := exists rest, s = String "." rest.

End formats.

Module colorspace.

(** What the colour helpers read of a PIL image: its mode and whether
    its info holds the key 'transparency'. *)
Record Picture : Type := {
  mode : string;
  transparency : bool
}.

(** An argument of [is_transparent]: a PIL image or anything else. *)
Inductive object : Type :=
| PIL (im : Picture)
| NotPIL.

Definition one_of (m : string) (modes : list string) : bool :=
  existsb (String.eqb m) modes.

Definition is_transparent (image : object) : bool :=
  match image with
  | NotPIL => false
  | PIL im =>
      one_of (mode im) ["RGBA"; "LA"]
      || (String.eqb (mode im) "P" && transparency im)
  end.

Section correct_colorspace.

(** [im.convert(mode)] of PIL. *)
Variable convert : string -> Picture -> Picture.

Definition correct_colorspace (im : Picture) (bw : bool) : Picture :=
  if bw then
    if one_of (mode im) ["L"; "LA"] then im
    else if is_transparent (PIL im) then convert "LA" im
    else convert "L" im
  else if one_of (mode im) ["L"; "RGB"] then im
  else convert "RGB" im.

End correct_colorspace.

(** A conversion that keeps the info of the image. *)
Definition keeping_info (m : string) (im : Picture) : Picture :=
  {| mode := m; transparency := transparency im |}.

Definition cutout : Picture := {| mode := "RGBA"; transparency := false |}.

End colorspace.

(** ** cropduster/models.py: where an [Image] keeps its files *)

Module models_image.
Import lookups.

(** The fields of [Image] that the path helpers read: the path of the
    stored file ([None] when the image field is empty), the image field
    of the original ([None] when there is no original) and the size. *)
Record Image : Type := {
  image : option string;
  original : option (option string);
  size : option models.ImageSize
}.

(** [self.image.path]. *)
Definition image_path (self : Image) : answer string :=
  match image self with
  | Some p => Got p
  | None => Fails (ValueError "The 'image' attribute has no file associated with it.")
  end.

Definition get_dest_img_path (self : Image) : answer string :=
  match image self with
  | Some p => Got p
  | None =>
      match original self with
      | None => Fails (AttributeError "'NoneType' object has no attribute 'image'")
      | Some o =>
          match o with
          | None => Fails (ValueError "The 'image' attribute has no file associated with it.")
          | Some orig_path =>
              match size self with
              | Some sz =>
                  let '(path, ext) := os_path.splitext orig_path in
                  Got (os_path.join path (models.slug sz) ++ ext)%string
              | None => Got orig_path
              end
          end
      end
  end.

(** [_get_tmp_img_path], with the hexadecimal name [uuid.uuid4().hex]
    came up with. *)
Definition _get_tmp_img_path (self : Image) (hex : string) : answer string :=
  match get_dest_img_path self with
  | Fails f => Fails f
  | Got dest =>
      let '(dest_path, base) := os_path.split dest in
      let ext := snd (os_path.splitext base) in
      Got (os_path.join dest_path (hex ++ ext)%string)
  end.

Definition extension (self : Image) : answer string :=
  match image_path self with
  | Fails f => Fails f
  | Got p => Got (snd (os_path.splitext p))
  end.

Definition folder_path (self : Image) : answer string :=
  match image_path self with
  | Fails f => Fails f
  | Got p =>
      let '(file_path, file) := os_path.split p in
      let '(file_root, extension) := os_path.splitext file in
      Got (os_path.join file_path file_root)
  end.

End models_image.

Module more_paths.

(** An image stored as /media/photo.jpg. *)
Definition stored : models_image.Image :=
  {| models_image.image := Some "/media/photo.jpg";
     models_image.original := None;
     models_image.size := None |}.

(** A few entries of [PIL.Image.EXTENSION]. *)
Definition EXTENSION : list (string * string) :=
  [(".jfif", "JPEG"); (".webp", "WEBP"); (".jpg", "JPEG")].

Definition webp : image.Image :=
  {| image.format := Some "WEBP"; image.info := image.info pictures.small;
     image.filename := None; image.px := image.px pictures.small |}.

(** An original stored as /media/photo.jpg, and an image derived from
    it for the size "thumb" that has no file of its own yet. *)
Definition thumb : models.ImageSize :=
  {| models.slug := "thumb"; models.height := Some 75;
     models.width := Some 100; models.aspect_ratio := None;
     models.auto_crop := false; models.retina := false |}.

Definition derived : models_image.Image :=
  {| models_image.image := None;
     models_image.original := Some (Some "/media/photo.jpg");
     models_image.size := Some thumb |}.

Definition poster : regenerate_thumbs.SizeRow :=
  {| regenerate_thumbs.slug := "poster" |}.

End more_paths.

(** * Properties *)

(** ** Arithmetic of the Python values *)

(** The conversion of an integer to a float fails in one way only. *)
Lemma float_of_int_raises (z : Z) (e : Py.exn) :
  Py.float_of_int z = Py.Raise e -> exists msg, e = Py.OverflowError msg.
Proof.
  unfold Py.float_of_int.
  destruct (SpecFloat.binary_normalize FloatOps.prec FloatOps.emax z 0 false);
    intros H; try discriminate.
  injection H as <-. eauto.
Qed.

(** [int] of a float fails on a nan and on an infinity only. *)
Lemma int_of_float_raises (x : PrimFloat.float) (e : Py.exn) :
  Py.int_of_float x = Py.Raise e ->
  exists msg, e = Py.ValueError msg \/ e = Py.OverflowError msg.
Proof.
  unfold Py.int_of_float.
  destruct (FloatOps.Prim2SF x); intros H; try discriminate;
    injection H as <-; eauto.
Qed.

(** Dividing an int by a truthy number: floor division by an int, the
    float quotient of the converted int by a float. *)
Lemma div_int_truthy (w : Z) (r : Py.num) :
  Py.truthy_num r = true ->
  Py.div (Py.PyInt w) r
  = match r with
    | Py.PyInt y => Py.Ok (Py.PyInt (w / y))
    | Py.PyFloat y =>
        x <- Py.float_of_int w ;; Py.Ok (Py.PyFloat (PrimFloat.div x y))
    end.
Proof.
  destruct r as [y|y]; simpl; intros H; apply negb_true_iff in H.
  - rewrite H. reflexivity.
  - destruct (Py.float_of_int w) as [x|e]; simpl; [|reflexivity].
    rewrite H. reflexivity.
Qed.

Lemma mul_int (h : Z) (r : Py.num) :
  Py.mul (Py.PyInt h) r
  = match r with
    | Py.PyInt y => Py.Ok (Py.PyInt (h * y))
    | Py.PyFloat y =>
        x <- Py.float_of_int h ;; Py.Ok (Py.PyFloat (PrimFloat.mul x y))
    end.
Proof.
  destruct r as [y|y]; simpl; [reflexivity|].
  destruct (Py.float_of_int h); reflexivity.
Qed.

(** ** models.py: [ImageSize] *)

(** What [get_height] and [get_width] compute when they derive a
    dimension. *)
Lemma get_height_derives (s : models.ImageSize) (w : Z) (r : Py.num) :
  models.width s = Some w -> models.height s = None ->
  models.aspect_ratio s = Some r -> w <> 0 -> Py.truthy_num r = true ->
  models.get_height s
  = match r with
    | Py.PyInt y => Py.Ok (Some (w / y))
    | Py.PyFloat y =>
        x <- Py.float_of_int w ;;
        z <- Py.int_of_float (PrimFloat.div x y) ;;
        Py.Ok (Some z)
    end.
Proof.
  intros Hw Hh Hr Hnz Ht.
  unfold models.get_height. rewrite Hh, Hw, Hr, Ht.
  replace (w =? 0) with false by (symmetry; apply Z.eqb_neq; exact Hnz).
  cbn [negb andb]. rewrite (div_int_truthy w r Ht).
  destruct r as [y|y]; [reflexivity|].
  destruct (Py.float_of_int w); reflexivity.
Qed.

Lemma get_width_derives (s : models.ImageSize) (h : Z) (r : Py.num) :
  models.height s = Some h -> models.width s = None ->
  models.aspect_ratio s = Some r -> h <> 0 -> Py.truthy_num r = true ->
  models.get_width s
  = match r with
    | Py.PyInt y => Py.Ok (Some (h * y))
    | Py.PyFloat y =>
        x <- Py.float_of_int h ;;
        z <- Py.int_of_float (PrimFloat.mul x y) ;;
        Py.Ok (Some z)
    end.
Proof.
  intros Hh Hw Hr Hnz Ht.
  unfold models.get_width. rewrite Hw, Hh, Hr, Ht.
  replace (h =? 0) with false by (symmetry; apply Z.eqb_neq; exact Hnz).
  cbn [negb andb]. rewrite (mul_int h r).
  destruct r as [y|y]; [reflexivity|].
  destruct (Py.float_of_int h); reflexivity.
Qed.

(** C6.  [get_retina] never returns.  On every [ImageSize] whose width
    and height resolve, the call [self.aspect_ratio()] inside
    [get_dimensions] raises a [TypeError]; when resolving the width or
    the height raises (a nan or an infinite ratio, a dimension beyond
    the float range) that exception leaves [get_retina] instead.  The
    doubled dimensions the claim describes are never produced. *)
Theorem get_retina_raises (s : models.ImageSize) :
  models.get_retina s
  = match models.get_width s, models.get_height s with
    | Py.Raise e, _ => Py.Raise e
    | Py.Ok _, Py.Raise e => Py.Raise e
    | Py.Ok _, Py.Ok _ => Py.Raise (Py.TypeError "object is not callable")
    end
  /\ exists e, models.get_retina s = Py.Raise e.
Proof.
  unfold models.get_retina, models.get_dimensions.
  destruct (models.get_width s) as [w|e]; simpl; [|eauto].
  destruct (models.get_height s) as [h|e]; simpl; eauto.
Qed.

(** C8, as stated, fails on a size whose width is 0: the height is left
    unresolved ([None]) where the claim asks for floor(0 / 2) = 0. *)
Lemma get_height_zero_width :
  models.get_height inputs.zero_width = Py.Ok None
  /\ models.get_height inputs.zero_width
     <> Py.Ok (Some (Qfloor (inject_Z 0 / 2))).
Proof. split; [reflexivity | discriminate]. Qed.

(** It fails on floats as well: the ratio 0.3 is the float
    0x1.3333333333333p-2, whose exact product with 10 is below 3, so
    that the floor of the product is 2; the float product rounds to
    3.0 and the resolved width is 3. *)
Lemma get_width_rounds_product :
  models.get_width inputs.narrow = Py.Ok (Some 3)
  /\ option_map (fun q => Qfloor (inject_Z 10 * q))
       (Py.exact inputs.three_tenths) = Some 2.
Proof. split; vm_compute; reflexivity. Qed.

(** C8, amended.  With width and height both present the resolved
    dimensions are exactly these.  With only a width [w] other than 0 and
    a ratio that is not zero, the resolved height is [int(w / ratio)] as
    Python computes it: floor(w / ratio) for an int ratio; for a float
    ratio the int [w] converted to a float, the rounded float quotient,
    and its truncation toward zero, with an exception when the width is
    beyond the float range or the quotient is infinite or a nan.  With
    only a height the resolved width is [int(h * ratio)] in the same
    way.  A lone dimension that is 0, or a ratio that is 0, leaves the
    other dimension unresolved. *)
Theorem geometry_resolution (s : models.ImageSize) :
  (forall w h, models.width s = Some w -> models.height s = Some h ->
     models.get_width s = Py.Ok (Some w)
     /\ models.get_height s = Py.Ok (Some h))
  /\ (forall w r, models.width s = Some w -> models.height s = None ->
        models.aspect_ratio s = Some r -> w <> 0 -> Py.truthy_num r = true ->
        models.get_height s
        = match r with
          | Py.PyInt y => Py.Ok (Some (w / y))
          | Py.PyFloat y =>
              x <- Py.float_of_int w ;;
              z <- Py.int_of_float (PrimFloat.div x y) ;;
              Py.Ok (Some z)
          end)
  /\ (forall h r, models.height s = Some h -> models.width s = None ->
        models.aspect_ratio s = Some r -> h <> 0 -> Py.truthy_num r = true ->
        models.get_width s
        = match r with
          | Py.PyInt y => Py.Ok (Some (h * y))
          | Py.PyFloat y =>
              x <- Py.float_of_int h ;;
              z <- Py.int_of_float (PrimFloat.mul x y) ;;
              Py.Ok (Some z)
          end)
  /\ (forall w r, models.width s = Some w -> models.height s = None ->
        models.aspect_ratio s = Some r ->
        w = 0 \/ Py.truthy_num r = false ->
        models.get_height s = Py.Ok None)
  /\ (forall h r, models.height s = Some h -> models.width s = None ->
        models.aspect_ratio s = Some r ->
        h = 0 \/ Py.truthy_num r = false ->
        models.get_width s = Py.Ok None).
Proof.
  split; [|split; [|split; [|split]]].
  - intros w h Hw Hh. split.
    + unfold models.get_width. rewrite Hw. reflexivity.
    + unfold models.get_height. rewrite Hh. reflexivity.
  - intros w r. apply get_height_derives.
  - intros h r. apply get_width_derives.
  - intros w r Hw Hh Hr [Hz|Hz]; unfold models.get_height;
      rewrite Hh, Hw, Hr.
    + subst w. reflexivity.
    + rewrite Hz, andb_false_r. reflexivity.
  - intros h r Hh Hw Hr [Hz|Hz]; unfold models.get_width;
      rewrite Hw, Hh, Hr.
    + subst h. reflexivity.
    + rewrite Hz, andb_false_r. reflexivity.
Qed.

Lemma geometry_resolution_witness :
  (models.get_width inputs.boxed = Py.Ok (Some 100)
   /\ models.get_height inputs.boxed = Py.Ok (Some 50))
  /\ models.get_height inputs.wide = Py.Ok (Some 50)
  /\ models.get_height inputs.thirds = Py.Ok (Some 66)
  /\ models.get_width inputs.tall = Py.Ok (Some 200)
  /\ models.get_width inputs.narrow = Py.Ok (Some 3)
  /\ models.get_height inputs.zero_width = Py.Ok None.
Proof.
  split; [|split; [|split; [|split; [|split]]]].
  - apply (proj1 (geometry_resolution inputs.boxed)); reflexivity.
  - rewrite (proj1 (proj2 (geometry_resolution inputs.wide))
               200 (Py.PyFloat inputs.four));
      [reflexivity | reflexivity | reflexivity | reflexivity | lia
      | reflexivity].
  - rewrite (proj1 (proj2 (geometry_resolution inputs.thirds))
               200 (Py.PyInt 3));
      [reflexivity | reflexivity | reflexivity | reflexivity | lia
      | reflexivity].
  - rewrite (proj1 (proj2 (proj2 (geometry_resolution inputs.tall)))
               50 (Py.PyFloat inputs.four));
      [reflexivity | reflexivity | reflexivity | reflexivity | lia
      | reflexivity].
  - rewrite (proj1 (proj2 (proj2 (geometry_resolution inputs.narrow)))
               10 (Py.PyFloat inputs.three_tenths));
      [reflexivity | reflexivity | reflexivity | reflexivity | lia
      | reflexivity].
  - apply (proj1 (proj2 (proj2 (proj2 (geometry_resolution inputs.zero_width))))
             0 (Py.PyFloat inputs.two)); try reflexivity. left. reflexivity.
Defined.

(** C5, as stated, fails: saving the size 200 wide with the explicit
    ratio 4.0 stores the ratio 1, and the derived height becomes 200
    where int(200 / 4.0) is 50. *)
Lemma save_overwrites_ratio :
  (s <- models.save inputs.wide ;; models.get_height s) = Py.Ok (Some 200)
  /\ (q <- Py.div (Py.PyInt 200) (Py.PyFloat inputs.four) ;; Py.int q) = Py.Ok 50
  /\ (s <- models.save inputs.wide ;; models.get_height s)
     <> Py.Ok (Some 50).
Proof. split; [reflexivity | split; [reflexivity | discriminate]]. Qed.

(** C5, amended.  [ImageSize.save] does not keep an explicit ratio when a
    dimension is missing: with a width [w] present and the height absent
    it never raises, stores the ratio 1 whatever the explicit ratio was,
    and leaves width and height as they were; afterwards [get_height]
    returns [w] itself (and [None] when [w] is 0). *)
Theorem save_resets_ratio (s : models.ImageSize) (w : Z) :
  models.width s = Some w -> models.height s = None ->
  exists s', models.save s = Py.Ok s'
    /\ models.aspect_ratio s' = Some (Py.PyInt 1)
    /\ models.width s' = Some w /\ models.height s' = None
    /\ models.get_height s' = Py.Ok (if w =? 0 then None else Some w).
Proof.
  intros Hw Hh.
  exists (models.set_aspect_ratio s (Some (Py.PyInt 1))).
  unfold models.save. rewrite Hh. simpl.
  repeat split; try assumption.
  unfold models.get_height. simpl. rewrite Hh, Hw.
  destruct (w =? 0); simpl; [reflexivity|].
  rewrite Z.div_1_r. reflexivity.
Qed.

Lemma save_resets_ratio_witness :
  exists s', models.save inputs.wide = Py.Ok s'
    /\ models.aspect_ratio s' = Some (Py.PyInt 1)
    /\ models.width s' = Some 200 /\ models.height s' = None
    /\ models.get_height s' = Py.Ok (Some 200).
Proof. apply (save_resets_ratio inputs.wide 200); reflexivity. Defined.

(** ** utils/image.py: [smart_resize] *)

(** C9.  An image that is no wider and no higher than the target is
    returned as it is, whatever the Pillow version: it is not resized and
    not upscaled. *)
Theorem smart_resize_noop (v : option (list Z)) (im : image.Image)
    (final_w final_h : Z) :
  fst (image.size im) <= final_w -> snd (image.size im) <= final_h ->
  image.smart_resize v im final_w final_h = im.
Proof.
  intros Hw Hh. unfold image.smart_resize.
  destruct (image.size im) as [orig_w orig_h]. simpl in Hw, Hh.
  apply Z.leb_le in Hw. apply Z.leb_le in Hh.
  rewrite Hw, Hh. reflexivity.
Qed.

Lemma smart_resize_noop_witness :
  image.smart_resize None pictures.small 80 100 = pictures.small.
Proof. apply smart_resize_noop; simpl; lia. Defined.

(** The loop over the eighths, entered as [smart_resize] enters it,
    leaves the image alone or resizes the image itself, never a cropped
    copy, and to a square whose side comes from the width. *)
Lemma eighths_shape (steps : list positive) (im : image.Image) (goal_w goal_h : Q) :
  let out := image.eighths steps im (fst (image.size im))
               (snd (image.size im)) goal_w goal_h in
  out = im
  \/ exists i, In i steps
       /\ out = image.resize im
                  (Py.Qtrunc (inject_Z (fst (image.size im)) * (Zpos i # 8)),
                   Py.Qtrunc (inject_Z (fst (image.size im)) * (Zpos i # 8)))
                  image.NEAREST.
Proof.
  induction steps as [|i later IH]; simpl.
  - left. reflexivity.
  - destruct (Qle_bool goal_w _ && Qle_bool goal_h _).
    + right. exists i. split; [left; reflexivity|].
      destruct ((fst (image.size im) mod 8 =? 0)
                || (snd (image.size im) mod 8 =? 0)).
      * destruct (image.size im). reflexivity.
      * reflexivity.
    + destruct IH as [IH|[j [Hj IH]]].
      * left. exact IH.
      * right. exists j. split; [right; exact Hj | exact IH].
Qed.

Lemma eighths_keeps_crops (steps : list positive) (im : image.Image)
    (goal_w goal_h : Q) :
  image.has_crop
    (image.px (image.eighths steps im (fst (image.size im))
                 (snd (image.size im)) goal_w goal_h))
  = image.has_crop (image.px im).
Proof.
  destruct (eighths_shape steps im goal_w goal_h) as [H|[i [_ H]]];
    rewrite H; reflexivity.
Qed.

(** C1.  No pre-crop ever reaches the coarse pass.  The result of
    [smart_resize] holds a crop step exactly when its input did; and the
    1001 x 751 photo, whose sides leave the remainders 1 and 7, goes into
    the nearest-neighbour pass as the uncropped 1001 x 751 source, not as
    a 1000 x 744 one. *)
Theorem smart_resize_skips_precrop :
  (forall v im final_w final_h,
     image.has_crop (image.px (image.smart_resize v im final_w final_h))
     = image.has_crop (image.px im))
  /\ (1001 mod 8 = 1 /\ 751 mod 8 = 7)
  /\ image.coarse_pass (image.smart_resize None pictures.photo 100 75)
     = Some (image.Decoded 1001 751, (250, 250)).
Proof.
  split; [|split; [split; reflexivity | reflexivity]].
  intros v im final_w final_h. unfold image.smart_resize.
  pose proof (eighths_keeps_crops image.xrange_1_8 im
                (inject_Z final_w * (3 # 2)) (inject_Z final_h * (3 # 2))) as H.
  destruct (image.size im) as [orig_w orig_h]. simpl in H.
  destruct ((orig_w <=? final_w) && (orig_h <=? final_h)); [reflexivity|].
  destruct (image.has_good_bicubic v); [reflexivity|].
  simpl. exact H.
Qed.

(** C2.  The coarse pass does not scale both axes alike.  When the loop
    picks the ratio i/8 it resizes to a square of side int(orig_w * i/8):
    the height of the intermediate image is computed from the width.  On
    the 1001 x 751 photo and the target 100 x 75 the ratio is 2/8 and the
    intermediate image is 250 x 250, where int(751 * 2/8) is 187.  The
    final pass does return an image of the target size. *)
Theorem smart_resize_coarse_pass_square :
  (forall im final_w final_h,
     let out := image.eighths image.xrange_1_8 im (fst (image.size im))
                  (snd (image.size im)) (inject_Z final_w * (3 # 2))
                  (inject_Z final_h * (3 # 2)) in
     out = im
     \/ exists i, In i image.xrange_1_8
          /\ image.size out
             = (Py.Qtrunc (inject_Z (fst (image.size im)) * (Zpos i # 8)),
                Py.Qtrunc (inject_Z (fst (image.size im)) * (Zpos i # 8))))
  /\ image.coarse_pass (image.smart_resize None pictures.photo 100 75)
     = Some (image.Decoded 1001 751, (250, 250))
  /\ (Py.Qtrunc (inject_Z 1001 * (2 # 8)), Py.Qtrunc (inject_Z 751 * (2 # 8)))
     = (250, 187)
  /\ image.size (image.smart_resize None pictures.photo 100 75) = (100, 75).
Proof.
  split; [|repeat split].
  intros im final_w final_h out.
  destruct (eighths_shape image.xrange_1_8 im (inject_Z final_w * (3 # 2))
              (inject_Z final_h * (3 # 2))) as [H|[i [Hi H]]].
  - left. exact H.
  - right. exists i. split; [exact Hi|]. unfold out. rewrite H. reflexivity.
Qed.

(** ** utils/image.py: [process_image] *)

Lemma comprehension_total (callback : image.Image -> image.Image)
    (images : list image.Image) :
  image.raising.comprehension (fun i => Py.Ok (callback i)) images
  = Py.Ok (map callback images).
Proof.
  induction images as [|i later IH]; simpl; [reflexivity|].
  rewrite IH. reflexivity.
Qed.

(** With a callback that returns, the comprehension returns a frame for
    each image. *)
Lemma comprehension_returns (callback : image.Image -> Py.result image.Image)
    (images : list image.Image) :
  (forall im, exists im', callback im = Py.Ok im') ->
  exists new_images,
    image.raising.comprehension callback images = Py.Ok new_images
    /\ length new_images = length images.
Proof.
  intros Hcb. induction images as [|i later (l & Hl & Hlen)]; simpl.
  - exists []. split; reflexivity.
  - destruct (Hcb i) as [i' Hi]. rewrite Hi, Hl. simpl.
    exists (i' :: l). split; [reflexivity | simpl; rewrite Hlen; reflexivity].
Qed.

(** With a library that returns, loading the frames of an animated
    source returns a frame at least. *)
Lemma load_frames_returns (lib : image.raising.library)
    (cfg : image.settings)
    (callback : image.Image -> Py.result image.Image) (im : image.Image)
    (tr : list image.event) :
  image.raising.returning lib callback ->
  exists tr' first rest,
    image.raising.load_frames lib cfg im tr = (tr', Py.Ok (first :: rest)).
Proof.
  intros (Hg & [name Hname] & Hsave & Hread & Hgif & _).
  unfold image.raising.load_frames.
  destruct (negb (image.has_animated_gif_support cfg)).
  - eexists _, _, _. reflexivity.
  - destruct (Py.truthy_str (image.CROPDUSTER_GIFSICLE_PATH cfg)).
    + destruct (Hg im) as [g Hgim].
      unfold image.raising.bindM, image.raising.quiet. rewrite Hgim.
      eexists _, _, _. reflexivity.
    + unfold image.raising.bindM, image.raising.quiet, image.raising.warn,
        image.raising.call, image.raising.ret.
      destruct (image.filename im) as [f|].
      * destruct (negb (String.eqb f "") && image.raising.path_exists lib f).
        -- rewrite Hread. destruct (Hgif f) as (first & rest & ->).
           eexists _, _, _. reflexivity.
        -- rewrite Hname, Hsave, Hread.
           destruct (Hgif name) as (first & rest & ->).
           eexists _, _, _. reflexivity.
      * rewrite Hname, Hsave, Hread.
        destruct (Hgif name) as (first & rest & ->).
        eexists _, _, _. reflexivity.
Qed.

(** The model in which every call returns is the one above run with the
    library of total functions. *)
Lemma process_image_total (cfg : image.settings)
    (GifsicleImage : image.Image -> image.Image)
    (read_gif : string -> image.Image * list image.Image)
    (path_exists : string -> bool) (temp_name : string)
    (im : image.Image) (save_filename : option string)
    (callback : image.Image -> image.Image) (nq : Z)
    (save_params : option image.params) :
  image.raising.process_image
    (image.raising.total GifsicleImage read_gif path_exists temp_name)
    cfg im save_filename (fun i => Py.Ok (callback i)) nq save_params []
  = image.process_image cfg GifsicleImage read_gif path_exists temp_name
      im save_filename callback nq save_params.
Proof.
  unfold image.raising.process_image, image.process_image,
    image.raising.load_frames, image.load_frames,
    image.raising.bindM, image.raising.quiet, image.raising.warn,
    image.raising.call, image.raising.ret, image.raising.throw,
    image.raising.total.
  cbn [image.raising.GifsicleImage image.raising.NamedTemporaryFile
       image.raising.save image.raising.read_file image.raising.read_gif
       image.raising.write_gif image.raising.open
       image.raising.path_exists].
  destruct (image.is_animated_gif im).
  - destruct (negb (image.has_animated_gif_support cfg)).
    + cbn [andb app image.raising.comprehension Py.bind length].
      destruct save_filename as [path|]; cbn [Py.truthy_str negb];
        [|reflexivity].
      destruct (String.eqb path ""); reflexivity.
    + destruct (Py.truthy_str (image.CROPDUSTER_GIFSICLE_PATH cfg)).
      * cbn [andb app image.raising.comprehension Py.bind length].
        destruct save_filename as [path|]; cbn [Py.truthy_str negb];
          [|reflexivity].
        destruct (String.eqb path ""); reflexivity.
      * destruct (image.filename im) as [f|].
        -- destruct (negb (String.eqb f "") && path_exists f).
           ++ cbn [app]. destruct (read_gif f) as [first rest].
              rewrite comprehension_total.
              destruct save_filename as [path|]; cbn [Py.truthy_str negb andb];
                [|reflexivity].
              destruct (String.eqb path ""); cbn [negb]; [reflexivity|].
              cbn [length map]. destruct (1 <? Z.of_nat (S (length rest)));
                reflexivity.
           ++ cbn [app]. destruct (read_gif temp_name) as [first rest].
              rewrite comprehension_total.
              destruct save_filename as [path|]; cbn [Py.truthy_str negb andb];
                [|reflexivity].
              destruct (String.eqb path ""); cbn [negb]; [reflexivity|].
              cbn [length map]. destruct (1 <? Z.of_nat (S (length rest)));
                reflexivity.
        -- cbn [app]. destruct (read_gif temp_name) as [first rest].
           rewrite comprehension_total.
           destruct save_filename as [path|]; cbn [Py.truthy_str negb andb];
             [|reflexivity].
           destruct (String.eqb path ""); cbn [negb]; [reflexivity|].
           cbn [length map]. destruct (1 <? Z.of_nat (S (length rest)));
             reflexivity.
  - cbn [andb app image.raising.comprehension Py.bind length].
    destruct save_filename as [path|]; [|reflexivity].
    destruct (String.eqb path ""); reflexivity.
Qed.

(** C7, as stated, fails: a source that is not animated, processed with
    a destination that cannot be written, leaves [process_image] with the
    exception of [save]. *)
Lemma process_image_save_raises :
  image.is_animated_gif pictures.photo = false
  /\ image.raising.process_image pictures.read_only pictures.bare
       pictures.photo (Some "/missing/thumb.jpg") (fun i => Py.Ok i) 0 None []
     = ([image.SaveImage "/missing/thumb.jpg" pictures.photo
           {| image.quality := Some 95; image.icc := Some None |}],
        Py.Raise (Py.IOError "No such file or directory")).
Proof. split; reflexivity. Qed.

(** C7, amended.  An animated source (its format is GIF or missing, and
    its metadata holds an extension marker) processed with no
    [save_filename] ([None] or the empty string) never returns: once its
    frames are loaded and passed through the callback, the explicit
    [raise] ends the call.  That is the only exception of
    [process_image] itself: when every call it makes returns, it raises
    exactly in that case, and every other exception is one of a call it
    makes (the callback, the loading of the frames, [save], [write_gif],
    [PIL.Image.open]).  On a source that is not animated and with no
    [save_filename] it calls the callback on the source and nothing
    else, and returns the frame the callback returns. *)
Theorem process_image_raises_iff (lib : image.raising.library)
    (cfg : image.settings) (im : image.Image)
    (save_filename : option string)
    (callback : image.Image -> Py.result image.Image) (nq : Z)
    (save_params : option image.params) :
  let run := image.raising.process_image lib cfg im save_filename callback
               nq save_params [] in
  (image.is_animated_gif im = true ->
   Py.truthy_str save_filename = false ->
   (exists e, snd run = Py.Raise e)
   /\ forall ev images new_images,
        image.raising.load_frames lib cfg im [] = (ev, Py.Ok images) ->
        image.raising.comprehension callback images = Py.Ok new_images ->
        run = (ev, Py.Raise
                     (Py.Exception
                        "Animated gifs must be saved on each processing.")))
  /\ (image.raising.returning lib callback ->
      ((exists e, snd run = Py.Raise e)
       <-> (image.is_animated_gif im = true
            /\ Py.truthy_str save_filename = false))
      /\ forall e, snd run = Py.Raise e ->
           e = Py.Exception "Animated gifs must be saved on each processing.")
  /\ (image.is_animated_gif im = false ->
      Py.truthy_str save_filename = false ->
      run = ([], match callback im with
                 | Py.Ok frame => Py.Ok (image.Frame frame)
                 | Py.Raise e => Py.Raise e
                 end)).
Proof.
  intros run. unfold run. clear run.
  split; [|split].
  - intros Ha Hf.
    assert (Hshape :
              image.raising.process_image lib cfg im save_filename callback
                nq save_params []
              = match image.raising.load_frames lib cfg im [] with
                | (tr', Py.Ok images) =>
                    match image.raising.comprehension callback images with
                    | Py.Ok _ =>
                        (tr', Py.Raise
                                (Py.Exception
                                   "Animated gifs must be saved on each processing."))
                    | Py.Raise e => (tr', Py.Raise e)
                    end
                | (tr', Py.Raise e) => (tr', Py.Raise e)
                end).
    { unfold image.raising.process_image. rewrite Ha, Hf. reflexivity. }
    rewrite Hshape. clear Hshape.
    destruct (image.raising.load_frames lib cfg im []) as [ev [images|e]].
    + split.
      * destruct (image.raising.comprehension callback images);
          eexists; reflexivity.
      * intros ev' images' new' H Hc'. inversion H; subst.
        rewrite Hc'. reflexivity.
    + split; [eexists; reflexivity|]. intros ev' images' new' H.
      discriminate.
  - intros Hret.
    pose proof Hret as (_ & _ & Hsave & _ & _ & Hwrite & Hopen & Hcb).
    assert (Hloaded : exists tr first rest,
               (if image.is_animated_gif im
                then image.raising.load_frames lib cfg im
                else image.raising.ret [im]) []
               = (tr, Py.Ok (first :: rest))).
    { destruct (image.is_animated_gif im).
      - exact (load_frames_returns lib cfg callback im [] Hret).
      - eexists _, _, _. reflexivity. }
    destruct Hloaded as (tr & first & rest & Hload).
    destruct (comprehension_returns callback (first :: rest) Hcb)
      as (new_images & Hnew & Hlen).
    destruct new_images as [|new_first new_rest]; [discriminate|].
    remember (image.raising.process_image lib cfg im save_filename callback
                nq save_params []) as run eqn:Hrun.
    unfold image.raising.process_image in Hrun.
    unfold image.raising.bindM at 1 in Hrun. rewrite Hload in Hrun.
    unfold image.raising.bindM at 1, image.raising.quiet at 1 in Hrun.
    rewrite Hnew in Hrun.
    assert (Hraise : forall tr0,
               run = (tr0, Py.Raise
                             (Py.Exception
                                "Animated gifs must be saved on each processing.")) ->
               ((exists e, snd run = Py.Raise e) <-> True)
               /\ forall e, snd run = Py.Raise e ->
                    e = Py.Exception
                          "Animated gifs must be saved on each processing.").
    { intros tr0 ->. cbn [snd]. split.
      - split; [trivial | intros _; eexists; reflexivity].
      - intros e H. injection H as <-. reflexivity. }
    assert (Hreturn : forall tr0 v,
               run = (tr0, Py.Ok v) ->
               ((exists e, snd run = Py.Raise e) <-> False)
               /\ forall e, snd run = Py.Raise e ->
                    e = Py.Exception
                          "Animated gifs must be saved on each processing.").
    { intros tr0 v ->. cbn [snd]. split.
      - split; [intros [e H]; discriminate | contradiction].
      - intros e H. discriminate. }
    destruct (image.is_animated_gif im) eqn:Ha;
      destruct save_filename as [path|]; cbn [Py.truthy_str andb negb] in *.
    + destruct (String.eqb path "") eqn:Hp; cbn [negb] in *.
      * destruct (Hraise _ Hrun) as [Hiff Hwhich]. split; [|exact Hwhich].
        rewrite Hiff. tauto.
      * assert (Hok : exists tr', run = (tr', Py.Ok (image.Opened path))).
        { rewrite Hrun.
          destruct (1 <? Z.of_nat (length (first :: rest)));
            unfold image.raising.bindM, image.raising.call,
              image.raising.quiet, image.raising.ret;
            cbn [image.raising.item0];
            rewrite ?Hwrite, ?Hsave, Hopen; eexists; reflexivity. }
        destruct Hok as [tr' Hok].
        destruct (Hreturn _ _ Hok) as [Hiff Hwhich]. split; [|exact Hwhich].
        rewrite Hiff. split; [contradiction | intros [_ H]; discriminate].
    + destruct (Hraise _ Hrun) as [Hiff Hwhich]. split; [|exact Hwhich].
      rewrite Hiff. tauto.
    + assert (Hok : exists tr' v, run = (tr', Py.Ok v)).
      { rewrite Hrun. destruct (String.eqb path ""); cbn [negb];
          unfold image.raising.bindM, image.raising.call,
            image.raising.quiet, image.raising.ret;
          cbn [image.raising.item0];
          rewrite ?Hsave, ?Hopen; eexists _, _; reflexivity. }
      destruct Hok as (tr' & v & Hok).
      destruct (Hreturn _ _ Hok) as [Hiff Hwhich]. split; [|exact Hwhich].
      rewrite Hiff. split; [contradiction | intros [H _]; discriminate].
    + assert (Hok : exists tr' v, run = (tr', Py.Ok v)).
      { rewrite Hrun.
        unfold image.raising.bindM, image.raising.quiet, image.raising.ret.
        cbn [image.raising.item0]. eexists _, _; reflexivity. }
      destruct Hok as (tr' & v & Hok).
      destruct (Hreturn _ _ Hok) as [Hiff Hwhich]. split; [|exact Hwhich].
      rewrite Hiff. split; [contradiction | intros [H _]; discriminate].
  - intros Ha Hf. unfold image.raising.process_image. rewrite Ha.
    unfold image.raising.bindM, image.raising.quiet, image.raising.ret.
    cbn [image.raising.comprehension andb].
    destruct (callback im) as [frame|e]; cbn [Py.bind]; [|reflexivity].
    destruct save_filename as [path|]; [|reflexivity].
    cbn [Py.truthy_str] in Hf. apply negb_false_iff in Hf. rewrite Hf.
    reflexivity.
Qed.

Lemma process_image_raises_iff_witness :
  image.raising.process_image
    (image.raising.total (fun i => i) pictures.one_frame pictures.nowhere
       "/tmp/tmpq1.gif")
    pictures.bare pictures.spinner None (fun i => Py.Ok i) 0 None []
  = ([image.Warn "This server does not have animated gif support; your uploaded image has been made static."],
     Py.Raise (Py.Exception "Animated gifs must be saved on each processing."))
  /\ ((exists e,
         snd (image.raising.process_image
                (image.raising.total (fun i => i) pictures.one_frame
                   pictures.nowhere "/tmp/tmpq1.gif")
                pictures.bare pictures.photo (Some "/media/out.jpg")
                (fun i => Py.Ok i) 0 None []) = Py.Raise e)
      <-> (image.is_animated_gif pictures.photo = true
           /\ Py.truthy_str (Some "/media/out.jpg") = false))
  /\ image.raising.process_image
       (image.raising.total (fun i => i) pictures.one_frame pictures.nowhere
          "/tmp/tmpq1.gif")
       pictures.bare pictures.photo None (fun i => Py.Ok i) 0 None []
     = ([], Py.Ok (image.Frame pictures.photo)).
Proof.
  assert (Hret : image.raising.returning
                   (image.raising.total (fun i => i) pictures.one_frame
                      pictures.nowhere "/tmp/tmpq1.gif")
                   (fun i => Py.Ok i)).
  { repeat split; intros; try reflexivity; try (eexists; reflexivity).
    simpl. destruct (pictures.one_frame f) as [first rest].
    eexists _, _. reflexivity. }
  split; [|split].
  - apply (proj2 (proj1 (process_image_raises_iff _ pictures.bare
             pictures.spinner None (fun i => Py.Ok i) 0 None)
             eq_refl eq_refl) _ [pictures.spinner] [pictures.spinner]);
      reflexivity.
  - exact (proj1 (proj1 (proj2 (process_image_raises_iff _ pictures.bare
             pictures.photo (Some "/media/out.jpg") (fun i => Py.Ok i) 0 None))
             Hret)).
  - apply (proj2 (proj2 (process_image_raises_iff _ pictures.bare
             pictures.photo None (fun i => Py.Ok i) 0 None))); reflexivity.
Defined.

(** ** The file system *)

Lemma string_length_app (a b : string) :
  String.length (a ++ b) = (String.length a + String.length b)%nat.
Proof. induction a as [|c a IH]; simpl; [reflexivity | rewrite IH; reflexivity]. Qed.

(** The temporary path is never the destination itself. *)
Lemma tmp_differs (p : string) : (p ++ ".tmp")%string <> p.
Proof.
  intros H. apply (f_equal String.length) in H.
  rewrite string_length_app in H. simpl in H. lia.
Qed.

Lemma file_at_insert_file (t : os.tree) (p q data : string) :
  os.file_at (<[q := os.File data]> t) p
  = if decide (q = p) then Some data else os.file_at t p.
Proof.
  unfold os.file_at. rewrite lookup_insert. destruct (decide (q = p)); reflexivity.
Qed.

Lemma file_at_insert_dirs (t : os.tree) (dirs : list string) (p : string) :
  existsb (fun d => os.is_file_node (t !! d)) dirs = false ->
  os.file_at (foldr (fun d m => <[d := os.Dir]> m) t dirs) p = os.file_at t p.
Proof.
  induction dirs as [|d dirs IH]; simpl; [reflexivity|].
  intros H. apply orb_false_iff in H as [Hd Hrest].
  unfold os.file_at at 1. rewrite lookup_insert.
  destruct (decide (d = p)) as [->|Hne].
  - unfold os.file_at, os.is_file_node in *.
    destruct (t !! p) as [[c|]|]; [discriminate | reflexivity | reflexivity].
  - apply IH. exact Hrest.
Qed.

(** [os.makedirs] creates directories only: no regular file appears,
    disappears or changes. *)
Lemma makedirs_keeps_files (t t' : os.tree) (name p : string) :
  os.makedirs t name = Py.Ok t' -> os.file_at t' p = os.file_at t p.
Proof.
  unfold os.makedirs.
  destruct (String.eqb name ""); [discriminate|].
  destruct (existsb _ (os.parents [] (list_ascii_of_string name))) eqn:Habove;
    [discriminate|].
  destruct (t !! name) as [n|] eqn:Hname; [discriminate|].
  intros H. injection H as <-.
  apply file_at_insert_dirs.
  rewrite existsb_app, Habove. simpl.
  unfold os.is_file_node. rewrite Hname. reflexivity.
Qed.

(** ** regenerate_thumbs.py: [Command.resize_image] *)

Section resize_image_facts.
Variable rescale :
  image.Image -> option Z -> option Z -> bool -> Py.result image.Image.
Variable encode :
  image.Image -> option string -> list (string * Z) -> regenerate_thumbs.encoded.
Variable image : image.Image.
Variable force : bool.

Import regenerate_thumbs.

(** The [except] clause leaves the file system alone and adds one log
    line at most. *)
Lemma handler_spec (st st' : state) (o : outcome) (tmp dst : string) :
  handler st = (st', o) ->
  fs st' = fs st /\ o <> Regenerated /\ o <> Skipped
  /\ exists new, trace st' = (trace st ++ new)%list
       /\ Forall (confined tmp dst) new
       /\ existsb is_rename new = false.
Proof.
  unfold handler. destruct (tmp_path st) as [t|].
  - simpl. destruct (stdin st) as [|resp later]; simpl.
    + intros H. injection H as <- <-. simpl.
      repeat split; try discriminate.
      exists [ErrorSaving t]. repeat split. repeat constructor.
    + destruct (String.eqb (lower_strip resp) "n");
        intros H; injection H as <- <-; simpl;
        (repeat split; try discriminate;
         exists [ErrorSaving t]; repeat split; repeat constructor).
  - intros H. injection H as <- <-.
    repeat split; try discriminate.
    exists []. rewrite app_nil_r. repeat split. constructor.
Qed.

(** What the [try ... except ... else] block does to the destination:
    either the thumbnail was rescaled and encoded, written to the
    temporary path and renamed over the destination, or the destination
    file is what it was and nothing was renamed. *)
Lemma regenerate_spec (st st' : state) (o : outcome) (size : Size) :
  regenerate rescale encode image st size = (st', o) ->
  exists new, trace st' = (trace st ++ new)%list
    /\ Forall (confined (path size ++ ".tmp") (path size)) new
    /\ ((o = Regenerated
         /\ existsb is_rename new = true
         /\ exists thumbnail data,
              rescale image (width size) (height size) (crop size)
              = Py.Ok thumbnail
              /\ encode thumbnail (image.format image)
                   (IMG_TYPE_PARAMS (image.format image)) = Complete data
              /\ os.file_at (fs st') (path size) = Some data
              /\ fs st' !! (path size ++ ".tmp")%string = None)
        \/ (o <> Regenerated /\ o <> Skipped
            /\ existsb is_rename new = false
            /\ os.file_at (fs st') (path size) = os.file_at (fs st) (path size))).
Proof.
  unfold regenerate.
  set (tmp := (path size ++ ".tmp")%string).
  destruct (rescale image (width size) (height size) (crop size))
    as [thumbnail|e] eqn:Hres.
  - destruct (encode thumbnail (image.format image)
                (IMG_TYPE_PARAMS (image.format image)))
      as [data|partial] eqn:Henc.
    + simpl. destruct (os.write (fs st) tmp data) as [t|e] eqn:Hw.
      * simpl.
        unfold os.write in Hw.
        assert (Ht : t = <[tmp := os.File data]> (fs st)).
        { destruct (fs st !! tmp) as [[c|]|]; congruence. }
        clear Hw. subst t.
        unfold os.rename. rewrite lookup_insert_eq.
        rewrite lookup_insert_ne by apply tmp_differs.
        assert (Hdone : forall t', t' = <[path size := os.File data]>
                                        (delete tmp (<[tmp := os.File data]> (fs st))) ->
                  os.file_at t' (path size) = Some data /\ t' !! tmp = None).
        { intros t' ->. split.
          - unfold os.file_at. rewrite lookup_insert_eq. reflexivity.
          - rewrite lookup_insert_ne
              by (intros E; symmetry in E; exact (tmp_differs _ E)).
            apply lookup_delete_eq. }
        destruct (fs st !! path size) as [[c|]|] eqn:Hdst.
        -- intros H. injection H as <- <-. simpl.
           exists [Saved tmp; Renamed tmp (path size)].
           split; [rewrite <- app_assoc; reflexivity|].
           split; [repeat constructor|].
           left. split; [reflexivity|]. split; [reflexivity|].
           exists thumbnail, data.
           split; [reflexivity|]. split; [exact Henc|].
           apply Hdone. reflexivity.
        -- intros H. injection H as <- <-. simpl.
           exists [Saved tmp].
           split; [reflexivity|]. split; [repeat constructor|].
           right. repeat split; try discriminate.
           rewrite file_at_insert_file.
           destruct (decide (tmp = path size)) as [E|_];
             [exfalso; exact (tmp_differs _ E) | reflexivity].
        -- intros H. injection H as <- <-. simpl.
           exists [Saved tmp; Renamed tmp (path size)].
           split; [rewrite <- app_assoc; reflexivity|].
           split; [repeat constructor|].
           left. split; [reflexivity|]. split; [reflexivity|].
           exists thumbnail, data.
           split; [reflexivity|]. split; [exact Henc|].
           apply Hdone. reflexivity.
      * intros H.
        destruct (handler_spec _ _ _ tmp (path size) H)
          as (Hfs & Hr & Hs & new & Htr & Hconf & Hren).
        exists new. simpl in Htr, Hfs. rewrite Hfs.
        repeat split; try assumption. right. repeat split; assumption.
    + intros H.
      destruct (handler_spec _ _ _ tmp (path size) H)
        as (Hfs & Hr & Hs & new & Htr & Hconf & Hren).
      destruct partial as [data|]; simpl in Htr, Hfs.
      * destruct (os.write (fs st) tmp data) as [t|e] eqn:Hw;
          simpl in Htr, Hfs.
        -- unfold os.write in Hw.
           assert (Ht : t = <[tmp := os.File data]> (fs st)).
           { destruct (fs st !! tmp) as [[c|]|]; congruence. }
           rewrite Ht in Hfs. clear Hw Ht.
           exists (Saved tmp :: new).
           split; [rewrite Htr, <- app_assoc; reflexivity|].
           split; [constructor; [reflexivity | exact Hconf]|].
           right. repeat split; try assumption.
           rewrite Hfs, file_at_insert_file.
           destruct (decide (tmp = path size)) as [E|_];
             [exfalso; exact (tmp_differs _ E) | reflexivity].
        -- exists new. rewrite Hfs.
           repeat split; try assumption. right. repeat split; assumption.
      * exists new. rewrite Hfs.
        repeat split; try assumption. right. repeat split; assumption.
  - destruct (Py.is_Exception e).
    + intros H.
      destruct (handler_spec _ _ _ tmp (path size) H)
        as (Hfs & Hr & Hs & new & Htr & Hconf & Hren).
      exists new. rewrite Hfs.
      repeat split; try assumption. right. repeat split; assumption.
    + intros H. injection H as <- <-.
      exists []. rewrite app_nil_r.
      split; [reflexivity|]. split; [constructor|].
      right. repeat split; discriminate.
Qed.

(** The same, for a block entered after some log lines and a change of
    the file system that moved no regular file. *)
Lemma regenerate_after (st st2 st' : state) (o : outcome) (size : Size)
    (pre : list entry) :
  trace st2 = (trace st ++ pre)%list ->
  Forall (confined (path size ++ ".tmp") (path size)) pre ->
  existsb is_rename pre = false ->
  os.file_at (fs st2) (path size) = os.file_at (fs st) (path size) ->
  regenerate rescale encode image st2 size = (st', o) ->
  exists new, trace st' = (trace st ++ new)%list
    /\ Forall (confined (path size ++ ".tmp") (path size)) new
    /\ ((o = Regenerated
         /\ existsb is_rename new = true
         /\ exists thumbnail data,
              rescale image (width size) (height size) (crop size)
              = Py.Ok thumbnail
              /\ encode thumbnail (image.format image)
                   (IMG_TYPE_PARAMS (image.format image)) = Complete data
              /\ os.file_at (fs st') (path size) = Some data
              /\ fs st' !! (path size ++ ".tmp")%string = None)
        \/ (o <> Regenerated /\ o <> Skipped
            /\ existsb is_rename new = false
            /\ os.file_at (fs st') (path size) = os.file_at (fs st) (path size))).
Proof.
  intros Hpre Hconf Hren Hfiles H.
  destruct (regenerate_spec _ _ _ _ H) as (new & Htr & Hconf' & Hcase).
  exists (pre ++ new)%list.
  split; [rewrite Htr, Hpre, <- app_assoc; reflexivity|].
  split; [apply Forall_app; split; assumption|].
  rewrite existsb_app, Hren. simpl.
  destruct Hcase as [Hdone|(Hr & Hs & Hren' & Hsame)].
  - left. exact Hdone.
  - right. repeat split; try assumption. rewrite Hsame. exact Hfiles.
Qed.


(** Passing from the two ways out of the [try] block to the three ways
    out of a turn of the loop. *)
Ltac from_regenerate H Hskip :=
  let new := fresh "new" in
  let Htr := fresh "Htr" in
  let Hconf := fresh "Hconf" in
  let Ho := fresh "Ho" in
  let Hdone := fresh "Hdone" in
  let Hr := fresh "Hr" in
  let Hs := fresh "Hs" in
  let Hrest := fresh "Hrest" in
  destruct H as (new & Htr & Hconf & [(Ho & Hdone)|(Hr & Hs & Hrest)]);
  exists new; (split; [exact Htr|]); (split; [exact Hconf|]);
  [ left; split; [exact Ho|]; split; [exact Hskip | exact Hdone]
  | right; right; split; [exact Hr|]; split; [exact Hs|];
    split; [rewrite Hskip; discriminate | exact Hrest] ].

(** One turn of the loop, by its three ways out. *)
Lemma resize_step_spec (st st' : state) (o : outcome) (size : Size) :
  resize_step rescale encode image force st size = (st', o) ->
  exists new, trace st' = (trace st ++ new)%list
    /\ Forall (confined (path size ++ ".tmp") (path size)) new
    /\ ((o = Regenerated
         /\ exists_nonempty force st size = Py.Ok false
         /\ existsb is_rename new = true
         /\ exists thumbnail data,
              rescale image (width size) (height size) (crop size)
              = Py.Ok thumbnail
              /\ encode thumbnail (image.format image)
                   (IMG_TYPE_PARAMS (image.format image)) = Complete data
              /\ os.file_at (fs st') (path size) = Some data
              /\ fs st' !! (path size ++ ".tmp")%string = None)
        \/ (o = Skipped /\ fs st' = fs st
            /\ exists_nonempty force st size = Py.Ok true
            /\ existsb is_rename new = false)
        \/ (o <> Regenerated /\ o <> Skipped
            /\ exists_nonempty force st size <> Py.Ok true
            /\ existsb is_rename new = false
            /\ os.file_at (fs st') (path size) = os.file_at (fs st) (path size))).
Proof.
  unfold resize_step.
  change (exists_nonempty force (note (Converting (name size)) st) size)
    with (exists_nonempty force st size).
  assert (Hcases : exists_nonempty force st size = Py.Ok true
                   \/ exists_nonempty force st size = Py.Ok false
                   \/ exists e, exists_nonempty force st size = Py.Raise e)
    by (destruct (exists_nonempty force st size) as [[|]|e]; eauto).
  destruct Hcases as [Hskip|[Hskip|[e Hskip]]]; rewrite Hskip at 1.
  - intros H. injection H as <- <-. simpl.
    exists [Converting (name size); Skipping (name size)].
    split; [rewrite <- app_assoc; reflexivity|].
    split; [repeat constructor|].
    right. left. repeat split. exact Hskip.
  - set (folder := fst (os_path.split (path size))).
    destruct (negb (os.isdir (fs (note (Converting (name size)) st)) folder)).
    + destruct (os.makedirs
                  (fs (note (Creating folder) (note (Converting (name size)) st)))
                  folder) as [t|e] eqn:Hmk.
      * intros H.
        apply (regenerate_after st _ _ _ _
                 [Converting (name size); Creating folder]) in H.
        -- from_regenerate H Hskip.
        -- simpl. rewrite <- app_assoc. reflexivity.
        -- repeat constructor.
        -- reflexivity.
        -- simpl. exact (makedirs_keeps_files _ _ _ _ Hmk).
      * intros H. injection H as <- <-. simpl.
        exists [Converting (name size); Creating folder].
        split; [rewrite <- app_assoc; reflexivity|].
        split; [repeat constructor|].
        right. right. rewrite Hskip. repeat split; discriminate.
    + intros H.
      apply (regenerate_after st _ _ _ _ [Converting (name size)]) in H.
      * from_regenerate H Hskip.
      * reflexivity.
      * repeat constructor.
      * reflexivity.
      * reflexivity.
  - intros H. injection H as <- <-. simpl.
    exists [Converting (name size)].
    split; [reflexivity|]. split; [repeat constructor|].
    right. right. rewrite Hskip. repeat split; discriminate.
Qed.







(** C4.  The save of a thumbnail goes through the temporary path: in one
    turn of the loop every write lands on [path + ".tmp"] and the only
    rename is from there to the destination; the rename happens only
    after the rescale and the encoding completed, and the destination
    then holds the whole encoded file while the temporary path is gone.
    In every other turn, and so whenever the rescale raised or the
    encoder failed, nothing is renamed and the file at the destination
    is what it was. *)
Theorem resize_step_atomic (st : state) (size : Size) :
  let tmp := (path size ++ ".tmp")%string in
  let step := resize_step rescale encode image force st size in
  exists new, trace (fst step) = (trace st ++ new)%list
    /\ Forall (confined tmp (path size)) new
    /\ (existsb is_rename new = true ->
        snd step = Regenerated
        /\ exists thumbnail data,
             rescale image (width size) (height size) (crop size)
             = Py.Ok thumbnail
             /\ encode thumbnail (image.format image)
                  (IMG_TYPE_PARAMS (image.format image)) = Complete data
             /\ os.file_at (fs (fst step)) (path size) = Some data
             /\ fs (fst step) !! tmp = None)
    /\ (snd step <> Regenerated ->
        existsb is_rename new = false
        /\ os.file_at (fs (fst step)) (path size)
           = os.file_at (fs st) (path size))
    /\ ((exists e, rescale image (width size) (height size) (crop size)
                   = Py.Raise e)
        \/ (exists thumbnail partial,
              rescale image (width size) (height size) (crop size)
              = Py.Ok thumbnail
              /\ encode thumbnail (image.format image)
                   (IMG_TYPE_PARAMS (image.format image)) = Broken partial) ->
        snd step <> Regenerated).
Proof.
  intros tmp step.
  destruct step as [st' o] eqn:Hstep. unfold step in Hstep. simpl.
  destruct (resize_step_spec _ _ _ _ Hstep) as (new & Htr & Hconf & Hcase).
  exists new. split; [exact Htr|]. split; [exact Hconf|].
  destruct Hcase
    as [(Ho & _ & Hren & th & data & Hres & Henc & Hfile & Htmp)
       |[(Ho & Hfs & _ & Hren)|(Hr & Hs & _ & Hren & Hsame)]].
  - split; [|split].
    + intros _. split; [exact Ho|]. exists th, data.
      repeat split; assumption.
    + intros H. contradiction.
    + intros [[e He]|(th' & partial & Hres' & Henc')] _.
      * congruence.
      * rewrite Hres' in Hres. injection Hres as ->. congruence.
  - split; [|split].
    + intros H. congruence.
    + intros _. split; [exact Hren | rewrite Hfs; reflexivity].
    + intros _. congruence.
  - split; [|split].
    + intros H. congruence.
    + intros _. split; assumption.
    + intros _. exact Hr.
Qed.

End resize_image_facts.


Lemma resize_step_atomic_witness :
  snd (regenerate_thumbs.resize_step disk.rescale_ok disk.encode_breaks
         pictures.photo true (disk.midway disk.done ["y"]) disk.thumb)
  = regenerate_thumbs.Failed
  /\ os.file_at
       (regenerate_thumbs.fs
          (fst (regenerate_thumbs.resize_step disk.rescale_ok
                  disk.encode_breaks pictures.photo true
                  (disk.midway disk.done ["y"]) disk.thumb)))
       "/media/photo/thumb.jpg"
     = Some "JFIF-old".
Proof.
  split; [reflexivity|].
  destruct (resize_step_atomic disk.rescale_ok disk.encode_breaks
              pictures.photo true (disk.midway disk.done ["y"]) disk.thumb)
    as (new & _ & _ & _ & Hkept & Hfail).
  refine (proj2 (Hkept (Hfail _))).
  right. exists (image.resize pictures.photo (100, 75) image.ANTIALIAS), (Some "JF").
  split; reflexivity.
Defined.

(** ** regenerate_thumbs.py: [Command.get_sizes] *)

(** On an object that has the attributes [get_sizes] asks for, the
    sizes come back once each. *)
Lemma get_sizes_legacy (arbitrary_ge : regenerate_thumbs.value ->
                                       regenerate_thumbs.value -> bool) :
  exists sizes,
    regenerate_thumbs.get_sizes arbitrary_ge disk.legacy false = Py.Ok sizes
    /\ forall s, s ∈ sizes <-> s = disk.thumb.
Proof.
  exists (list_to_set [disk.thumb; disk.thumb]). split; [reflexivity|].
  intros s. rewrite elem_of_list_to_set, !elem_of_cons, elem_of_nil. tauto.
Qed.

(** C10.  [get_sizes] returns no set for an instance of [models.Image],
    whatever [stretch] is: once the width and the height of the stored
    file are read, the lookup [cd_image.size_set] raises an
    [AttributeError], since [size_set] is a field of [ImageSize] and not
    of [Image] (whose sets are under [size_sets]).  When reading the
    width or the height raises, that exception leaves [get_sizes]
    instead. *)
Theorem get_sizes_raises
    (arbitrary_ge : regenerate_thumbs.value -> regenerate_thumbs.value -> bool)
    (f : regenerate_thumbs.ImageFields) (stretch : bool) :
  let cd_image := regenerate_thumbs.Image f in
  regenerate_thumbs.get_sizes arbitrary_ge cd_image stretch
  = (image <- regenerate_thumbs.getattr cd_image "image" ;;
     _ <- regenerate_thumbs.getattr image "width" ;;
     _ <- regenerate_thumbs.getattr image "height" ;;
     Py.Raise (Py.AttributeError "'Image' object has no attribute 'size_set'"))
  /\ (exists e,
        regenerate_thumbs.get_sizes arbitrary_ge cd_image stretch = Py.Raise e)
  /\ regenerate_thumbs.get_sizes arbitrary_ge
       (regenerate_thumbs.Image disk.record) stretch
     = Py.Raise (Py.AttributeError "'Image' object has no attribute 'size_set'").
Proof.
  intros cd_image.
  assert (Hshape :
            regenerate_thumbs.get_sizes arbitrary_ge cd_image stretch
            = (image <- regenerate_thumbs.getattr cd_image "image" ;;
               _ <- regenerate_thumbs.getattr image "width" ;;
               _ <- regenerate_thumbs.getattr image "height" ;;
               Py.Raise (Py.AttributeError
                           "'Image' object has no attribute 'size_set'"))).
  { unfold regenerate_thumbs.get_sizes.
    destruct (regenerate_thumbs.getattr cd_image "image") as [image|e];
      cbn [Py.bind]; [|reflexivity].
    destruct (regenerate_thumbs.getattr image "width") as [w|e];
      cbn [Py.bind]; [|reflexivity].
    destruct (regenerate_thumbs.getattr image "height") as [h|e];
      cbn [Py.bind]; reflexivity. }
  split; [exact Hshape|]. split; [|reflexivity].
  rewrite Hshape.
  destruct (regenerate_thumbs.getattr cd_image "image") as [image|e];
    cbn [Py.bind]; [|eauto].
  destruct (regenerate_thumbs.getattr image "width") as [w|e];
    cbn [Py.bind]; [|eauto].
  destruct (regenerate_thumbs.getattr image "height") as [h|e];
    cbn [Py.bind]; eauto.
Qed.

(** * Further properties *)

(** ** models.py: what the geometry helpers can raise *)

(** X1.  Resolving a width or a height never divides by zero: the only
    exceptions are those of the float conversions, a [ValueError] for a
    nan and an [OverflowError] for an infinite result or a dimension
    beyond the float range.  With a ratio that is an int, or with no
    ratio, both always return. *)
Theorem geometry_raises_only (s : models.ImageSize) :
  (forall e, models.get_width s = Py.Raise e \/ models.get_height s = Py.Raise e ->
     exists msg, e = Py.ValueError msg \/ e = Py.OverflowError msg)
  /\ ((forall x, models.aspect_ratio s <> Some (Py.PyFloat x)) ->
      exists w h, models.get_width s = Py.Ok w /\ models.get_height s = Py.Ok h).
Proof.
  assert (Hconv : forall (z : Z) (k : PrimFloat.float -> PrimFloat.float) e,
             (x <- Py.float_of_int z ;;
              v <- Py.int_of_float (k x) ;; Py.Ok (Some v))
             = Py.Raise e ->
             exists msg, e = Py.ValueError msg \/ e = Py.OverflowError msg).
  { intros z k e.
    destruct (Py.float_of_int z) as [x|e'] eqn:Hx; simpl.
    - destruct (Py.int_of_float (k x)) as [v|e''] eqn:Hv; simpl;
        [discriminate|].
      intros H. injection H as <-. exact (int_of_float_raises _ _ Hv).
    - intros H. injection H as <-.
      destruct (float_of_int_raises _ _ Hx) as [msg ->]. eauto. }
  split.
  - intros e [H|H].
    + revert H. unfold models.get_width.
      destruct (models.width s) as [w|]; [discriminate|].
      destruct (models.height s) as [h|] eqn:Hh; [|discriminate].
      destruct (models.aspect_ratio s) as [r|] eqn:Hr; [|discriminate].
      destruct (negb (h =? 0) && Py.truthy_num r); [|discriminate].
      rewrite (mul_int h r).
      destruct r as [y|y]; [discriminate|].
      intros H. apply (Hconv h (fun x => PrimFloat.mul x y)).
      destruct (Py.float_of_int h); exact H.
    + revert H. unfold models.get_height.
      destruct (models.height s) as [h|]; [discriminate|].
      destruct (models.width s) as [w|] eqn:Hw; [|discriminate].
      destruct (models.aspect_ratio s) as [r|] eqn:Hr; [|discriminate].
      destruct (negb (w =? 0)); cbn [andb]; [|discriminate].
      destruct (Py.truthy_num r) eqn:Ht; [|discriminate].
      rewrite (div_int_truthy w r Ht).
      destruct r as [y|y]; [discriminate|].
      intros H. apply (Hconv w (fun x => PrimFloat.div x y)).
      destruct (Py.float_of_int w); exact H.
  - intros Hint.
    unfold models.get_width, models.get_height.
    destruct (models.aspect_ratio s) as [[y|x]|] eqn:Hr.
    + destruct (models.width s) as [w|], (models.height s) as [h|];
        try (eexists _, _; split; reflexivity).
      * destruct (negb (w =? 0)); cbn [andb];
          [|eexists _, _; split; reflexivity].
        destruct (Py.truthy_num (Py.PyInt y)) eqn:Ht;
          [|eexists _, _; split; reflexivity].
        rewrite (div_int_truthy w _ Ht).
        eexists _, _; split; reflexivity.
      * destruct (negb (h =? 0) && Py.truthy_num (Py.PyInt y));
          eexists _, _; split; reflexivity.
    + exfalso. exact (Hint x eq_refl).
    + destruct (models.width s) as [w|], (models.height s) as [h|];
        eexists _, _; split; reflexivity.
Qed.

Lemma geometry_raises_only_witness :
  (exists msg, Py.ValueError "cannot convert float NaN to integer"
               = Py.ValueError msg
               \/ Py.ValueError "cannot convert float NaN to integer"
                  = Py.OverflowError msg)
  /\ exists w h, models.get_width inputs.thirds = Py.Ok w
                 /\ models.get_height inputs.thirds = Py.Ok h.
Proof.
  split.
  - apply (proj1 (geometry_raises_only inputs.undefined)).
    right. reflexivity.
  - apply (proj2 (geometry_raises_only inputs.thirds)).
    intros x. discriminate.
Defined.

(** ** models.py: [save] and the derived ratio *)

(** [save] is not total on floats: a dimension beyond the float range
    makes the conversion raise. *)
Lemma save_overflows :
  models.save inputs.huge
  = Py.Raise (Py.OverflowError "long int too large to convert to float").
Proof. vm_compute. reflexivity. Qed.

(** What [save] hands on has the width, the height and the slug it was
    given. *)
Lemma save_keeps (s s' : models.ImageSize) :
  models.save s = Py.Ok s' ->
  exists a, s' = models.set_aspect_ratio s a.
Proof.
  unfold models.save.
  destruct (negb (Py.truthy_int (models.height s)
                  && Py.truthy_int (models.width s))).
  - intros H. injection H as <-. eauto.
  - destruct (models.width s) as [w|]; [|discriminate].
    destruct (models.height s) as [h|]; [|discriminate].
    destruct (Py.float (Py.PyInt h)) as [fh|]; cbn [Py.bind]; [|discriminate].
    destruct (Py.div (Py.PyInt w) (Py.PyFloat fh)) as [q|]; cbn [Py.bind];
      [|discriminate].
    destruct (Py.round q) as [a|]; cbn [Py.bind]; [|discriminate].
    intros H. injection H as <-. eauto.
Qed.

(** X3.  [save] is idempotent: it recomputes the ratio from width and
    height alone, so whenever it returns (it raises when a dimension is
    beyond the float range), saving what was saved returns the same
    object. *)
Theorem save_idempotent (s s' : models.ImageSize) :
  models.save s = Py.Ok s' -> models.save s' = Py.Ok s'.
Proof.
  intros H. destruct (save_keeps s s' H) as [a ->].
  revert H. unfold models.save.
  change (models.height (models.set_aspect_ratio s a)) with (models.height s).
  change (models.width (models.set_aspect_ratio s a)) with (models.width s).
  destruct (negb (Py.truthy_int (models.height s)
                  && Py.truthy_int (models.width s))).
  - intros H. injection H as H.
    subst a.
    reflexivity.
  - destruct (models.width s) as [w|]; [|discriminate].
    destruct (models.height s) as [h|]; [|discriminate].
    destruct (Py.float (Py.PyInt h)) as [fh|]; cbn [Py.bind]; [|discriminate].
    destruct (Py.div (Py.PyInt w) (Py.PyFloat fh)) as [q|]; cbn [Py.bind];
      [|discriminate].
    destruct (Py.round q) as [a'|]; cbn [Py.bind]; [|discriminate].
    intros H. injection H as H.
    subst a.
    reflexivity.
Qed.

Lemma save_idempotent_witness :
  models.save (models.set_aspect_ratio inputs.boxed (Some (Py.PyFloat inputs.two)))
  = Py.Ok (models.set_aspect_ratio inputs.boxed (Some (Py.PyFloat inputs.two))).
Proof.
  apply (save_idempotent inputs.boxed). vm_compute. reflexivity.
Defined.

(** X4.  For a size with both dimensions non-zero, the ratio [save]
    stores, whenever it returns, is the ratio [get_aspect_ratio] derives
    when none is stored; a ratio given by hand is replaced by it. *)
Theorem save_stores_derived_ratio (s s' : models.ImageSize) (w h : Z) :
  models.width s = Some w -> models.height s = Some h ->
  w <> 0 -> h <> 0 ->
  models.save s = Py.Ok s' ->
  models.get_aspect_ratio (models.set_aspect_ratio s None)
  = Py.Ok (models.aspect_ratio s')
  /\ models.get_aspect_ratio s' = Py.Ok (models.aspect_ratio s').
Proof.
  intros Hw Hh Hwz Hhz.
  assert (Hw0 : (w =? 0) = false) by (apply Z.eqb_neq; exact Hwz).
  assert (Hh0 : (h =? 0) = false) by (apply Z.eqb_neq; exact Hhz).
  unfold models.save, models.get_aspect_ratio.
  cbn [models.aspect_ratio models.height models.width
       models.set_aspect_ratio].
  rewrite Hw, Hh. cbn [Py.truthy_int]. rewrite Hw0, Hh0. cbn [negb andb].
  destruct (Py.float (Py.PyInt h)) as [fh|]; cbn [Py.bind]; [|discriminate].
  destruct (Py.div (Py.PyInt w) (Py.PyFloat fh)) as [q|]; cbn [Py.bind];
    [|discriminate].
  destruct (Py.round q) as [a|]; cbn [Py.bind]; [|discriminate].
  intros H. injection H as <-. split; reflexivity.
Qed.

Lemma save_stores_derived_ratio_witness :
  models.get_aspect_ratio (models.set_aspect_ratio inputs.boxed None)
  = Py.Ok (Some (Py.PyFloat inputs.two))
  /\ models.get_aspect_ratio
       (models.set_aspect_ratio inputs.boxed (Some (Py.PyFloat inputs.two)))
     = Py.Ok (Some (Py.PyFloat inputs.two)).
Proof.
  apply (save_stores_derived_ratio inputs.boxed
           (models.set_aspect_ratio inputs.boxed (Some (Py.PyFloat inputs.two)))
           100 50); try reflexivity; lia.
Defined.

(** ** utils/image.py: more on [smart_resize] *)

(** What [smart_resize] returns is never larger than the target. *)
Lemma smart_resize_bounded (v : option (list Z)) (im : image.Image)
    (final_w final_h : Z) :
  (fst (image.size (image.smart_resize v im final_w final_h)) <=? final_w)
  && (snd (image.size (image.smart_resize v im final_w final_h)) <=? final_h)
  = true.
Proof.
  unfold image.smart_resize.
  destruct (image.size im) as [orig_w orig_h] eqn:Hsize.
  destruct ((orig_w <=? final_w) && (orig_h <=? final_h)) eqn:Hfit.
  - rewrite Hsize. exact Hfit.
  - destruct (image.has_good_bicubic v); simpl; rewrite !Z.leb_refl;
      reflexivity.
Qed.

(** X6.  The result of [smart_resize] always fits the target box: it is
    the untouched input when that fits, and an image of exactly
    [(final_w, final_h)] otherwise, also when only one side was too
    large (the other side is then enlarged to the target). *)
Theorem smart_resize_fits (v : option (list Z)) (im : image.Image)
    (final_w final_h : Z) :
  let out := image.smart_resize v im final_w final_h in
  (fst (image.size out) <= final_w /\ snd (image.size out) <= final_h)
  /\ (~ (fst (image.size im) <= final_w /\ snd (image.size im) <= final_h) ->
      image.size out = (final_w, final_h)).
Proof.
  unfold image.smart_resize.
  destruct (image.size im) as [orig_w orig_h] eqn:Hsize. simpl.
  destruct ((orig_w <=? final_w) && (orig_h <=? final_h)) eqn:Hfit.
  - apply andb_true_iff in Hfit as [Hw Hh].
    apply Z.leb_le in Hw. apply Z.leb_le in Hh.
    rewrite Hsize. simpl. split; [lia|]. intros H. lia.
  - destruct (image.has_good_bicubic v); simpl; (split; [lia | reflexivity]).
Qed.

(** X7.  [smart_resize] is idempotent: resizing its own result to the
    same target returns that result. *)
Theorem smart_resize_idempotent (v : option (list Z)) (im : image.Image)
    (final_w final_h : Z) :
  image.smart_resize v (image.smart_resize v im final_w final_h)
    final_w final_h
  = image.smart_resize v im final_w final_h.
Proof.
  pose proof (smart_resize_bounded v im final_w final_h) as Hfit.
  set (out := image.smart_resize v im final_w final_h) in *.
  unfold image.smart_resize at 1.
  destruct (image.size out) as [w h]. simpl in Hfit.
  rewrite Hfit. reflexivity.
Qed.

(** The test of the loop, in integers: [orig * i/8 >= final * 1.5]. *)
Lemma eighths_test (final orig : Z) (i : positive) :
  Qle_bool (inject_Z final * (3 # 2)) (inject_Z orig * (Zpos i # 8))
  = (12 * final <=? Zpos i * orig).
Proof.
  apply Bool.eq_true_iff_eq. unfold Qle_bool. simpl.
  rewrite !Z.leb_le. lia.
Qed.

Lemma Qtrunc_eighths (orig : Z) (i : positive) :
  Py.Qtrunc (inject_Z orig * (Zpos i # 8)) = Z.quot (orig * Zpos i) 8.
Proof. reflexivity. Qed.

(** The loop returns on the first ratio that passes the test. *)
Lemma eighths_pick (steps : list positive) (im : image.Image)
    (final_w final_h : Z) :
  image.eighths steps im (fst (image.size im)) (snd (image.size im))
    (inject_Z final_w * (3 # 2)) (inject_Z final_h * (3 # 2))
  = match
      find (fun i => (12 * final_w <=? Zpos i * fst (image.size im))
                     && (12 * final_h <=? Zpos i * snd (image.size im)))
           steps
    with
    | None => im
    | Some i =>
        image.resize im (Z.quot (fst (image.size im) * Zpos i) 8,
                         Z.quot (fst (image.size im) * Zpos i) 8)
          image.NEAREST
    end.
Proof.
  induction steps as [|i later IH]; simpl; [reflexivity|].
  rewrite !eighths_test.
  destruct ((12 * final_w <=? Zpos i * fst (image.size im))
            && (12 * final_h <=? Zpos i * snd (image.size im))).
  - destruct ((fst (image.size im) mod 8 =? 0)
              || (snd (image.size im) mod 8 =? 0)).
    + destruct (image.size im). reflexivity.
    + reflexivity.
  - exact IH.
Qed.

(** X8.  Without a good bicubic filter, on an image that does not fit the
    target: when 7/8 of the source does not reach 1.5 times the target
    on both axes, the source is resized in one antialiased pass;
    otherwise the coarse pass uses the least ratio i/8 that reaches 1.5
    times the target on both axes, and its width is never below the
    target width. *)
Theorem smart_resize_steps (v : option (list Z)) (im : image.Image)
    (final_w final_h : Z) :
  let orig_w := fst (image.size im) in
  let orig_h := snd (image.size im) in
  image.has_good_bicubic v = false ->
  0 <= orig_w -> 0 <= orig_h ->
  ~ (orig_w <= final_w /\ orig_h <= final_h) ->
  (~ (12 * final_w <= 7 * orig_w /\ 12 * final_h <= 7 * orig_h) ->
   image.smart_resize v im final_w final_h
   = image.resize im (final_w, final_h) image.ANTIALIAS)
  /\ (12 * final_w <= 7 * orig_w /\ 12 * final_h <= 7 * orig_h ->
      exists i, 1 <= i <= 7
        /\ 12 * final_w <= i * orig_w /\ 12 * final_h <= i * orig_h
        /\ (forall j, 1 <= j < i ->
              ~ (12 * final_w <= j * orig_w /\ 12 * final_h <= j * orig_h))
        /\ image.smart_resize v im final_w final_h
           = image.resize
               (image.resize im (Z.quot (orig_w * i) 8, Z.quot (orig_w * i) 8)
                  image.NEAREST)
               (final_w, final_h) image.ANTIALIAS
        /\ (0 <= final_w -> final_w <= Z.quot (orig_w * i) 8)).
Proof.
  intros orig_w orig_h Hv Hw0 Hh0 Hbig.
  assert (Hfit : (orig_w <=? final_w) && (orig_h <=? final_h) = false).
  { apply andb_false_iff.
    destruct (Z.leb_spec orig_w final_w); [|left; reflexivity].
    destruct (Z.leb_spec orig_h final_h); [|right; reflexivity].
    exfalso. apply Hbig. split; assumption. }
  assert (Hout : image.smart_resize v im final_w final_h
                 = image.resize
                     (image.eighths image.xrange_1_8 im orig_w orig_h
                        (inject_Z final_w * (3 # 2)) (inject_Z final_h * (3 # 2)))
                     (final_w, final_h) image.ANTIALIAS).
  { unfold image.smart_resize, orig_w, orig_h in *.
    destruct (image.size im) as [ow oh]. simpl in *.
    rewrite Hfit, Hv. reflexivity. }
  rewrite Hout. unfold orig_w, orig_h. rewrite eighths_pick.
  fold orig_w orig_h. clear Hout Hfit.
  assert (Hside : forall i : Z, 0 <= final_w -> 12 * final_w <= i * orig_w ->
            final_w <= Z.quot (orig_w * i) 8).
  { intros i Hf Hi. rewrite Z.quot_div_nonneg by lia.
    apply Z.div_le_lower_bound; lia. }
  unfold image.xrange_1_8. cbn [find].
  repeat match goal with
         | |- context [if (?a && ?c) then _ else _] =>
             let T := fresh "T" in destruct (a && c) eqn:T; cbn iota
         end;
    repeat match goal with
           | T : _ && _ = true |- _ => apply andb_true_iff in T as [? ?]
           | T : _ && _ = false |- _ => apply andb_false_iff in T
           end;
    rewrite ?Z.leb_le, ?Z.leb_gt in *;
    (split; [intros Hno; try (exfalso; lia); reflexivity|]);
    intros [Hyes1 Hyes2]; try (exfalso; lia);
    match goal with
    | |- context [Z.quot (orig_w * Z.pos ?p) 8] =>
        exists (Z.pos p);
        split; [lia|]; split; [lia|]; split; [lia|];
        split; [|split; [reflexivity | intros Hf; apply Hside; lia]];
        intros j Hj;
        assert (j = 1 \/ j = 2 \/ j = 3 \/ j = 4 \/ j = 5 \/ j = 6) as Hc by lia;
        destruct Hc as [->|[->|[->|[->|[->| ->]]]]]; lia
    end.
Qed.

Lemma smart_resize_steps_witness :
  image.smart_resize None pictures.photo 100 75
  = image.resize
      (image.resize pictures.photo (Z.quot (1001 * 2) 8, Z.quot (1001 * 2) 8)
         image.NEAREST)
      (100, 75) image.ANTIALIAS.
Proof.
  destruct (proj2 (smart_resize_steps None pictures.photo 100 75
                     eq_refl ltac:(simpl; lia) ltac:(simpl; lia)
                     ltac:(simpl; lia)) ltac:(simpl; lia))
    as (i & Hi & Hw & Hh & Hleast & Hout & _).
  reflexivity.
Defined.

Lemma smart_resize_fits_witness :
  image.size (image.smart_resize None pictures.photo 100 75) = (100, 75).
Proof.
  apply (proj2 (smart_resize_fits None pictures.photo 100 75)).
  simpl. lia.
Defined.

(** ** utils/image.py: more on [process_image] *)

Section process_image_facts.
Variable cfg : image.settings.
Variable GifsicleImage : image.Image -> image.Image.
Variable read_gif : string -> image.Image * list image.Image.
Variable path_exists : string -> bool.
Variable temp_name : string.
Variable callback : image.Image -> image.Image.

(** X9.  An animated source on an installation with neither gifsicle nor
    numpy and scipy is made static: with a destination given, the call
    warns once, saves the one processed frame with the caller's
    parameters untouched, never calls [write_gif], and returns the image
    opened from the destination. *)
Theorem process_image_degrades (im : image.Image) (path : string) (nq : Z)
    (save_params : option image.params) :
  image.is_animated_gif im = true ->
  image.has_animated_gif_support cfg = false ->
  path <> "" ->
  image.process_image cfg GifsicleImage read_gif path_exists temp_name
    im (Some path) callback nq save_params
  = ([image.Warn "This server does not have animated gif support; your uploaded image has been made static.";
      image.SaveImage path (callback im) (default image.no_params save_params);
      image.OpenImage path],
     Py.Ok (image.Opened path)).
Proof.
  intros Ha Hs Hp.
  assert (Hpath : String.eqb path "" = false) by (apply String.eqb_neq; exact Hp).
  unfold image.process_image, image.load_frames. rewrite Ha, Hs. simpl.
  rewrite Hpath. simpl.
  unfold image.is_animated_gif in Ha. apply andb_true_iff in Ha as [Hf _].
  unfold image.format_is.
  destruct (image.format im) as [f|]; [|destruct save_params; reflexivity].
  destruct (String.eqb f "JPEG") eqn:Hj.
  { apply String.eqb_eq in Hj. subst f. discriminate. }
  destruct (String.eqb f "PNG") eqn:Hg.
  { apply String.eqb_eq in Hg. subst f. discriminate. }
  destruct save_params; reflexivity.
Qed.

(** X10.  With gifsicle configured an animated source is wrapped once and
    processed as one frame: nothing is warned, nothing is written to a
    temporary file, [write_gif] is not called, and the processed wrapper
    is saved to the destination. *)
Theorem process_image_gifsicle (im : image.Image) (path : string) (nq : Z)
    (save_params : option image.params) :
  image.is_animated_gif im = true ->
  Py.truthy_str (image.CROPDUSTER_GIFSICLE_PATH cfg) = true ->
  path <> "" ->
  image.process_image cfg GifsicleImage read_gif path_exists temp_name
    im (Some path) callback nq save_params
  = ([image.SaveImage path (callback (GifsicleImage im))
        (default image.no_params save_params);
      image.OpenImage path],
     Py.Ok (image.Opened path)).
Proof.
  intros Ha Hs Hp.
  assert (Hpath : String.eqb path "" = false) by (apply String.eqb_neq; exact Hp).
  unfold image.process_image, image.load_frames, image.has_animated_gif_support.
  rewrite Ha, Hs. simpl. rewrite Hpath. simpl.
  unfold image.is_animated_gif in Ha. apply andb_true_iff in Ha as [Hf _].
  unfold image.format_is.
  destruct (image.format im) as [f|]; [|destruct save_params; reflexivity].
  destruct (String.eqb f "JPEG") eqn:Hj.
  { apply String.eqb_eq in Hj. subst f. discriminate. }
  destruct (String.eqb f "PNG") eqn:Hg.
  { apply String.eqb_eq in Hg. subst f. discriminate. }
  destruct save_params; reflexivity.
Qed.

(** The test [len(images) > 1] on a list of two frames or more. *)
Ltac several_frames :=
  match goal with
  | |- context [1 <? ?x] =>
      replace (1 <? x) with true
        by (symmetry; apply Z.ltb_lt; simpl length; lia)
  end.

(** X11.  On the numpy path (no gifsicle, numpy and scipy present) an
    animated source decoded into more than one frame is written by
    [write_gif]: every decoded frame, passed through the callback, in
    order; the frame duration in seconds (100 ms when the source gives
    none or 0); repeating forever unless the source gives a loop count
    other than 0.  The source is read from its own file when it has a
    file name and that file exists; otherwise, and only then, it is
    first saved to the temporary file and read from there.  Nothing
    else is warned, saved or written. *)
Theorem process_image_numpy (im : image.Image) (path : string) (nq : Z)
    (save_params : option image.params) :
  image.is_animated_gif im = true ->
  Py.truthy_str (image.CROPDUSTER_GIFSICLE_PATH cfg) = false ->
  image.numpy cfg && image.scipy cfg = true ->
  path <> "" ->
  (forall f, snd (read_gif f) <> []) ->
  let on_disk :=
    match image.filename im with
    | Some f => negb (String.eqb f "") && path_exists f
    | None => false
    end in
  let f := if on_disk then default temp_name (image.filename im)
           else temp_name in
  image.process_image cfg GifsicleImage read_gif path_exists temp_name
    im (Some path) callback nq save_params
  = (([image.Warn "Using numpy algorithm to resize animated gif; better results would be achieved with gifsicle"]
      ++ (if on_disk then [] else [image.SaveTemp temp_name im])
      ++ [image.ReadFile f;
          image.WriteGif path
            (map callback (fst (read_gif f) :: snd (read_gif f)))
            (inject_Z (match image.duration (image.info im) with
                       | Some d => if d =? 0 then 100 else d
                       | None => 100
                       end) / 1000)%Q
            (match image.loop (image.info im) with
             | Some l => if l =? 0 then image.Forever else image.Times l
             | None => image.Forever
             end)
            nq;
          image.OpenImage path])%list,
     Py.Ok (image.Opened path)).
Proof.
  intros Ha Hg Hn Hp Hmany on_disk f. unfold f, on_disk. clear f on_disk.
  assert (Hpath : String.eqb path "" = false) by (apply String.eqb_neq; exact Hp).
  unfold image.process_image, image.load_frames, image.has_animated_gif_support.
  rewrite Ha, Hg, Hn. simpl.
  destruct (image.filename im) as [f0|] eqn:Hfile.
  - destruct (negb (String.eqb f0 "") && path_exists f0) eqn:Hdisk.
    + pose proof (Hmany f0) as Hm.
      destruct (read_gif f0) as [first [|second rest]] eqn:Hrg; [contradiction|].
      rewrite Hpath. several_frames. simpl.
      rewrite ?Hrg. reflexivity.
    + pose proof (Hmany temp_name) as Hm.
      destruct (read_gif temp_name) as [first [|second rest]] eqn:Hrg;
        [contradiction|].
      rewrite Hpath. several_frames. simpl.
      rewrite ?Hrg. reflexivity.
  - pose proof (Hmany temp_name) as Hm.
    destruct (read_gif temp_name) as [first [|second rest]] eqn:Hrg;
      [contradiction|].
    rewrite Hpath. several_frames. simpl.
    rewrite ?Hrg. reflexivity.
Qed.

(** Going through the events of a call, one by one. *)
Ltac each_event H :=
  simpl in H; rewrite ?in_app_iff in H; simpl in H;
  repeat match type of H with
         | _ \/ _ => destruct H as [H|H]
         end;
  try discriminate; try contradiction.

(** X12.  [write_gif] is called on the numpy path only, and only for a
    source that is animated and was decoded into more than one frame. *)
Theorem write_gif_only_numpy (im : image.Image) (save_filename : option string)
    (nq : Z) (save_params : option image.params)
    (path : string) (frames : list image.Image) (seconds : Q)
    (rep : image.repeat) (n : Z) :
  In (image.WriteGif path frames seconds rep n)
     (fst (image.process_image cfg GifsicleImage read_gif path_exists
             temp_name im save_filename callback nq save_params)) ->
  image.is_animated_gif im = true
  /\ Py.truthy_str (image.CROPDUSTER_GIFSICLE_PATH cfg) = false
  /\ image.numpy cfg && image.scipy cfg = true
  /\ save_filename = Some path
  /\ (1 < length frames)%nat.
Proof.
  unfold image.process_image, image.load_frames, image.has_animated_gif_support.
  destruct (image.is_animated_gif im) eqn:Ha; simpl.
  - destruct (Py.truthy_str (image.CROPDUSTER_GIFSICLE_PATH cfg)) eqn:Hg; simpl.
    + destruct save_filename as [p|]; simpl; [|intros []].
      destruct (String.eqb p ""); simpl; [intros []|].
      intros H. each_event H.
    + destruct (image.numpy cfg && image.scipy cfg) eqn:Hn; simpl.
      * destruct (image.filename im) as [f|];
          [destruct (negb (String.eqb f "") && path_exists f)|];
          simpl;
          destruct (read_gif _) as [first rest];
          (destruct save_filename as [p|]; simpl;
           [|intros H; each_event H]);
          (destruct (String.eqb p ""); simpl; [intros H; each_event H|]);
          (destruct rest as [|second rest];
           [simpl; intros H; each_event H|]);
          several_frames; intros H; each_event H;
          injection H as <- <- _ _ _;
          (repeat split; simpl; lia).
      * destruct save_filename as [p|]; simpl; [|intros H; each_event H].
        destruct (String.eqb p ""); simpl; intros H; each_event H.
  - destruct save_filename as [p|]; simpl; [|intros []].
    destruct (String.eqb p ""); simpl; [intros []|].
    intros H. each_event H.
Qed.

(** X13.  Saving a single frame of a JPEG source: a quality given by the
    caller is kept, otherwise the quality is [get_jpeg_quality] of the
    size of the processed frame (not of the source); an [icc_profile]
    given by the caller is kept, otherwise the profile of the source is
    passed on when the installation supports it. *)
Theorem process_image_jpeg_params (im : image.Image) (path : string) (nq : Z)
    (save_params : option image.params) :
  image.is_animated_gif im = false ->
  image.format im = Some "JPEG" ->
  path <> "" ->
  exists p,
    image.process_image cfg GifsicleImage read_gif path_exists temp_name
      im (Some path) callback nq save_params
    = ([image.SaveImage path (callback im) p; image.OpenImage path],
       Py.Ok (image.Opened path))
    /\ image.quality p
       = Some (match image.quality (default image.no_params save_params) with
               | Some q => q
               | None =>
                   image.get_jpeg_quality cfg
                     (fst (image.size (callback im)))
                     (snd (image.size (callback im)))
               end)
    /\ image.icc p
       = match image.icc (default image.no_params save_params) with
         | Some given => Some given
         | None =>
             if image.JPEG_SAVE_ICC_SUPPORTED cfg
             then Some (image.icc_profile (image.info im))
             else None
         end.
Proof.
  intros Ha Hf Hp.
  assert (Hpath : String.eqb path "" = false) by (apply String.eqb_neq; exact Hp).
  unfold image.process_image. rewrite Ha. simpl. rewrite Hpath. simpl.
  unfold image.format_is. rewrite Hf. simpl.
  eexists. split; [reflexivity|].
  unfold image.setdefault_icc, image.setdefault_quality.
  destruct save_params as [[[q|] [i|]]|]; simpl;
    destruct (image.JPEG_SAVE_ICC_SUPPORTED cfg); simpl; split; reflexivity.
Qed.

End process_image_facts.

Lemma process_image_degrades_witness :
  image.process_image pictures.bare (fun i => i) pictures.one_frame
    pictures.nowhere "/tmp/tmpq1.gif" pictures.spinner
    (Some "/media/spinner/thumb.gif") (fun i => i) 0 None
  = ([image.Warn "This server does not have animated gif support; your uploaded image has been made static.";
      image.SaveImage "/media/spinner/thumb.gif" pictures.spinner image.no_params;
      image.OpenImage "/media/spinner/thumb.gif"],
     Py.Ok (image.Opened "/media/spinner/thumb.gif")).
Proof.
  apply (process_image_degrades pictures.bare (fun i => i) pictures.one_frame
           pictures.nowhere "/tmp/tmpq1.gif" (fun i => i) pictures.spinner
           "/media/spinner/thumb.gif" 0 None);
    [reflexivity | reflexivity | discriminate].
Defined.

Lemma process_image_gifsicle_witness :
  image.process_image more_pictures.with_gifsicle (fun i => i) pictures.one_frame
    pictures.nowhere "/tmp/tmpq1.gif" pictures.spinner
    (Some "/media/spinner/thumb.gif") (fun i => i) 0 None
  = ([image.SaveImage "/media/spinner/thumb.gif" pictures.spinner image.no_params;
      image.OpenImage "/media/spinner/thumb.gif"],
     Py.Ok (image.Opened "/media/spinner/thumb.gif")).
Proof.
  apply (process_image_gifsicle more_pictures.with_gifsicle (fun i => i)
           pictures.one_frame pictures.nowhere "/tmp/tmpq1.gif" (fun i => i)
           pictures.spinner "/media/spinner/thumb.gif" 0 None);
    [reflexivity | reflexivity | discriminate].
Defined.

Lemma process_image_numpy_witness :
  image.process_image more_pictures.with_numpy (fun i => i) more_pictures.two_frames
    pictures.nowhere "/tmp/tmpq1.gif" pictures.spinner
    (Some "/media/spinner/thumb.gif") (fun i => i) 0 None
  = ([image.Warn "Using numpy algorithm to resize animated gif; better results would be achieved with gifsicle";
      image.SaveTemp "/tmp/tmpq1.gif" pictures.spinner;
      image.ReadFile "/tmp/tmpq1.gif";
      image.WriteGif "/media/spinner/thumb.gif"
        [pictures.spinner; pictures.small] (inject_Z 40 / 1000)%Q
        image.Forever 0;
      image.OpenImage "/media/spinner/thumb.gif"],
     Py.Ok (image.Opened "/media/spinner/thumb.gif"))
  /\ image.process_image more_pictures.with_numpy (fun i => i)
       more_pictures.two_frames more_pictures.everywhere "/tmp/tmpq1.gif"
       pictures.spinner (Some "/media/spinner/thumb.gif") (fun i => i) 0 None
     = ([image.Warn "Using numpy algorithm to resize animated gif; better results would be achieved with gifsicle";
         image.ReadFile "/media/spinner.gif";
         image.WriteGif "/media/spinner/thumb.gif"
           [pictures.spinner; pictures.small] (inject_Z 40 / 1000)%Q
           image.Forever 0;
         image.OpenImage "/media/spinner/thumb.gif"],
        Py.Ok (image.Opened "/media/spinner/thumb.gif")).
Proof.
  split.
  - apply (process_image_numpy more_pictures.with_numpy (fun i => i)
             more_pictures.two_frames pictures.nowhere "/tmp/tmpq1.gif"
             (fun i => i) pictures.spinner "/media/spinner/thumb.gif" 0 None);
      [reflexivity | reflexivity | reflexivity | discriminate
      | intros f; discriminate].
  - apply (process_image_numpy more_pictures.with_numpy (fun i => i)
             more_pictures.two_frames more_pictures.everywhere "/tmp/tmpq1.gif"
             (fun i => i) pictures.spinner "/media/spinner/thumb.gif" 0 None);
      [reflexivity | reflexivity | reflexivity | discriminate
      | intros f; discriminate].
Defined.

Lemma write_gif_only_numpy_witness :
  image.is_animated_gif pictures.spinner = true
  /\ Py.truthy_str (image.CROPDUSTER_GIFSICLE_PATH more_pictures.with_numpy) = false
  /\ image.numpy more_pictures.with_numpy && image.scipy more_pictures.with_numpy = true
  /\ Some "/media/spinner/thumb.gif" = Some "/media/spinner/thumb.gif"
  /\ (1 < length [pictures.spinner; pictures.small])%nat.
Proof.
  apply (write_gif_only_numpy more_pictures.with_numpy (fun i => i)
           more_pictures.two_frames pictures.nowhere "/tmp/tmpq1.gif" (fun i => i)
           pictures.spinner (Some "/media/spinner/thumb.gif") 0 None
           "/media/spinner/thumb.gif" [pictures.spinner; pictures.small]
           (inject_Z 40 / 1000)%Q image.Forever 0).
  simpl. right. right. right. left. reflexivity.
Defined.

Lemma process_image_jpeg_params_witness :
  exists p,
    image.process_image pictures.bare (fun i => i) pictures.one_frame
      pictures.nowhere "/tmp/tmpq1.gif" pictures.photo
      (Some "/media/photo/thumb.jpg") (fun i => i) 0 None
    = ([image.SaveImage "/media/photo/thumb.jpg" pictures.photo p;
        image.OpenImage "/media/photo/thumb.jpg"],
       Py.Ok (image.Opened "/media/photo/thumb.jpg"))
    /\ image.quality p = Some 95.
Proof.
  destruct (process_image_jpeg_params pictures.bare (fun i => i)
              pictures.one_frame pictures.nowhere "/tmp/tmpq1.gif"
              (fun i => i) pictures.photo "/media/photo/thumb.jpg" 0 None)
    as (p & H & Hq & _); [reflexivity | reflexivity | discriminate |].
  exists p. split; [exact H | exact Hq].
Defined.

(** ** regenerate_thumbs.py: more on [resize_image] *)

Section resize_image_more.
Variable rescale :
  image.Image -> option Z -> option Z -> bool -> Py.result image.Image.
Variable encode :
  image.Image -> option string -> list (string * Z) -> regenerate_thumbs.encoded.
Variable image : image.Image.

Import regenerate_thumbs.

Lemma handler_keeps_fs (st : state) : fs (fst (handler st)) = fs st.
Proof.
  destruct (handler st) as [st' o] eqn:H.
  apply (handler_spec _ _ _ "" "") in H as [H _]. exact H.
Qed.

Lemma file_at_write (t t' : os.tree) (q data p : string) :
  os.write t q data = Py.Ok t' -> p <> q ->
  os.file_at t' p = os.file_at t p.
Proof.
  unfold os.write. intros H Hne.
  assert (Ht : t' = <[q := os.File data]> t)
    by (destruct (t !! q) as [[c|]|]; congruence).
  subst t'. rewrite file_at_insert_file.
  destruct (decide (q = p)); [congruence | reflexivity].
Qed.

Lemma file_at_rename (t t' : os.tree) (src dst p : string) :
  os.rename t src dst = Py.Ok t' -> p <> src -> p <> dst ->
  os.file_at t' p = os.file_at t p.
Proof.
  unfold os.rename. intros H Hs Hd.
  destruct (t !! src) as [[c|]|]; try discriminate.
  assert (Ht : t' = <[dst := os.File c]> (delete src t))
    by (destruct (t !! dst) as [[c'|]|]; congruence).
  subst t'. unfold os.file_at.
  rewrite lookup_insert_ne by congruence.
  rewrite lookup_delete_ne by congruence. reflexivity.
Qed.

Lemma regenerate_frame (st : state) (size : Size) (p : string) :
  p <> path size -> p <> (path size ++ ".tmp")%string ->
  os.file_at (fs (fst (regenerate rescale encode image st size))) p
  = os.file_at (fs st) p.
Proof.
  intros Hp Ht. unfold regenerate.
  destruct (rescale image (width size) (height size) (crop size)) as [th|e];
    [|destruct (Py.is_Exception e); [rewrite handler_keeps_fs|]; reflexivity].
  destruct (encode th (image.format image) (IMG_TYPE_PARAMS (image.format image)))
    as [data|[data|]]; simpl.
  - destruct (os.write (fs st) (path size ++ ".tmp") data) as [t|e] eqn:Hw.
    + simpl. destruct (os.rename t (path size ++ ".tmp") (path size))
        as [t'|e] eqn:Hr; simpl.
      * rewrite (file_at_rename _ _ _ _ _ Hr Ht Hp).
        exact (file_at_write _ _ _ _ _ Hw Ht).
      * exact (file_at_write _ _ _ _ _ Hw Ht).
    + rewrite handler_keeps_fs. reflexivity.
  - destruct (os.write (fs st) (path size ++ ".tmp") data) as [t|e] eqn:Hw.
    + rewrite handler_keeps_fs. simpl.
      exact (file_at_write _ _ _ _ _ Hw Ht).
    + rewrite handler_keeps_fs. reflexivity.
  - rewrite handler_keeps_fs. reflexivity.
Qed.

(** X14.  One turn of the loop changes no regular file other than the
    destination of its size and the temporary path next to it: every
    other file is there with the same content afterwards, whatever the
    outcome of the turn. *)
Theorem resize_step_frame (force : bool) (st : state) (size : Size) (p : string) :
  p <> path size -> p <> (path size ++ ".tmp")%string ->
  os.file_at (fs (fst (resize_step rescale encode image force st size))) p
  = os.file_at (fs st) p.
Proof.
  intros Hp Ht. unfold resize_step.
  destruct (exists_nonempty force _ size) as [[|]|e]; simpl; try reflexivity.
  destruct (negb (os.isdir _ _)).
  - destruct (os.makedirs _ _) as [t|e] eqn:Hmk; [|reflexivity].
    rewrite regenerate_frame by assumption. simpl.
    exact (makedirs_keeps_files _ _ _ _ Hmk).
  - rewrite regenerate_frame by assumption. reflexivity.
Qed.

(** X15.  Without [force], a run over sizes whose destinations all hold a
    non-empty file skips every size: the file system is left as it was,
    the operator is asked nothing, and no exception leaves the loop. *)
Theorem run_skips_generated (sizes : list Size) (st : state) :
  Forall (audit.generated (fs st)) sizes ->
  exists st', run rescale encode image false st sizes
              = (st', List.map (fun _ => Skipped) sizes)
    /\ fs st' = fs st /\ stdin st' = stdin st /\ tmp_path st' = tmp_path st.
Proof.
  revert st. induction sizes as [|size later IH]; intros st Hall.
  - exists st. repeat split.
  - inversion Hall as [|? ? (c & Hc & Hne) Hlater]; subst.
    assert (Hskip : resize_step rescale encode image false st size
                    = (note (Skipping (name size))
                         (note (Converting (name size)) st), Skipped)).
    { unfold resize_step, exists_nonempty, os.isfile, os.st_size. simpl.
      rewrite Hc. simpl.
      destruct c as [|a c]; [contradiction|]. reflexivity. }
    simpl. rewrite Hskip.
    destruct (IH (note (Skipping (name size)) (note (Converting (name size)) st)))
      as (st' & Hrun & Hfs & Hin & Htmp); [exact Hlater|].
    rewrite Hrun. exists st'. repeat split; assumption.
Qed.

(** X16.  A thumbnail that was regenerated with a non-empty encoding is
    skipped by the next turn for the same size that runs without
    [force], whatever that turn would have rescaled. *)
Theorem regenerated_then_skipped (force : bool) (st st' : state) (size : Size)
    (rescale' : image.Image -> option Z -> option Z -> bool
                -> Py.result image.Image)
    (encode' : image.Image -> option string -> list (string * Z) -> encoded)
    (image' : image.Image) :
  resize_step rescale encode image force st size = (st', Regenerated) ->
  (forall thumbnail,
     encode thumbnail (image.format image) (IMG_TYPE_PARAMS (image.format image))
     <> Complete "") ->
  snd (resize_step rescale' encode' image' false st' size) = Skipped.
Proof.
  intros Hstep Hfull.
  destruct (resize_step_spec _ _ _ _ _ _ _ _ Hstep) as (new & _ & _ & Hcase).
  destruct Hcase as [(_ & _ & _ & th & data & _ & Henc & Hfile & _)
                    |[(Ho & _)|(Ho & _)]]; try congruence.
  assert (Hdata : data <> "") by (intros ->; exact (Hfull th Henc)).
  unfold os.file_at in Hfile.
  destruct (fs st' !! path size) as [[c|]|] eqn:Hc; try discriminate.
  injection Hfile as ->.
  unfold resize_step, exists_nonempty, os.isfile, os.st_size. simpl.
  rewrite Hc. simpl.
  destruct data as [|a data]; [contradiction|]. reflexivity.
Qed.

(** X17.  When the rescale of the first size treated raises an
    exception that [except Exception] catches, the [except] clause reads
    [tmp_path] before it was ever assigned: the run ends there with an
    [UnboundLocalError], the operator is not asked and no later size is
    treated.  No regular file is changed; the directory of the
    destination has been created when it was missing. *)
Theorem first_rescale_failure_aborts (force : bool) (size : Size)
    (later : list Size) (t t' : os.tree) (operator : list string)
    (e : Py.exn) :
  let folder := fst (os_path.split (path size)) in
  exists_nonempty force
    {| fs := t; tmp_path := None; stdin := operator; trace := [] |} size
  = Py.Ok false ->
  (if os.isdir t folder then Py.Ok t else os.makedirs t folder) = Py.Ok t' ->
  rescale image (width size) (height size) (crop size) = Py.Raise e ->
  Py.is_Exception e = true ->
  resize_image rescale encode image force (size :: later) t operator
  = ({| fs := t'; tmp_path := None; stdin := operator;
        trace := Converting (name size)
                 :: (if os.isdir t folder then [] else [Creating folder]) |},
     [Aborted (Py.UnboundLocalError "tmp_path")])
  /\ forall p, os.file_at t' p = os.file_at t p.
Proof.
  intros folder Hskip Hdir Hres Hexc. split.
  - unfold resize_image. simpl. unfold resize_step.
    change (exists_nonempty force (note (Converting (name size)) _) size)
      with (exists_nonempty force
              {| fs := t; tmp_path := None; stdin := operator; trace := [] |}
              size).
    rewrite Hskip. cbn [fs note]. fold folder.
    destruct (os.isdir t folder); cbn [negb].
    + injection Hdir as <-.
      unfold regenerate. rewrite Hres, Hexc. reflexivity.
    + rewrite Hdir.
      unfold regenerate. rewrite Hres, Hexc. reflexivity.
  - intros p. destruct (os.isdir t folder).
    + injection Hdir as <-. reflexivity.
    + exact (makedirs_keeps_files _ _ _ p Hdir).
Qed.

(** X18.  When the encoder fails in a turn, the operator is asked once:
    the answer whose lower-cased, stripped form is [n] ends the run with
    [SystemExit]; any other answer lets the loop go on; with no answer
    left the run ends with [EOFError]. *)
Theorem encoder_failure_asks (force : bool) (st : state) (size : Size)
    (thumbnail : image.Image) (partial : option string) :
  exists_nonempty force st size = Py.Ok false ->
  os.isdir (fs st) (fst (os_path.split (path size))) = true ->
  rescale image (width size) (height size) (crop size) = Py.Ok thumbnail ->
  encode thumbnail (image.format image) (IMG_TYPE_PARAMS (image.format image))
  = Broken partial ->
  let step := resize_step rescale encode image force st size in
  match stdin st with
  | [] => snd step = Aborted Py.EOFError
  | resp :: rest =>
      stdin (fst step) = rest
      /\ snd step = if String.eqb (lower_strip resp) "n"
                    then Aborted (Py.SystemExit "Exiting...")
                    else Failed
  end.
Proof.
  intros Hskip Hdir Hres Henc. unfold resize_step.
  change (exists_nonempty force (note (Converting (name size)) st) size)
    with (exists_nonempty force st size).
  rewrite Hskip. cbn [fs note]. rewrite Hdir. cbn [negb].
  unfold regenerate. rewrite Hres, Henc. simpl.
  destruct partial as [data|]; simpl.
  - destruct (os.write (fs st) (path size ++ ".tmp") data); simpl;
      unfold handler; simpl;
      destruct (stdin st) as [|resp rest]; simpl; try reflexivity;
      destruct (String.eqb (lower_strip resp) "n"); simpl; split; reflexivity.
  - unfold handler; simpl.
    destruct (stdin st) as [|resp rest]; simpl; try reflexivity.
    destruct (String.eqb (lower_strip resp) "n"); simpl; split; reflexivity.
Qed.

(** X20.  A whole run writes only to the temporary paths of its sizes and
    renames only from the temporary path of a size to its destination. *)
Theorem run_confined (force : bool) (sizes : list Size) (st : state) :
  exists new,
    trace (fst (run rescale encode image force st sizes))
    = (trace st ++ new)%list
    /\ Forall (audit.within sizes) new.
Proof.
  revert st. induction sizes as [|size later IH]; intros st; simpl.
  - exists []. rewrite app_nil_r. split; [reflexivity | constructor].
  - destruct (resize_step rescale encode image force st size)
      as [st1 o1] eqn:Hstep.
    destruct (resize_step_spec _ _ _ _ _ _ _ _ Hstep) as (new1 & Htr1 & Hconf & _).
    assert (Hnew1 : Forall (audit.within (size :: later)) new1).
    { eapply Forall_impl; [exact Hconf|].
      intros [] H; simpl in *; try exact I.
      - exists size. split; [left; reflexivity | exact H].
      - exists size. destruct H. repeat split; auto. }
    destruct (IH st1) as (new2 & Htr2 & Hconf2).
    destruct (run rescale encode image force st1 later) as [st2 os2].
    simpl in Htr2.
    assert (Hnew2 : Forall (audit.within (size :: later)) new2).
    { eapply Forall_impl; [exact Hconf2|].
      intros [] H; simpl in *; try exact I.
      - destruct H as (s & Hs & H). exists s. split; [right; exact Hs | exact H].
      - destruct H as (s & Hs & H). exists s. split; [right; exact Hs | exact H]. }
    destruct o1; simpl;
      try (exists (new1 ++ new2)%list;
           split; [rewrite Htr2, Htr1, <- app_assoc; reflexivity
                  | apply Forall_app; split; assumption]).
    exists new1. split; assumption.
Qed.

End resize_image_more.

Lemma resize_step_frame_witness :
  os.file_at
    (regenerate_thumbs.fs
       (fst (regenerate_thumbs.resize_step disk.rescale_ok disk.encode_ok
               pictures.photo true (disk.start more_disk.shelf []) disk.thumb)))
    "/media/photo/large.jpg"
  = Some "JFIF-large".
Proof.
  rewrite (resize_step_frame disk.rescale_ok disk.encode_ok pictures.photo true
             (disk.start more_disk.shelf []) disk.thumb "/media/photo/large.jpg");
    [reflexivity | discriminate | discriminate].
Defined.

Lemma run_skips_generated_witness :
  exists st',
    regenerate_thumbs.run disk.rescale_ok disk.encode_ok pictures.photo false
      (disk.start more_disk.shelf []) [disk.thumb; more_disk.large]
    = (st', [regenerate_thumbs.Skipped; regenerate_thumbs.Skipped])
    /\ regenerate_thumbs.fs st' = more_disk.shelf.
Proof.
  destruct (run_skips_generated disk.rescale_ok disk.encode_ok pictures.photo
              [disk.thumb; more_disk.large] (disk.start more_disk.shelf []))
    as (st' & Hrun & Hfs & _).
  - repeat constructor.
    + exists "JFIF-old". split; [reflexivity | discriminate].
    + exists "JFIF-large". split; [reflexivity | discriminate].
  - exists st'. split; [exact Hrun | exact Hfs].
Defined.

Lemma regenerated_then_skipped_witness :
  snd (regenerate_thumbs.resize_step disk.rescale_fails disk.encode_breaks
         pictures.small false
         (fst (regenerate_thumbs.resize_step disk.rescale_ok disk.encode_ok
                 pictures.photo true (disk.start disk.stale []) disk.thumb))
         disk.thumb)
  = regenerate_thumbs.Skipped.
Proof.
  apply (regenerated_then_skipped disk.rescale_ok disk.encode_ok pictures.photo
           true (disk.start disk.stale [])).
  - reflexivity.
  - intros thumbnail. discriminate.
Defined.

Lemma first_rescale_failure_aborts_witness :
  regenerate_thumbs.resize_image disk.rescale_fails disk.encode_ok
    pictures.photo true [disk.thumb; more_disk.large] more_disk.upload ["y"]
  = ({| regenerate_thumbs.fs := more_disk.prepared;
        regenerate_thumbs.tmp_path := None;
        regenerate_thumbs.stdin := ["y"];
        regenerate_thumbs.trace :=
          [regenerate_thumbs.Converting "thumb";
           regenerate_thumbs.Creating "/media/photo"] |},
     [regenerate_thumbs.Aborted (Py.UnboundLocalError "tmp_path")])
  /\ os.file_at more_disk.prepared "/media/photo.jpg" = Some "JFIF-original".
Proof.
  destruct (first_rescale_failure_aborts disk.rescale_fails disk.encode_ok
              pictures.photo true disk.thumb [more_disk.large]
              more_disk.upload more_disk.prepared ["y"]
              (Py.Exception "cannot identify image file"))
    as [Hrun Hfiles]; try reflexivity.
  split; [exact Hrun|]. rewrite Hfiles. reflexivity.
Defined.

Lemma encoder_failure_asks_witness :
  regenerate_thumbs.stdin
    (fst (regenerate_thumbs.resize_step disk.rescale_ok disk.encode_breaks
            pictures.photo true (disk.start disk.stale [" N "; "y"]) disk.thumb))
  = ["y"]
  /\ snd (regenerate_thumbs.resize_step disk.rescale_ok disk.encode_breaks
            pictures.photo true (disk.start disk.stale [" N "; "y"]) disk.thumb)
     = regenerate_thumbs.Aborted (Py.SystemExit "Exiting...").
Proof.
  apply (encoder_failure_asks disk.rescale_ok disk.encode_breaks pictures.photo
           true (disk.start disk.stale [" N "; "y"]) disk.thumb
           (image.resize pictures.photo (100, 75) image.ANTIALIAS) (Some "JF"));
    reflexivity.
Defined.

(** ** regenerate_thumbs.py: more on [get_sizes] *)

(** ** Strings as lists of characters *)

Lemma chars_app (a b : string) :
  shape.chars (a ++ b) = (shape.chars a ++ shape.chars b)%list.
Proof.
  unfold shape.chars.
  induction a as [|c a IH]; simpl; [reflexivity | rewrite IH; reflexivity].
Qed.

Lemma of_chars_app (a b : list ascii) :
  string_of_list_ascii (a ++ b)
  = (string_of_list_ascii a ++ string_of_list_ascii b)%string.
Proof. induction a as [|c a IH]; simpl; [reflexivity | rewrite IH; reflexivity]. Qed.

Lemma chars_inj (a b : string) : shape.chars a = shape.chars b -> a = b.
Proof.
  unfold shape.chars. intros H.
  rewrite <- (string_of_list_ascii_of_string a),
          <- (string_of_list_ascii_of_string b), H.
  reflexivity.
Qed.

Lemma string_app_inv_head (p a b : string) :
  (p ++ a)%string = (p ++ b)%string -> a = b.
Proof.
  induction p as [|c p IH]; intros H; [exact H|].
  change (String c (p ++ a) = String c (p ++ b)) in H.
  injection H as H. auto.
Qed.

Lemma string_app_inv_tail (a b e : string) :
  (a ++ e)%string = (b ++ e)%string -> a = b.
Proof.
  intros H. apply chars_inj.
  apply (f_equal shape.chars) in H. rewrite !chars_app in H.
  exact (app_inv_tail _ _ _ H).
Qed.

Lemma string_app_assoc (a b c : string) :
  ((a ++ b) ++ c)%string = (a ++ (b ++ c))%string.
Proof.
  induction a as [|x a IH]; [reflexivity|].
  change (String x ((a ++ b) ++ c) = String x (a ++ (b ++ c))).
  rewrite IH. reflexivity.
Qed.

(** ** Cutting a list at a character *)

Lemma ascii_eqb_refl (c : ascii) : Ascii.eqb c c = true.
Proof. apply Ascii.eqb_eq. reflexivity. Qed.

Lemma before_app_notin (c : ascii) (l r : list ascii) :
  ~ In c l -> os_path.before c (l ++ r) = (l ++ os_path.before c r)%list.
Proof.
  induction l as [|x l IH]; simpl; intros H; [reflexivity|].
  destruct (Ascii.eqb x c) eqn:E.
  - apply Ascii.eqb_eq in E. exfalso. apply H. left. exact E.
  - rewrite IH; [reflexivity|]. intros Hin. apply H. right. exact Hin.
Qed.

Lemma from_app_notin (c : ascii) (l r : list ascii) :
  ~ In c l -> os_path.from c (l ++ r) = os_path.from c r.
Proof.
  induction l as [|x l IH]; simpl; intros H; [reflexivity|].
  destruct (Ascii.eqb x c) eqn:E.
  - apply Ascii.eqb_eq in E. exfalso. apply H. left. exact E.
  - apply IH. intros Hin. apply H. right. exact Hin.
Qed.

Lemma before_app_in (c : ascii) (l r : list ascii) :
  In c l -> os_path.before c (l ++ r) = os_path.before c l.
Proof.
  induction l as [|x l IH]; simpl; intros H; [contradiction|].
  destruct (Ascii.eqb x c) eqn:E; [reflexivity|].
  destruct H as [H|H].
  - subst x. rewrite ascii_eqb_refl in E. discriminate.
  - rewrite IH by exact H. reflexivity.
Qed.

Lemma from_app_in (c : ascii) (l r : list ascii) :
  In c l -> os_path.from c (l ++ r) = (os_path.from c l ++ r)%list.
Proof.
  induction l as [|x l IH]; simpl; intros H; [contradiction|].
  destruct (Ascii.eqb x c) eqn:E; [reflexivity|].
  destruct H as [H|H].
  - subst x. rewrite ascii_eqb_refl in E. discriminate.
  - apply IH. exact H.
Qed.

Lemma before_notin (c : ascii) (l : list ascii) :
  ~ In c l -> os_path.before c l = l /\ os_path.from c l = [].
Proof.
  intros H. pose proof (before_app_notin c l [] H) as H1.
  pose proof (from_app_notin c l [] H) as H2.
  rewrite app_nil_r in H1, H2. simpl in H1, H2.
  rewrite app_nil_r in H1. split; assumption.
Qed.

Lemma before_from (c : ascii) (l : list ascii) :
  (os_path.before c l ++ os_path.from c l)%list = l.
Proof.
  induction l as [|x l IH]; simpl; [reflexivity|].
  destruct (Ascii.eqb x c); simpl; [reflexivity | rewrite IH; reflexivity].
Qed.

Lemma from_head (c : ascii) (l : list ascii) :
  os_path.from c l = [] \/ exists r, os_path.from c l = c :: r.
Proof.
  induction l as [|x l IH]; simpl; [left; reflexivity|].
  destruct (Ascii.eqb x c) eqn:E; [|exact IH].
  apply Ascii.eqb_eq in E. subst x. right. eauto.
Qed.

Lemma ends_with_slash_chars (s : string) :
  os_path.ends_with_slash s = false ->
  s <> "" ->
  exists x l, List.rev (shape.chars s) = x :: l /\ x <> os_path.slash.
Proof.
  unfold os_path.ends_with_slash, shape.chars. intros H Hne.
  destruct (List.rev (list_ascii_of_string s)) as [|x l] eqn:E.
  - exfalso. apply Hne.
    apply (f_equal (@List.rev ascii)) in E. rewrite List.rev_involutive in E.
    simpl in E. apply chars_inj. exact E.
  - exists x, l. split; [reflexivity|].
    intros ->. rewrite ascii_eqb_refl in H. discriminate.
Qed.

(** ** [os.path] on plain paths *)

(** [split] undoes joining a plain directory and a name without slash. *)
Lemma split_plain (dir file : string) :
  shape.plain_dir dir -> shape.free_of os_path.slash file ->
  os_path.split (dir ++ "/" ++ file) = (dir, file).
Proof.
  intros [Hne Hend] Hfree.
  destruct (ends_with_slash_chars dir Hend Hne) as (x & l & Hrev & Hx).
  unfold os_path.split.
  change (list_ascii_of_string (dir ++ "/" ++ file))
    with (shape.chars (dir ++ "/" ++ file)).
  rewrite !chars_app, !List.rev_app_distr. simpl.
  change (shape.chars "/") with [os_path.slash]. simpl.
  assert (Hfree' : ~ In os_path.slash (List.rev (shape.chars file)))
    by (intros Hin; apply Hfree, in_rev; exact Hin).
  rewrite <- app_assoc.
  rewrite before_app_notin, from_app_notin by exact Hfree'.
  simpl. rewrite app_nil_r, List.rev_involutive.
  rewrite Hrev. simpl.
  destruct (Ascii.eqb x os_path.slash) eqn:E;
    [apply Ascii.eqb_eq in E; contradiction|].
  cbn [andb negb]. f_equal.
  - rewrite <- Hrev, List.rev_involutive.
    apply string_of_list_ascii_of_string.
  - apply string_of_list_ascii_of_string.
Qed.

Lemma starts_with_slash_free (s : string) :
  shape.free_of os_path.slash s -> os_path.starts_with_slash s = false.
Proof.
  unfold shape.free_of, shape.chars. destruct s as [|c s]; simpl; [reflexivity|].
  intros H. destruct (Ascii.eqb c os_path.slash) eqn:E; [|reflexivity].
  apply Ascii.eqb_eq in E. exfalso. apply H. left. exact E.
Qed.

(** [join] puts one slash between a plain directory and a name that
    does not start with one. *)
Lemma join_plain (dir name : string) :
  shape.plain_dir dir -> os_path.starts_with_slash name = false ->
  os_path.join dir name = (dir ++ "/" ++ name)%string.
Proof.
  intros [Hne Hend] Hname. unfold os_path.join. rewrite Hname, Hend.
  apply String.eqb_neq in Hne. rewrite Hne. reflexivity.
Qed.

(** What [splitext] cuts apart concatenates to the path it was given. *)
Lemma splitext_join (p : string) :
  (fst (os_path.splitext p) ++ snd (os_path.splitext p))%string = p.
Proof.
  unfold os_path.splitext.
  pose proof (before_from os_path.dot (List.rev (list_ascii_of_string p))) as Hcut.
  destruct (os_path.from os_path.dot (List.rev (list_ascii_of_string p)))
    as [|d root_rev] eqn:Hfrom; simpl.
  - apply chars_inj. rewrite chars_app. apply app_nil_r.
  - destruct (existsb _ _); simpl;
      [apply chars_inj; rewrite chars_app; apply app_nil_r|].
    destruct (os_path.only _ _); simpl;
      [apply chars_inj; rewrite chars_app; apply app_nil_r|].
    change (String d (string_of_list_ascii
                        (List.rev (os_path.before os_path.dot
                                     (List.rev (list_ascii_of_string p))))))
      with (string_of_list_ascii
              (d :: List.rev (os_path.before os_path.dot
                                (List.rev (list_ascii_of_string p))))).
    rewrite <- of_chars_app.
    apply (f_equal (@List.rev ascii)) in Hcut.
    rewrite List.rev_app_distr, List.rev_involutive in Hcut. simpl in Hcut.
    rewrite <- app_assoc in Hcut. simpl in Hcut.
    rewrite Hcut. apply string_of_list_ascii_of_string.
Qed.

Lemma plain_dir_app (dir name : string) :
  shape.plain_dir dir -> name <> "" -> shape.free_of os_path.slash name ->
  shape.plain_dir (dir ++ "/" ++ name).
Proof.
  intros [Hne Hend] Hname Hfree. split.
  - destruct dir; [contradiction | discriminate].
  - unfold os_path.ends_with_slash.
    change (list_ascii_of_string (dir ++ "/" ++ name))
      with (shape.chars (dir ++ "/" ++ name)).
    rewrite !chars_app, !List.rev_app_distr.
    destruct (List.rev (shape.chars name)) as [|x l] eqn:E.
    + exfalso. apply Hname. apply chars_inj.
      apply (f_equal (@List.rev ascii)) in E.
      rewrite List.rev_involutive in E. exact E.
    + simpl. destruct (Ascii.eqb x os_path.slash) eqn:Ex; [|reflexivity].
      apply Ascii.eqb_eq in Ex. subst x. exfalso. apply Hfree.
      apply in_rev. fold (shape.chars name). rewrite E. left. reflexivity.
Qed.

Lemma free_of_app (c : ascii) (a b : string) :
  shape.free_of c (a ++ b) <-> shape.free_of c a /\ shape.free_of c b.
Proof.
  unfold shape.free_of. rewrite chars_app, in_app_iff. tauto.
Qed.

(** ** models.py and regenerate_thumbs.py: where thumbnails go *)

(** What [thumbnail_path] puts before and after the slug depends on the
    image alone. *)
Lemma thumbnail_path_around (cd_image : regenerate_thumbs.CropDusterImage) :
  exists prefix extension,
    forall size, os_path.starts_with_slash (regenerate_thumbs.slug size) = false ->
      regenerate_thumbs.thumbnail_path cd_image size
      = (prefix ++ regenerate_thumbs.slug size ++ extension)%string.
Proof.
  unfold regenerate_thumbs.thumbnail_path.
  destruct (os_path.split (regenerate_thumbs.image_path cd_image))
    as [file_path file].
  destruct (os_path.splitext file) as [file_root extension].
  set (base := os_path.join file_path file_root).
  destruct (String.eqb base "" || os_path.ends_with_slash base) eqn:E.
  - exists base, extension. intros size Hs.
    unfold os_path.join at 1. fold base. rewrite Hs, E.
    apply string_app_assoc.
  - exists (base ++ "/")%string, extension. intros size Hs.
    unfold os_path.join at 1. fold base. rewrite Hs, E.
    rewrite !string_app_assoc. reflexivity.
Qed.

(** X23.  Two sizes of one image whose slugs differ never share a
    destination (slugs do not start with a slash). *)
Theorem thumbnail_path_injective (cd_image : regenerate_thumbs.CropDusterImage)
    (a b : regenerate_thumbs.SizeRow) :
  os_path.starts_with_slash (regenerate_thumbs.slug a) = false ->
  os_path.starts_with_slash (regenerate_thumbs.slug b) = false ->
  regenerate_thumbs.slug a <> regenerate_thumbs.slug b ->
  regenerate_thumbs.thumbnail_path cd_image a
  <> regenerate_thumbs.thumbnail_path cd_image b.
Proof.
  intros Ha Hb Hne H. apply Hne.
  destruct (thumbnail_path_around cd_image) as (prefix & extension & Hshape).
  rewrite (Hshape a Ha), (Hshape b Hb) in H.
  apply string_app_inv_head in H. apply string_app_inv_tail in H. exact H.
Qed.

(** X24.  For an image stored as [dir/file], with [dir] plain and [file]
    a name that [splitext] cuts into a non-empty root and an extension,
    the thumbnail of a size goes to [dir/root/slug] plus that extension:
    a folder named after the file, next to it, holding one file per
    slug; [resize_image] takes that folder as the directory to create. *)
Theorem thumbnail_path_plain (dir file root extension : string)
    (cd_image : regenerate_thumbs.CropDusterImage)
    (size : regenerate_thumbs.SizeRow) :
  regenerate_thumbs.image_path cd_image = (dir ++ "/" ++ file)%string ->
  shape.plain_dir dir -> shape.free_of os_path.slash file ->
  os_path.splitext file = (root, extension) -> root <> "" ->
  shape.free_of os_path.slash (regenerate_thumbs.slug size) ->
  regenerate_thumbs.thumbnail_path cd_image size
  = (dir ++ "/" ++ root ++ "/" ++ regenerate_thumbs.slug size ++ extension)%string
  /\ fst (os_path.split (regenerate_thumbs.thumbnail_path cd_image size))
     = (dir ++ "/" ++ root)%string.
Proof.
  intros Hpath Hdir Hfile Hext Hroot Hslug.
  pose proof (splitext_join file) as Hcat. rewrite Hext in Hcat. simpl in Hcat.
  assert (Hparts : shape.free_of os_path.slash root
                   /\ shape.free_of os_path.slash extension).
  { apply free_of_app. rewrite Hcat. exact Hfile. }
  destruct Hparts as [Hr He].
  assert (Hfolder : shape.plain_dir (dir ++ "/" ++ root))
    by (apply plain_dir_app; assumption).
  assert (Hthumb : regenerate_thumbs.thumbnail_path cd_image size
                   = ((dir ++ "/" ++ root) ++ "/"
                      ++ (regenerate_thumbs.slug size ++ extension))%string).
  { unfold regenerate_thumbs.thumbnail_path.
    rewrite Hpath, (split_plain dir file Hdir Hfile), Hext.
    rewrite (join_plain dir root Hdir (starts_with_slash_free root Hr)).
    rewrite (join_plain _ _ Hfolder (starts_with_slash_free _ Hslug)).
    rewrite !string_app_assoc. reflexivity. }
  split.
  - rewrite Hthumb, !string_app_assoc. reflexivity.
  - rewrite Hthumb, split_plain; [reflexivity | exact Hfolder|].
    apply free_of_app. split; assumption.
Qed.

Lemma thumbnail_path_injective_witness :
  regenerate_thumbs.thumbnail_path disk.original more_sizes.thumb
  <> regenerate_thumbs.thumbnail_path disk.original more_paths.poster.
Proof.
  apply (thumbnail_path_injective disk.original more_sizes.thumb
           more_paths.poster); [reflexivity | reflexivity | discriminate].
Defined.

Lemma thumbnail_path_plain_witness :
  regenerate_thumbs.thumbnail_path disk.original more_paths.poster
  = "/media/photo/poster.jpg"
  /\ fst (os_path.split
            (regenerate_thumbs.thumbnail_path disk.original more_paths.poster))
     = "/media/photo".
Proof.
  apply (thumbnail_path_plain "/media" "photo.jpg" "photo" ".jpg"
           disk.original more_paths.poster);
    try reflexivity.
  - split; [discriminate | reflexivity].
  - unfold shape.free_of. simpl. intuition discriminate.
  - discriminate.
  - unfold shape.free_of. simpl. intuition discriminate.
Defined.

Lemma before_free (c : ascii) (l : list ascii) : ~ In c (os_path.before c l).
Proof.
  induction l as [|x l IH]; simpl; [tauto|].
  destruct (Ascii.eqb x c) eqn:E; simpl; [tauto|].
  intros [H|H]; [|exact (IH H)].
  subst x. rewrite ascii_eqb_refl in E. discriminate.
Qed.

Lemma from_nonempty (c : ascii) (l : list ascii) :
  In c l -> exists r, os_path.from c l = c :: r.
Proof.
  intros Hin. destruct (from_head c l) as [H|H]; [|exact H].
  exfalso. pose proof (before_from c l) as Hcut.
  rewrite H, app_nil_r in Hcut.
  apply (before_free c l). rewrite Hcut. exact Hin.
Qed.

Lemma from_suffix (c : ascii) (l : list ascii) (x : ascii) :
  In x (os_path.from c l) -> In x l.
Proof.
  intros H. rewrite <- (before_from c l). apply in_or_app. right. exact H.
Qed.

(** [splitext] looks at the last component only: the directory in front
    of a name without slash stays in front of its root. *)
Lemma splitext_path (dir file : string) :
  shape.free_of os_path.slash file ->
  os_path.splitext (dir ++ "/" ++ file)
  = ((dir ++ "/" ++ fst (os_path.splitext file))%string,
     snd (os_path.splitext file)).
Proof.
  intros Hfree.
  set (F := List.rev (list_ascii_of_string file)).
  set (D := os_path.slash :: List.rev (shape.chars dir)).
  assert (Hrev : List.rev (list_ascii_of_string (dir ++ "/" ++ file))
                 = (F ++ D)%list).
  { change (list_ascii_of_string (dir ++ "/" ++ file))
      with (shape.chars (dir ++ "/" ++ file)).
    rewrite !chars_app, !List.rev_app_distr.
    change (shape.chars "/") with [os_path.slash]. simpl.
    rewrite <- app_assoc. reflexivity. }
  unfold os_path.splitext. rewrite Hrev. fold F.
  assert (HF : ~ In os_path.slash F)
    by (intros Hin; apply Hfree, in_rev; exact Hin).
  assert (Hwhole : forall l, string_of_list_ascii (List.rev (l ++ D))
                        = (dir ++ "/" ++ string_of_list_ascii (List.rev l))%string).
  { intros l. unfold D. rewrite List.rev_app_distr. simpl.
    rewrite List.rev_involutive, <- app_assoc, !of_chars_app.
    unfold shape.chars. rewrite string_of_list_ascii_of_string. reflexivity. }
  assert (HDb : os_path.before os_path.slash D = []) by reflexivity.
  assert (HDs : In os_path.slash (os_path.before os_path.dot D))
    by (left; reflexivity).
  clearbody D.
  destruct (in_dec ascii_dec os_path.dot F) as [Hdot|Hdot].
  - rewrite (before_app_in _ _ D Hdot), (from_app_in _ _ D Hdot).
    destruct (from_nonempty _ _ Hdot) as (root_rev & Hfrom).
    rewrite Hfrom. simpl app.
    assert (Hroot : ~ In os_path.slash root_rev).
    { intros Hin. apply HF. apply (from_suffix os_path.dot).
      rewrite Hfrom. right. exact Hin. }
    cbv iota.
    rewrite (before_app_notin _ _ D Hroot), HDb, app_nil_r.
    rewrite (proj1 (before_notin _ _ Hroot)).
    destruct (existsb _ _); simpl; [reflexivity|].
    destruct (os_path.only os_path.dot root_rev); simpl; [reflexivity|].
    rewrite Hwhole. reflexivity.
  - destruct (before_notin _ _ Hdot) as [Hb Hf].
    rewrite Hf, (before_app_notin _ _ D Hdot), (from_app_notin _ _ D Hdot).
    simpl.
    destruct (os_path.from os_path.dot D) as [|d rr] eqn:HD; [reflexivity|].
    assert (Hslash : existsb (fun x => Ascii.eqb x os_path.slash)
                       (F ++ os_path.before os_path.dot D) = true).
    { apply existsb_exists. exists os_path.slash.
      split; [|apply ascii_eqb_refl].
      apply in_or_app. right. exact HDs. }
    rewrite Hslash. reflexivity.
Qed.

(** X25.  An image derived from an original stored as [dir/file], for a
    size, and without a file of its own, is given as destination the very
    path where [regenerate_thumbs] keeps the thumbnail of that size. *)
Theorem derived_image_destination (dir file : string)
    (self : models_image.Image) (sz : models.ImageSize)
    (cd_image : regenerate_thumbs.CropDusterImage)
    (row : regenerate_thumbs.SizeRow) :
  models_image.image self = None ->
  models_image.original self = Some (Some (dir ++ "/" ++ file)%string) ->
  models_image.size self = Some sz ->
  regenerate_thumbs.image_path cd_image = (dir ++ "/" ++ file)%string ->
  regenerate_thumbs.slug row = models.slug sz ->
  shape.plain_dir dir -> shape.free_of os_path.slash file ->
  models_image.get_dest_img_path self
  = lookups.Got (regenerate_thumbs.thumbnail_path cd_image row).
Proof.
  intros Himage Horig Hsize Hpath Hslug Hdir Hfile.
  unfold models_image.get_dest_img_path, regenerate_thumbs.thumbnail_path.
  rewrite Himage, Horig, Hsize, Hpath, Hslug.
  rewrite (splitext_path dir file Hfile), (split_plain dir file Hdir Hfile).
  pose proof (splitext_join file) as Hcat.
  destruct (os_path.splitext file) as [root extension]. simpl in *.
  assert (Hroot : shape.free_of os_path.slash root).
  { apply (proj1 (free_of_app os_path.slash root extension)).
    rewrite Hcat. exact Hfile. }
  rewrite (join_plain dir root Hdir (starts_with_slash_free root Hroot)).
  reflexivity.
Qed.

Lemma derived_image_destination_witness :
  models_image.get_dest_img_path more_paths.derived
  = lookups.Got "/media/photo/thumb.jpg".
Proof.
  apply (derived_image_destination "/media" "photo.jpg" more_paths.derived
           more_paths.thumb disk.original more_sizes.thumb);
    try reflexivity.
  - split; [discriminate | reflexivity].
  - unfold shape.free_of. simpl. intuition discriminate.
Defined.

(** X26.  The temporary file of a rendering is created in the directory
    of its destination, under the random name followed by the extension
    of the destination: the rename that follows stays in one
    directory. *)
Theorem tmp_img_path_beside (self : models_image.Image)
    (dir base hex : string) :
  models_image.get_dest_img_path self
  = lookups.Got (dir ++ "/" ++ base)%string ->
  shape.plain_dir dir -> shape.free_of os_path.slash base ->
  shape.free_of os_path.slash hex ->
  exists tmp,
    models_image._get_tmp_img_path self hex = lookups.Got tmp
    /\ tmp = (dir ++ "/" ++ hex ++ snd (os_path.splitext base))%string
    /\ fst (os_path.split tmp) = dir.
Proof.
  intros Hdest Hdir Hbase Hhex.
  unfold models_image._get_tmp_img_path.
  rewrite Hdest, (split_plain dir base Hdir Hbase).
  pose proof (splitext_join base) as Hcat.
  assert (Hext : shape.free_of os_path.slash (snd (os_path.splitext base))).
  { apply (proj2 (proj1 (free_of_app os_path.slash _ _)
                    ltac:(rewrite Hcat; exact Hbase))). }
  assert (Hname : shape.free_of os_path.slash
                    (hex ++ snd (os_path.splitext base))).
  { apply free_of_app. split; assumption. }
  rewrite (join_plain dir _ Hdir (starts_with_slash_free _ Hname)).
  eexists. split; [reflexivity|]. split; [reflexivity|].
  rewrite (split_plain dir _ Hdir Hname). reflexivity.
Qed.

Lemma tmp_img_path_beside_witness :
  exists tmp,
    models_image._get_tmp_img_path more_paths.derived "9f86d081884c7d65"
    = lookups.Got tmp
    /\ tmp = "/media/photo/9f86d081884c7d65.jpg"
    /\ fst (os_path.split tmp) = "/media/photo".
Proof.
  apply (tmp_img_path_beside more_paths.derived "/media/photo" "thumb.jpg"
           "9f86d081884c7d65");
    try reflexivity.
  - split; [discriminate | reflexivity].
  - unfold shape.free_of. simpl. intuition discriminate.
  - unfold shape.free_of. simpl. intuition discriminate.
Defined.

(** X27.  For an image stored as [dir/file], [folder_path] followed by
    [extension] spells the stored path again: the folder of the
    thumbnails is the path of the file without its extension. *)
Theorem folder_path_extension (self : models_image.Image)
    (dir file : string) :
  models_image.image self = Some (dir ++ "/" ++ file)%string ->
  shape.plain_dir dir -> shape.free_of os_path.slash file ->
  exists folder ext,
    models_image.folder_path self = lookups.Got folder
    /\ models_image.extension self = lookups.Got ext
    /\ (folder ++ ext)%string = (dir ++ "/" ++ file)%string.
Proof.
  intros Himage Hdir Hfile.
  unfold models_image.folder_path, models_image.extension,
    models_image.image_path.
  rewrite Himage, (splitext_path dir file Hfile),
    (split_plain dir file Hdir Hfile).
  pose proof (splitext_join file) as Hcat.
  destruct (os_path.splitext file) as [file_root extension]. simpl in *.
  assert (Hroot : shape.free_of os_path.slash file_root).
  { apply (proj1 (free_of_app os_path.slash file_root extension)).
    rewrite Hcat. exact Hfile. }
  rewrite (join_plain dir file_root Hdir
             (starts_with_slash_free file_root Hroot)).
  eexists. eexists. split; [reflexivity|]. split; [reflexivity|].
  rewrite !string_app_assoc, Hcat. reflexivity.
Qed.

Lemma folder_path_extension_witness :
  exists folder ext,
    models_image.folder_path more_paths.stored = lookups.Got folder
    /\ models_image.extension more_paths.stored = lookups.Got ext
    /\ (folder ++ ext)%string = "/media/photo.jpg".
Proof.
  apply (folder_path_extension more_paths.stored "/media" "photo.jpg");
    try reflexivity.
  - split; [discriminate | reflexivity].
  - unfold shape.free_of. simpl. intuition discriminate.
Defined.

(** ** utils/image.py: colour spaces *)

Section colorspace_facts.

Variable convert : string -> colorspace.Picture -> colorspace.Picture.

(** [im.convert(mode)] hands back an image in that mode. *)
Hypothesis convert_mode :
  forall m im, colorspace.mode (convert m im) = m.

Lemma one_of_2 (m a b : string) :
  colorspace.one_of m [a; b] = true <-> m = a \/ m = b.
Proof.
  unfold colorspace.one_of. simpl. rewrite !orb_true_iff, !String.eqb_eq.
  intuition discriminate.
Qed.

Lemma correct_colorspace_mode (im : colorspace.Picture) (bw : bool) :
  colorspace.one_of
    (colorspace.mode (colorspace.correct_colorspace convert im bw))
    (if bw then ["L"; "LA"] else ["L"; "RGB"]) = true.
Proof.
  unfold colorspace.correct_colorspace.
  destruct bw.
  - destruct (colorspace.one_of (colorspace.mode im) ["L"; "LA"]) eqn:E;
      [exact E|].
    destruct (colorspace.is_transparent (colorspace.PIL im));
      rewrite convert_mode; reflexivity.
  - destruct (colorspace.one_of (colorspace.mode im) ["L"; "RGB"]) eqn:E;
      [exact E|].
    rewrite convert_mode. reflexivity.
Qed.

(** X28.  [correct_colorspace] ends in a greyscale mode (L or LA) when
    [bw] is set and in L or RGB otherwise, and a second pass over its
    result converts nothing: it returns the image it is given. *)
Theorem correct_colorspace_settles (im : colorspace.Picture) (bw : bool) :
  let done := colorspace.correct_colorspace convert im bw in
  colorspace.one_of (colorspace.mode done)
    (if bw then ["L"; "LA"] else ["L"; "RGB"]) = true
  /\ colorspace.correct_colorspace convert done bw = done.
Proof.
  intros done. pose proof (correct_colorspace_mode im bw) as Hmode.
  fold done in Hmode. split; [exact Hmode|].
  unfold colorspace.correct_colorspace at 1.
  destruct bw; rewrite Hmode; reflexivity.
Qed.

(** X29.  A greyscale rendering is transparent exactly when the source
    was; a colour rendering never is: [correct_colorspace] without [bw]
    drops the alpha channel of every image it converts. *)
Theorem correct_colorspace_transparency (im : colorspace.Picture)
    (bw : bool) :
  colorspace.is_transparent
    (colorspace.PIL (colorspace.correct_colorspace convert im bw))
  = bw && colorspace.is_transparent (colorspace.PIL im).
Proof.
  assert (Hopaque : forall p : colorspace.Picture,
             colorspace.mode p = "L" \/ colorspace.mode p = "RGB" ->
             colorspace.is_transparent (colorspace.PIL p) = false).
  { intros p [H|H]; unfold colorspace.is_transparent; rewrite H;
      reflexivity. }
  unfold colorspace.correct_colorspace.
  destruct bw; cbn [andb].
  - destruct (colorspace.one_of (colorspace.mode im) ["L"; "LA"]) eqn:E;
      [reflexivity|].
    destruct (colorspace.is_transparent (colorspace.PIL im)) eqn:T.
    + unfold colorspace.is_transparent. rewrite convert_mode. reflexivity.
    + apply Hopaque. left. apply convert_mode.
  - destruct (colorspace.one_of (colorspace.mode im) ["L"; "RGB"]) eqn:E.
    + apply Hopaque. apply one_of_2. exact E.
    + apply Hopaque. right. apply convert_mode.
Qed.

End colorspace_facts.

Lemma correct_colorspace_settles_witness :
  let done :=
    colorspace.correct_colorspace colorspace.keeping_info
      colorspace.cutout true in
  colorspace.one_of (colorspace.mode done) ["L"; "LA"] = true
  /\ colorspace.correct_colorspace colorspace.keeping_info done true = done.
Proof.
  apply (correct_colorspace_settles colorspace.keeping_info
           (fun m im => eq_refl) colorspace.cutout true).
Defined.

Lemma correct_colorspace_transparency_witness :
  colorspace.is_transparent
    (colorspace.PIL
       (colorspace.correct_colorspace colorspace.keeping_info
          colorspace.cutout false))
  = false.
Proof.
  apply (correct_colorspace_transparency colorspace.keeping_info
           (fun m im => eq_refl) colorspace.cutout false).
Defined.

(** ** utils/image.py: the extension of a format *)

Lemma IMAGE_EXTENSIONS_dotted :
  Forall (fun e => formats.dotted (snd e)) formats.IMAGE_EXTENSIONS.
Proof.
  unfold formats.IMAGE_EXTENSIONS.
  repeat (constructor; [eexists; reflexivity|]).
  constructor.
Qed.

Lemma item_in (k v : string) (d : list (string * string)) :
  formats.item k d = Some v -> In (k, v) d.
Proof.
  induction d as [|[k' v'] d IH]; simpl; [discriminate|].
  destruct (String.eqb k' k) eqn:E.
  - intros H. injection H as ->. apply String.eqb_eq in E. subst k'.
    left. reflexivity.
  - intros H. right. exact (IH H).
Qed.

Lemma registered_in (format ext : string) (d : list (string * string)) :
  formats.registered format d = Some ext -> In (ext, format) d.
Proof.
  induction d as [|[e f] d IH]; simpl; [discriminate|].
  destruct (String.eqb f format) eqn:E.
  - intros H. injection H as ->. apply String.eqb_eq in E. subst f.
    left. reflexivity.
  - intros H. right. exact (IH H).
Qed.

(** X30.  When every extension in PIL's registry starts with a dot,
    [get_image_extension] answers an image that has a format with a
    string that starts with a dot, whatever the format is; an image
    without format (which [is_animated_gif] accepts) makes it fail on
    the attribute [lower] of [None]. *)
Theorem get_image_extension_dotted (EXTENSION : list (string * string))
    (img : image.Image) :
  Forall (fun e => formats.dotted (fst e)) EXTENSION ->
  match image.format img with
  | Some _ =>
      exists ext, formats.get_image_extension EXTENSION img = lookups.Got ext
                  /\ formats.dotted ext
  | None =>
      exists what, formats.get_image_extension EXTENSION img
                   = lookups.Fails (lookups.AttributeError what)
  end.
Proof.
  intros Hreg. unfold formats.get_image_extension.
  destruct (image.format img) as [format|]; [|eexists; reflexivity].
  destruct (formats.item format formats.IMAGE_EXTENSIONS) as [ext|] eqn:Hitem.
  - exists ext. split; [reflexivity|].
    apply item_in in Hitem.
    pose proof IMAGE_EXTENSIONS_dotted as Hall.
    rewrite List.Forall_forall in Hall. exact (Hall _ Hitem).
  - destruct (formats.registered format EXTENSION) as [ext|] eqn:Hr.
    + exists ext. split; [reflexivity|].
      apply registered_in in Hr.
      rewrite List.Forall_forall in Hreg. exact (Hreg _ Hr).
    + eexists. split; [reflexivity|]. eexists. reflexivity.
Qed.

Lemma get_image_extension_dotted_witness :
  exists ext,
    formats.get_image_extension more_paths.EXTENSION more_paths.webp
    = lookups.Got ext
    /\ formats.dotted ext.
Proof.
  apply (get_image_extension_dotted more_paths.EXTENSION more_paths.webp).
  unfold more_paths.EXTENSION.
  repeat (constructor; [eexists; reflexivity|]).
  constructor.
Defined.
